(** * Boundless-DAS alignment trainer: a shallow embedding

    The development follows the Python sources of the repository:

    - [trainer.py]: [AlpacaAligner.prealign_eval], [AlpacaAligner.train]
      and [AlpacaAligner.call_model];
    - [run_alignment.py]: the imports of the script, the configuration,
      [get_model], [get_task], the run identity string and
      [compute_metrics];
    - [tasks/continent_matching.py]: the construction of the task, the
      samplers, example encoding and [prepare_dataloader].

    Python exceptions are results of type [res]; integers are [Z]; Python
    floats are exact rationals [Q], the places where the interpreter or torch
    rounds being collaborators of class [FloatOps].  The pretrained model and
    the tokenizer are opaque collaborators too ([ModelOracle], [Tokenizer]). *)

From Stdlib Require Import ZArith QArith Qfield Lqa Lia Permutation.
From Stdlib Require Import Ascii DecimalString DecimalPos DecimalZ.
From stdpp Require Import base option list strings gmap.

Local Open Scope Z_scope.

(** ** Python results and exceptions *)

Inductive exn : Type :=
| ZeroDivisionError
| IndexError
| KeyError (key : string)
| NameError (name : string)
| RuntimeError
| ValueError (msg : string).

Inductive res (A : Type) : Type :=
| Ok (a : A)
| Raise (e : exn).

Arguments Ok {A} a.
Arguments Raise {A} e.

Definition res_bind {A B : Type} (m : res A) (k : A -> res B) : res B :=
  match m with
  | Ok a => k a
  | Raise e => Raise e
  end.

#[global] Instance res_ret : MRet res := fun _ a => Ok a.
#[global] Instance res_mbind : MBind res := fun _ _ k m => res_bind m k.

(** [a % b] on Python integers: the sign follows the divisor, and a zero
    divisor raises. *)
Definition py_mod (a b : Z) : res Z :=
  if b =? 0 then Raise ZeroDivisionError else Ok (a mod b).

(** [a / b] on Python integers (true division, exact here). *)
Definition py_truediv (a b : Z) : res Q :=
  if b =? 0 then Raise ZeroDivisionError else Ok (inject_Z a / inject_Z b)%Q.

(** [xs[i]] for [0 <= i]. *)
Definition py_index {A : Type} (xs : list A) (i : Z) : res A :=
  if i <? 0 then Raise IndexError
  else match nth_error xs (Z.to_nat i) with
       | Some x => Ok x
       | None => Raise IndexError
       end.

(** [xs[-1] = v] on a Python list. *)
Definition py_set_last {A : Type} (xs : list A) (v : A) : res (list A) :=
  match xs with
  | [] => Raise IndexError
  | _ => Ok (removelast xs ++ [v])
  end.

(** [xs[-1:]] on a Python list. *)
Definition py_last_slice {A : Type} (xs : list A) : list A :=
  skipn (length xs - 1)%nat xs.

(** [str(n)] for a Python integer. *)
Definition py_str_int (n : Z) : string :=
  NilZero.string_of_int (Z.to_int n).

(** ** Floating point collaborators *)

Class FloatOps : Type := {
  (** [round(x, 2)] of the interpreter *)
  round2 : Q -> Q;
  (** [.to(torch.bfloat16)] on one entry *)
  to_bfloat16 : Q -> Q
}.

(** Exact arithmetic: no rounding at all. *)
Definition exact_ops : FloatOps :=
  {| round2 := fun q => q; to_bfloat16 := fun q => q |}.

(** ** Accuracy ([trainer.py], [run_alignment.py]) *)

(** [correct_labels.sum().tolist()] *)
Definition tensor_sum (correct_labels : list bool) : Z :=
  Z.of_nat (length (filter (fun b => b = true) correct_labels)).

Section Accuracy.
Context `{FloatOps}.

(** [round(correct_count / total_count, 2)] *)
Definition rounded_accuracy (correct_count total_count : Z) : res Q :=
  q ← py_truediv correct_count total_count;
  Ok (round2 q).

End Accuracy.

(** [x < y] on Python numbers *)
Definition Qlt_bool (x y : Q) : bool := negb (Qle_bool y x).

(** ** The model under alignment ([trainer.py])

    The pretrained network is opaque.  What the trainer can observe of it is
    kept symbolically: the train/eval flag, the temperature pushed by
    [set_temperature], the gradient buffer of the alignment parameters (the
    training steps whose loss has been back-propagated since the last
    [zero_grad], each with the divisor applied to its loss) and the optimizer
    steps applied so far (each with the gradient buffer it consumed). *)

Record Model : Type := {
  training : bool;
  temperature : Q;
  grad : list (Z * Z);
  updates : list (list (Z * Z))
}.

Definition set_training (b : bool) (m : Model) : Model :=
  {| training := b; temperature := temperature m;
     grad := grad m; updates := updates m |}.

Definition set_temperature (t : Q) (m : Model) : Model :=
  {| training := training m; temperature := t;
     grad := grad m; updates := updates m |}.

(** [loss.backward(inputs=get_learnable_alignment_parameters())]: the
    gradient of the step's loss is added to the buffer. *)
Definition backward (step divisor : Z) (m : Model) : Model :=
  {| training := training m; temperature := temperature m;
     grad := grad m ++ [(step, divisor)]; updates := updates m |}.

(** [optimizer.step()]: the update consumes the buffer as it stands. *)
Definition optimizer_step (m : Model) : Model :=
  {| training := training m; temperature := temperature m;
     grad := grad m; updates := updates m ++ [grad m] |}.

(** [model.zero_grad()] *)
Definition zero_grad (m : Model) : Model :=
  {| training := training m; temperature := temperature m;
     grad := []; updates := updates m |}.

(** The batches, the tokenizer's decoding of the gold last token and of the
    model's output, and [str.lower].  [pred_decoded] may depend on everything
    the model holds. *)
Class ModelOracle : Type := {
  Batch : Type;
  lower : string -> string;
  target_decoded : Batch -> list string;
  pred_decoded : Model -> Batch -> list string
}.

Inductive sink : Type := Wandb | LogFile.

Inductive split : Type := Prealign | Dev | Test.

Inductive event : Type :=
| EvLogHeader
| EvSetMode (train_mode : bool)
| EvSetTemperature (t : Q)
| EvLogTrain (s : sink) (step : Z)
| EvEvalPass (sp : split) (step : Z) (n_batches : nat)
    (train_mode : bool) (grad_enabled : bool)
| EvLoggerInfo (acc : Q)
| EvLogEval (s : sink) (sp : split) (step : Z) (acc : Q)
| EvSaveModel (name : string) (rotation : list (list (Z * Z)))
    (temp : Q)
| EvBackward (step : Z)
| EvLogGradients
| EvOptimizerStep (contributions : list (Z * Z))
| EvSchedulerStep
| EvZeroGrad.

(** The fields of [self] the two methods read. *)
Record Aligner : Type := {
  is_master : bool;
  is_wandb : bool
}.

(** The locals of [train] that live across steps, the model, and what the
    run has done so far. *)
Record TrainState : Type := {
  model : Model;
  total_step : Z;
  total_log_step : Z;
  best_eval_acc : Q;
  trace : list event
}.

Definition emit (evs : list event) (st : TrainState) : TrainState :=
  {| model := model st; total_step := total_step st;
     total_log_step := total_log_step st;
     best_eval_acc := best_eval_acc st; trace := trace st ++ evs |}.

Definition with_model (f : Model -> Model) (st : TrainState) : TrainState :=
  {| model := f (model st); total_step := total_step st;
     total_log_step := total_log_step st;
     best_eval_acc := best_eval_acc st; trace := trace st |}.

Definition with_best (acc : Q) (st : TrainState) : TrainState :=
  {| model := model st; total_step := total_step st;
     total_log_step := total_log_step st;
     best_eval_acc := acc; trace := trace st |}.

Definition incr_log_step (st : TrainState) : TrainState :=
  {| model := model st; total_step := total_step st;
     total_log_step := total_log_step st + 1;
     best_eval_acc := best_eval_acc st; trace := trace st |}.

Definition incr_step (st : TrainState) : TrainState :=
  {| model := model st; total_step := total_step st + 1;
     total_log_step := total_log_step st;
     best_eval_acc := best_eval_acc st; trace := trace st |}.

(** [torch.linspace(start, end, steps)]: the first half counts up from
    [start], the second half counts down from [end]. *)
Definition linspace_entry (start end_ : Q) (steps i : Z) : Q :=
  let step := ((end_ - start) / inject_Z (steps - 1))%Q in
  if i <? steps / 2 then (start + step * inject_Z i)%Q
  else (end_ - step * inject_Z (steps - i - 1))%Q.

Definition linspace (start end_ : Q) (steps : Z) : res (list Q) :=
  if steps <? 0 then Raise RuntimeError
  else if steps =? 1 then Ok [start]
  else Ok (map (fun i : nat => linspace_entry start end_ steps (Z.of_nat i))
             (seq 0 (Z.to_nat steps))).

Definition temperature_start : Q := 50.
Definition temperature_end : Q := 1 # 10.

Definition save_model (name : string) (st : TrainState) : TrainState :=
  emit [EvSaveModel name (updates (model st)) (temperature (model st))] st.

Section Trainer.
Context `{FloatOps} `{ModelOracle}.

(** The list comprehension over [zip(target_decoded, pred_decoded)]. *)
Definition correct_labels (targets preds : list string) : list bool :=
  map (fun tp : string * string => bool_decide (lower tp.1 = lower tp.2))
    (zip targets preds).

(** One pass over a dataloader: [(total_count, correct_count)]. *)
Definition eval_counts (m : Model) (dataloader : list Batch) : Z * Z :=
  fold_left
    (fun (acc : Z * Z) (inputs : Batch) =>
       let cl := correct_labels (target_decoded inputs)
                   (pred_decoded m inputs) in
       (acc.1 + Z.of_nat (length cl), acc.2 + tensor_sum cl))
    dataloader (0, 0).

Definition log_sink (self : Aligner) : sink :=
  if is_wandb self then Wandb else LogFile.

(** [AlpacaAligner.prealign_eval]: the model after the call and the events,
    or the exception. *)
Definition prealign_eval (self : Aligner) (m : Model)
    (prealign_dataloader : list Batch) : res (Model * list event) :=
  let m := set_training false m in
  let counts := eval_counts m prealign_dataloader in
  current_acc ← rounded_accuracy counts.2 counts.1;
  let log :=
    if is_master self && negb (is_wandb self)
    then [EvLogEval LogFile Prealign 0 current_acc]
    else if is_wandb self then [EvLogEval Wandb Prealign 0 current_acc]
    else [] in
  Ok (m, [EvSetMode false;
          EvEvalPass Prealign 0 (length prealign_dataloader) false false;
          EvLoggerInfo current_acc]
         ++ log).

(** The periodic evaluation of [train] (the body of the test on
    [valid_steps]). *)
Definition periodic_eval (self : Aligner) (dev_dataloader : list Batch)
    (st : TrainState) : res TrainState :=
  let st := emit [EvSetMode false] (with_model (set_training false) st) in
  let counts := eval_counts (model st) dev_dataloader in
  let st := emit [EvEvalPass Dev (total_step st) (length dev_dataloader)
                    (training (model st)) false] st in
  current_acc ← rounded_accuracy counts.2 counts.1;
  let st := emit [EvLogEval (log_sink self) Dev (total_step st) current_acc]
              st in
  let st :=
    if Qlt_bool (best_eval_acc st) current_acc
    then let st := with_best current_acc st in
         if is_master self then save_model "pytorch-rotate-best.bin" st
         else st
    else st in
  Ok (emit [EvSetMode true] (with_model (set_training true) st)).

(** The logging block of a training step, with the periodic evaluation
    nested in it. *)
Definition log_and_validate (self : Aligner) (dev_dataloader : list Batch)
    (log_step valid_steps : Z) (st : TrainState) : res TrainState :=
  do_log ← (if is_master self
            then r ← py_mod (total_step st) log_step; Ok (r =? 0)
            else Ok false);
  if (do_log : bool) then
    let st := emit [EvLogTrain (log_sink self) (total_step st)] st in
    do_eval ← (if negb (total_step st =? 0)
               then r ← py_mod (total_step st) valid_steps; Ok (r =? 0)
               else Ok false);
    st ← (if (do_eval : bool) then periodic_eval self dev_dataloader st
          else Ok st);
    Ok (incr_log_step st)
  else Ok st.

(** The gradient block of a training step. *)
Definition accumulate_and_update (temperature_schedule : list Q)
    (gradient_accumulation_steps : Z) (st : TrainState) : res TrainState :=
  let divisor := if gradient_accumulation_steps >? 1
                 then gradient_accumulation_steps else 1 in
  r ← py_mod (total_step st) gradient_accumulation_steps;
  if (r =? 0)
  then
    if negb ((gradient_accumulation_steps >? 1) && (total_step st =? 0))
    then
      let st := emit [EvBackward (total_step st)]
                  (with_model (backward (total_step st) divisor) st) in
      let st := emit [EvLogGradients] st in
      let st := emit [EvOptimizerStep (grad (model st))]
                  (with_model optimizer_step st) in
      let st := emit [EvSchedulerStep] st in
      let st := emit [EvZeroGrad] (with_model zero_grad st) in
      t ← py_index temperature_schedule (total_step st);
      Ok (emit [EvSetTemperature t] (with_model (set_temperature t) st))
    else Ok st
  else Ok st.

(** The body of the loop over the batches of an epoch. *)
Definition train_step (self : Aligner) (dev_dataloader : list Batch)
    (temperature_schedule : list Q)
    (log_step valid_steps gradient_accumulation_steps : Z)
    (st : TrainState) (inputs : Batch) : res TrainState :=
  st ← log_and_validate self dev_dataloader log_step valid_steps st;
  st ← accumulate_and_update temperature_schedule
         gradient_accumulation_steps st;
  Ok (incr_step st).

Fixpoint run_batches (step : TrainState -> Batch -> res TrainState)
    (batches : list Batch) (st : TrainState) : res TrainState :=
  match batches with
  | [] => Ok st
  | inputs :: rest => st ← step st inputs; run_batches step rest st
  end.

Fixpoint run_epochs (step : TrainState -> Batch -> res TrainState)
    (train_dataloader : list Batch) (epochs : nat) (st : TrainState)
    : res TrainState :=
  match epochs with
  | O => Ok st
  | S n => st ← run_batches step train_dataloader st;
           run_epochs step train_dataloader n st
  end.

(** The evaluation on the test set at the end of training. *)
Definition final_eval (self : Aligner) (test_dataloader : list Batch)
    (st : TrainState) : res TrainState :=
  if is_master self then
    let st := emit [EvSetMode false] (with_model (set_training false) st) in
    let counts := eval_counts (model st) test_dataloader in
    let st := emit [EvEvalPass Test (total_step st) (length test_dataloader)
                      (training (model st)) false] st in
    current_acc ← rounded_accuracy counts.2 counts.1;
    Ok (emit [EvLogEval (log_sink self) Test (total_step st) current_acc] st)
  else Ok st.

(** [AlpacaAligner.train] *)
Definition train (self : Aligner) (m : Model)
    (train_dataloader dev_dataloader test_dataloader : list Batch)
    (log_step valid_steps epochs gradient_accumulation_steps : Z)
    : res TrainState :=
  let header := if is_master self && negb (is_wandb self)
                then [EvLogHeader] else [] in
  let m := set_training true m in
  let target_total_step := Z.of_nat (length train_dataloader) * epochs in
  schedule ← linspace temperature_start temperature_end target_total_step;
  let temperature_schedule := map to_bfloat16 schedule in
  t ← py_index temperature_schedule 0;
  let st := {| model := set_temperature t m; total_step := 0;
               total_log_step := 0; best_eval_acc := -1;
               trace := header ++ [EvSetMode true; EvSetTemperature t] |} in
  st ← run_epochs
         (train_step self dev_dataloader temperature_schedule log_step
            valid_steps gradient_accumulation_steps)
         train_dataloader (Z.to_nat epochs) st;
  st ← final_eval self test_dataloader st;
  Ok (if is_master self then save_model "pytorch-rotate-last.bin" st
      else st).

End Trainer.

(** ** [compute_metrics] ([run_alignment.py]) *)

(** [t[:, -1]] on a two-dimensional tensor given by its rows. *)
Definition py_last {A : Type} (row : list A) : res A :=
  match last row with
  | Some x => Ok x
  | None => Raise IndexError
  end.

Fixpoint last_column {A : Type} (rows : list (list A)) : res (list A) :=
  match rows with
  | [] => Ok []
  | row :: rest =>
      x ← py_last row;
      xs ← last_column rest;
      Ok (x :: xs)
  end.

(** [a == b] on one-dimensional tensors, with broadcasting of a singleton. *)
Definition tensor_eq (a b : list Z) : res (list bool) :=
  if (length a =? length b)%nat then Ok (zip_with Z.eqb a b)
  else match a, b with
       | [x], _ => Ok (map (Z.eqb x) b)
       | _, [y] => Ok (map (fun x => Z.eqb x y) a)
       | _, _ => Raise RuntimeError
       end.

Section Metrics.
Context `{FloatOps}.
(** [torch.argmax(_, dim=-1)] on one vector of logits *)
Variable argmax : list Q -> Z.

(** The body of the loop of [compute_metrics] on one pair of batches:
    [(len(correct_labels), correct_labels.sum())]. *)
Definition batch_counts (eval_pred : list (list (list Q)))
    (eval_label : list (list Z)) : res (Z * Z) :=
  actual_test_labels ← last_column eval_label;
  last_logits ← last_column eval_pred;
  let pred_test_labels := map argmax last_logits in
  correct_labels ← tensor_eq actual_test_labels pred_test_labels;
  Ok (Z.of_nat (length correct_labels), tensor_sum correct_labels).

Fixpoint metrics_loop (batches : list (list (list (list Q)) * list (list Z)))
    (total_count correct_count : Z) : res (Z * Z) :=
  match batches with
  | [] => Ok (total_count, correct_count)
  | (eval_pred, eval_label) :: rest =>
      c ← batch_counts eval_pred eval_label;
      metrics_loop rest (total_count + c.1) (correct_count + c.2)
  end.

(** [compute_metrics(eval_preds, eval_labels)["accuracy"]] *)
Definition compute_metrics (eval_preds : list (list (list (list Q))))
    (eval_labels : list (list (list Z))) : res Q :=
  counts ← metrics_loop (zip eval_preds eval_labels) 0 0;
  rounded_accuracy counts.2 counts.1.

End Metrics.

(** ** Example encoding ([tasks/continent_matching.py]) *)

(** The tokenizer: the ids of a text before padding (special tokens
    included), the pad id, the padding side and the id of a single token. *)
Class Tokenizer : Type := {
  tokenize : string -> list Z;
  pad_token_id : Z;
  padding_side_left : bool;
  convert_tokens_to_ids : string -> Z
}.

Section Encoding.
Context `{Tokenizer}.

(** [tokenizer(text, return_tensors='pt', padding='max_length',
    max_length=n).input_ids[0]]: shorter sequences are padded, longer ones
    are returned as they are (no truncation is requested). *)
Definition tokenizer_call (text : string) (max_length : nat) : list Z :=
  let ids := tokenize text in
  let pad := repeat pad_token_id (max_length - length ids) in
  if padding_side_left then pad ++ ids else ids ++ pad.

Definition _encode_string (text : string) : list Z :=
  tokenizer_call text 30.

Definition _encode_input_and_target (input_string target_string : string)
    : res (list Z * list Z) :=
  let input_ids := tokenizer_call input_string 40 in
  let label := convert_tokens_to_ids target_string in
  let output_ids := repeat (-100) (length input_ids) in
  output_ids ← py_set_last output_ids label;
  Ok (input_ids, output_ids).

(** An example dictionary: ['inputs'], ['targets'] and, for alignment
    examples, ['source_inputs']. *)
Record Example : Type := {
  inputs : string;
  targets : string;
  source_inputs : option string
}.

(** The three accumulators of [_encode_examples]. *)
Record Encoded : Type := {
  all_input_ids : list (list Z);
  all_source_input_ids : list (list Z);
  all_output_ids : list (list Z)
}.

Fixpoint encode_loop (examples : list Example) (acc : Encoded)
    : res Encoded :=
  match examples with
  | [] => Ok acc
  | example :: rest =>
      let sources :=
        match source_inputs example with
        | Some s => all_source_input_ids acc ++ [_encode_string s]
        | None => all_source_input_ids acc
        end in
      let input_ids := tokenizer_call (inputs example) 40 in
      let label := convert_tokens_to_ids (targets example) in
      let output_ids := repeat (-100) (length input_ids) in
      output_ids ← py_set_last output_ids label;
      encode_loop rest
        {| all_input_ids := all_input_ids acc ++ [input_ids];
           all_source_input_ids := sources;
           all_output_ids := all_output_ids acc ++ [output_ids] |}
  end.

(** [_encode_examples]: the accumulators; the caller gets the triple when
    [all_source_input_ids] is not empty and the pair without it otherwise. *)
Definition _encode_examples (examples : list Example) : res Encoded :=
  encode_loop examples
    {| all_input_ids := []; all_source_input_ids := [];
       all_output_ids := [] |}.

(** The columns of a dataset of [prepare_dataloader] that are built from
    the encoded examples. *)
Record Dataset : Type := {
  ds_input_ids : list (list Z);
  ds_labels : list (list Z);
  ds_output_only_labels : list (list Z)
}.

Definition dataset_of (enc : Encoded) : Dataset :=
  {| ds_input_ids := all_input_ids enc;
     ds_labels := all_output_ids enc;
     ds_output_only_labels := map py_last_slice (all_output_ids enc) |}.

End Encoding.

(** ** The launcher ([run_alignment.py]) *)

(** [needle in hay] on strings. *)
Fixpoint contains (needle hay : string) : bool :=
  if String.prefix needle hay then true
  else match hay with
       | EmptyString => false
       | String _ rest => contains needle rest
       end.

(** The command line, as parsed. *)
Record Args : Type := {
  train_batch_size : Z;
  eval_batch_size : Z;
  lr : Q;
  seed : Z;
  gradient_accumulation_steps : Z;
  output_dir : string;
  epochs : Z;
  model_path : string;
  warm_up : Q;
  args_is_wandb : bool;
  wandb_username : string;
  bf16 : bool;
  log_step : Z;
  valid_steps : Z;
  do_align : bool;
  n_training_examples : Z;
  n_eval_examples : Z;
  task_name : string;
  layer : Z;
  token_start : Z;
  token_end : Z;
  model_type : string
}.

(** The configuration saved next to the model. *)
Record DasConfig : Type := {
  das_layer : Z;
  das_token_range : list Z
}.

Record AlignmentConfig : Type := {
  cfg_layer : Z;
  cfg_token_range : Z * Z
}.

(** [get_das_and_alignment_config]; on an unknown model type the [raise]
    statement reads the global [model_type], which the script binds only
    after this call. *)
Definition get_das_and_alignment_config (args : Args) (on_disk : DasConfig)
    : res (DasConfig * AlignmentConfig) :=
  das_config ← (if String.eqb (model_type args) "llama" then Ok on_disk
                else if String.eqb (model_type args) "t5" then Ok on_disk
                else Raise (NameError "model_type"));
  r0 ← py_index (das_token_range das_config) 0;
  r1 ← py_index (das_token_range das_config) 1;
  let l := if layer args >=? 0 then layer args else das_layer das_config in
  let r0 := if token_start args >=? 0 then token_start args else r0 in
  let r1 := if token_end args >=? 0 then token_end args else r1 in
  Ok (das_config, {| cfg_layer := l; cfg_token_range := (r0, r1) |}).

(** The f-string that names the run. *)
Definition run_name (model_base_name task : string) (seed_ : Z)
    (alignment_config : AlignmentConfig) : string :=
  "model:" +:+ model_base_name +:+ "_task:" +:+ task +:+ "_seed:"
  +:+ py_str_int seed_ +:+ "_intl:"
  +:+ py_str_int (cfg_layer alignment_config) +:+ "_intr:"
  +:+ py_str_int (cfg_token_range alignment_config).1 +:+ ","
  +:+ py_str_int (cfg_token_range alignment_config).2.

Section Launcher.
(** [os.path.basename(os.path.normpath(_))] *)
Variable base_name : string -> string.

(** The run identity of an invocation. *)
Definition run_name_of (args : Args) (on_disk : DasConfig) : res string :=
  c ← get_das_and_alignment_config args on_disk;
  Ok (run_name (base_name (model_path args)) (task_name args) (seed args)
        c.2).

End Launcher.

(** ** The imports of the script ([run_alignment.py], lines 3 to 14)

    The script starts with its import statements; everything else in it
    (the parser, the dataloaders, the skip check on the "last" checkpoint,
    the trainer) runs only once they have all succeeded. *)

Inductive import_error : Type :=
| ModuleNotFoundError (module : string)
| ImportError (name module : string).

Inductive import_statement : Type :=
| ImportModules (modules : list string)
| ImportAs (module alias : string)
| FromImport (module : string) (names : list string).

(** A module whose source is in the repository: its import statements, all
    of modules from outside the repository, and the names its top level
    binds by [def], [class] and assignment. *)
Record module_source : Type := {
  module_imports : list import_statement;
  module_defines : list string
}.

(** [models/configuration_alignable_model.py] *)
Definition configuration_alignable_model : module_source :=
  {| module_imports :=
       [FromImport "collections" ["OrderedDict"];
        FromImport "typing" ["Any"; "List"; "Mapping"; "Optional"];
        FromImport "transformers"
          ["PreTrainedTokenizer"; "TensorType"; "is_torch_available"];
        FromImport "transformers.configuration_utils" ["PretrainedConfig"]];
     module_defines := ["AlignableLlamaConfig"] |}.

(** [trainer.py] *)
Definition trainer : module_source :=
  {| module_imports :=
       [ImportModules ["os"; "random"; "argparse"; "sys"; "pickle"; "time"];
        ImportModules ["torch"];
        FromImport "tqdm" ["tqdm"; "trange"];
        ImportAs "numpy" "np";
        ImportAs "pandas" "pd";
        FromImport "datasets" ["Dataset"];
        FromImport "torch.utils.data" ["DataLoader"];
        ImportModules ["wandb"];
        FromImport "dataclasses" ["dataclass"; "field"];
        FromImport "transformers.utils" ["logging"]];
     module_defines :=
       ["count_parameters"; "logger"; "CACHE_DIR"; "AlpacaAligner"] |}.

Definition repository_module (module : string) : option module_source :=
  if String.eqb module "models.configuration_alignable_model"
  then Some configuration_alignable_model
  else if String.eqb module "trainer" then Some trainer
  else None.

(** The names an import statement binds in the module that executes it. *)
Definition binds (stmt : import_statement) : list string :=
  match stmt with
  | ImportModules modules => modules
  | ImportAs _ alias => [alias]
  | FromImport _ names => names
  end.

(** The names a module of the repository has once it has been executed. *)
Definition module_names (src : module_source) : list string :=
  flat_map binds (module_imports src) ++ module_defines src.

Fixpoint first_error {A : Type} (run : A -> option import_error)
    (l : list A) : option import_error :=
  match l with
  | [] => None
  | x :: rest =>
      match run x with
      | Some e => Some e
      | None => first_error run rest
      end
  end.

(** The first of the names asked that a module does not have. *)
Fixpoint missing_name (have wanted : list string) : option string :=
  match wanted with
  | [] => None
  | x :: rest =>
      if existsb (String.eqb x) have then missing_name have rest
      else Some x
  end.

(** The statements of the script, in order (line 4 imports five modules;
    the import of [wandb] at line 265 is inside a conditional of the
    script's body). *)
Definition run_alignment_imports : list import_statement :=
  [FromImport "accelerate" ["init_empty_weights"];
   ImportModules ["os"; "random"; "argparse"; "sys"; "torch"];
   FromImport "models.configuration_alignable_model"
     ["AlignableLlamaConfig"; "AlignableT5Config"];
   FromImport "tasks" ["price_tagging"; "continent_matching"];
   FromImport "models.configuration_alignable_model" ["AlignableLlamaConfig"];
   FromImport "trainer" ["Aligner"; "CACHE_DIR"];
   FromImport "transformers"
     ["set_seed"; "AutoTokenizer"; "AutoConfig";
      "get_linear_schedule_with_warmup"];
   FromImport "torch.utils.data" ["DataLoader"; "SequentialSampler"];
   FromImport "models.modelings_alignable" ["AutoAlignableModel"];
   FromImport "transformers.utils" ["logging"]].

Section Imports.
(** What is installed around the repository: for the name of a module whose
    source is not at hand (the standard library, the third-party packages,
    the packages [tasks] and [models.modelings_alignable]), nothing when it
    cannot be imported, else the names it has. *)
Variable outside : string -> option (list string).

Definition import_module (module : string) : option import_error :=
  match outside module with
  | None => Some (ModuleNotFoundError module)
  | Some _ => None
  end.

(** [from module import names], the module having the names [have]. *)
Definition import_from (module : string) (have names : list string)
    : option import_error :=
  match missing_name have names with
  | Some x => Some (ImportError x module)
  | None => None
  end.

(** An import statement that names modules from outside the repository. *)
Definition import_outside (stmt : import_statement) : option import_error :=
  match stmt with
  | ImportModules modules => first_error import_module modules
  | ImportAs module _ => import_module module
  | FromImport module names =>
      match outside module with
      | None => Some (ModuleNotFoundError module)
      | Some have => import_from module have names
      end
  end.

(** An import statement of the script: a module of the repository is
    executed, which runs its own imports, and then must have the names
    asked of it. *)
Definition execute_import (stmt : import_statement) : option import_error :=
  match stmt with
  | FromImport module names =>
      match repository_module module with
      | Some src =>
          match first_error import_outside (module_imports src) with
          | Some e => Some e
          | None => import_from module (module_names src) names
          end
      | None => import_outside stmt
      end
  | _ => import_outside stmt
  end.

(** The script: its imports, then the rest of it, [rest] being what the
    statements from line 16 on come to. *)
Definition run_alignment {A : Type} (rest : A) : import_error + A :=
  match first_error execute_import run_alignment_imports with
  | Some e => inl e
  | None => inr rest
  end.

End Imports.

(** ** The source samplers ([tasks/continent_matching.py])

    Names are resolved as the interpreter does it: the locals of the call
    (the parameters and the names the body assigns), then the globals of the
    module, then the builtins. *)

Inductive value : Type :=
| VStr (s : string)
| VObject (what : string).

(** The names bound at the top level of the module. *)
Definition module_globals : gmap string value :=
  list_to_map
    [("Callable", VObject "class"); ("collections", VObject "module");
     ("os", VObject "module"); ("Path", VObject "class");
     ("random", VObject "module"); ("Dataset", VObject "class");
     ("torch", VObject "module"); ("DataLoader", VObject "class");
     ("TaskBase", VObject "class"); ("_NO_LABEL", VStr "No");
     ("_YES_LABEL", VStr "Yes");
     ("ContinentMatchingTask", VObject "class")].

(** The builtin functions and the exceptions the module could name. *)
Definition builtins : list string :=
    ["abs"; "aiter"; "all"; "anext"; "any"; "ascii"; "bin"; "bool";
     "breakpoint"; "bytearray"; "bytes"; "callable"; "chr"; "classmethod";
     "compile"; "complex"; "delattr"; "dict"; "dir"; "divmod"; "enumerate";
     "eval"; "exec"; "filter"; "float"; "format"; "frozenset"; "getattr";
     "globals"; "hasattr"; "hash"; "help"; "hex"; "id"; "input"; "int";
     "isinstance"; "issubclass"; "iter"; "len"; "list"; "locals"; "map";
     "max"; "memoryview"; "min"; "next"; "object"; "oct"; "open"; "ord";
     "pow"; "print"; "property"; "range"; "repr"; "reversed"; "round";
     "set"; "setattr"; "slice"; "sorted"; "staticmethod"; "str"; "sum";
     "super"; "tuple"; "type"; "vars"; "zip"; "__import__"; "True"; "False";
     "None"; "Exception"; "ValueError"; "KeyError"; "IndexError";
     "NameError"; "TypeError"; "ZeroDivisionError"; "RuntimeError"].

Definition load_name (locals : gmap string value) (x : string) : res value :=
  match locals !! x with
  | Some v => Ok v
  | None =>
      match module_globals !! x with
      | Some v => Ok v
      | None => if existsb (String.eqb x) builtins
                then Ok (VObject "builtin")
                else Raise (NameError x)
      end
  end.

Definition value_eqb (a b : value) : bool :=
  match a, b with
  | VStr s, VStr t => String.eqb s t
  | VObject s, VObject t => String.eqb s t
  | _, _ => false
  end.

(** [d[k]] on a dictionary kept in insertion order. *)
Fixpoint dict_get {V : Type} (d : list (string * V)) (k : string) : res V :=
  match d with
  | [] => Raise (KeyError k)
  | (k', v) :: rest => if String.eqb k' k then Ok v else dict_get rest k
  end.

(** [d[k]] on a [defaultdict(list)]: a missing key reads as the empty list. *)
Definition defaultdict_get (d : list (string * list string)) (k : string)
    : list string :=
  match dict_get d k with
  | Ok v => v
  | Raise _ => []
  end.

(** The attributes [__init__] gives a task. *)
Record ContinentMatchingTask : Type := {
  country_to_continent : list (string * string);
  continent_to_country : list (string * list string);
  countries : list string;
  continents : list string
}.

(** The state of the generator behind [random]: the draws to come. *)
Definition Rng : Type := list nat.

(** [random.choice(seq)] *)
Definition random_choice {A : Type} (seq : list A) (rng : Rng)
    : res (A * Rng) :=
  let draw := match rng with [] => O | n :: _ => n end in
  match seq !! (draw mod length seq)%nat with
  | Some x => Ok (x, tl rng)
  | None => Raise IndexError
  end.

(** The key a name stands for when it subscripts a dictionary of the task. *)
Definition as_key (v : value) : string :=
  match v with
  | VStr s => s
  | VObject s => s
  end.

Definition _sample_not_in_continent (self : ContinentMatchingTask)
    (continent : string) (rng : Rng) : res (string * Rng) :=
  r ← random_choice
        (filter (fun c => c ≠ continent) (continents self)) rng;
  random_choice (defaultdict_get (continent_to_country self) r.1) r.2.

(** [_are_same_continent(self, country1, country2)] *)
Definition _are_same_continent (self : ContinentMatchingTask)
    (country1 country2 : string) : res bool :=
  let locals : gmap string value :=
    {[ "self" := VObject "task"; "country1" := VStr country1;
       "country2" := VStr country2 ]} in
  _ ← load_name locals "self";
  c1 ← load_name locals "country1";
  left ← dict_get (country_to_continent self) (as_key c1);
  _ ← load_name locals "self";
  c2 ← load_name locals "countryt2";
  right ← dict_get (country_to_continent self) (as_key c2);
  Ok (String.eqb left right).

(** [continent1_source_sampler(self, base_country1, base_country2,
    ctf_label_str)] *)
Definition continent1_source_sampler (self : ContinentMatchingTask)
    (base_country1 base_country2 ctf_label_str : string) (rng : Rng)
    : res (string * string * string * Rng) :=
  let locals : gmap string value :=
    {[ "self" := VObject "task"; "base_country1" := VStr base_country1;
       "base_country2" := VStr base_country2;
       "ctf_label_str" := VStr ctf_label_str ]} in
  label ← load_name locals "ctf_label_str";
  yes ← load_name locals "_YES_LABEL";
  s ← (if value_eqb label yes
       then
         _ ← load_name locals "random";
         _ ← load_name locals "self";
         k ← load_name locals "base_continent2";
         r1 ← random_choice
                (defaultdict_get (continent_to_country self) (as_key k)) rng;
         _ ← load_name locals "random";
         r2 ← random_choice (countries self) r1.2;
         Ok (r1.1, r2.1, r2.2)
       else
         _ ← load_name locals "self";
         k ← load_name locals "base_continent2";
         r1 ← _sample_not_in_continent self (as_key k) rng;
         _ ← load_name locals "random";
         r2 ← random_choice (countries self) r1.2;
         Ok (r1.1, r2.1, r2.2));
  let '(source_country1, source_country2, rng) := s in
  same ← _are_same_continent self source_country1 source_country2;
  yes ← load_name locals "_YES_LABEL";
  no ← load_name locals "_NO_LABEL";
  let source_label := if (same : bool) then as_key yes else as_key no in
  Ok (source_country1, source_country2, source_label, rng).

(** ** Concrete collaborators, to run the embedding *)

Definition ascii_lower (c : Ascii.ascii) : Ascii.ascii :=
  let n := Ascii.nat_of_ascii c in
  if (65 <=? n)%nat && (n <=? 90)%nat then Ascii.ascii_of_nat (n + 32)
  else c.

Fixpoint string_lower (s : string) : string :=
  match s with
  | EmptyString => EmptyString
  | String c rest => String (ascii_lower c) (string_lower rest)
  end.

(** Batches that already carry the decoded gold token and the decoded
    prediction of every example. *)
Definition decoded_oracle : ModelOracle :=
  {| Batch := list (string * string);
     lower := string_lower;
     target_decoded := map fst;
     pred_decoded := fun _ => map snd |}.

Definition fresh_model : Model :=
  {| training := false; temperature := 1; grad := []; updates := [] |}.

Definition master : Aligner := {| is_master := true; is_wandb := false |}.

Definition worker : Aligner := {| is_master := false; is_wandb := false |}.

Definition yes_no_batch : @Batch decoded_oracle :=
  [("Yes", "yes"); ("No", "Yes")].

(** The last non-empty component of a path; on a path without [.] and [..]
    components this is [os.path.basename(os.path.normpath(_))]. *)
Fixpoint last_component_aux (s cur best : string) : string :=
  match s with
  | EmptyString => match cur with EmptyString => best | _ => cur end
  | String c rest =>
      if Ascii.eqb c "/"%char
      then last_component_aux rest EmptyString
             (match cur with EmptyString => best | _ => cur end)
      else last_component_aux rest (cur +:+ String c EmptyString) best
  end.

Definition last_component (s : string) : string :=
  last_component_aux s EmptyString EmptyString.

(** The defaults of the argument parser, with an output directory. *)
Definition default_args : Args :=
  {| train_batch_size := 128; eval_batch_size := 128; lr := 1 # 100;
     seed := 42; gradient_accumulation_steps := 1; output_dir := "results";
     epochs := 10; model_path := "../alpaca_7b/"; warm_up := 1 # 10;
     args_is_wandb := false; wandb_username := EmptyString; bf16 := false;
     log_step := 10; valid_steps := 500; do_align := false;
     n_training_examples := 10000; n_eval_examples := 1000;
     task_name := "price_tagging_lb"; layer := -1; token_start := -1;
     token_end := -1; model_type := "llama" |}.

(** The same run identity, with other settings changed. *)
Definition other_args : Args :=
  {| train_batch_size := 8; eval_batch_size := 8; lr := 1 # 1000;
     seed := 42; gradient_accumulation_steps := 4; output_dir := "scratch";
     epochs := 3; model_path := "/data/models/alpaca_7b"; warm_up := 0;
     args_is_wandb := true; wandb_username := "someone"; bf16 := true;
     log_step := 1; valid_steps := 7; do_align := true;
     n_training_examples := 100; n_eval_examples := 10;
     task_name := "price_tagging_lb"; layer := 15; token_start := 80;
     token_end := 81; model_type := "t5" |}.

(** [AlignableLlamaConfig()] with its default arguments. *)
Definition default_das_config : DasConfig :=
  {| das_layer := 15; das_token_range := [80; 81] |}.

(** A tokenizer that gives one id per character and pads on the left. *)
Definition char_tokenizer : Tokenizer :=
  {| tokenize := fun s => map (fun c => Z.of_nat (Ascii.nat_of_ascii c))
                            (String.list_ascii_of_string s);
     pad_token_id := 0;
     padding_side_left := true;
     convert_tokens_to_ids := fun s => Z.of_nat (String.length s) |}.

(** ** Vocabulary of the statements *)

(** The decoded (gold, prediction) pairs of a batch. *)
Definition decoded_pairs `{ModelOracle} (m : Model) (inputs : Batch)
    : list (string * string) :=
  zip (target_decoded inputs) (pred_decoded m inputs).

Definition pair_correct `{ModelOracle} (tp : string * string) : bool :=
  bool_decide (lower tp.1 = lower tp.2).

(** The accuracy that [prealign_eval] reports through the logger. *)
Definition reported_accuracy (r : res (Model * list event)) : res (list Q) :=
  match r with
  | Ok (_, evs) =>
      Ok (omap (fun e => match e with
                         | EvLoggerInfo acc => Some acc
                         | _ => None
                         end) evs)
  | Raise e => Raise e
  end.

(** An example of [compute_metrics]: the logits of a row at every position
    and the labels of that row. *)
Definition row_ok (ex : list (list Q) * list Z) : bool :=
  match last ex.1, last ex.2 with
  | Some _, Some _ => true
  | _, _ => false
  end.

Definition row_correct (argmax : list Q -> Z) (ex : list (list Q) * list Z)
    : bool :=
  match last ex.1, last ex.2 with
  | Some logits, Some y => Z.eqb y (argmax logits)
  | _, _ => false
  end.

(** [compute_metrics] on batches given example by example. *)
Definition metrics_of `{FloatOps} (argmax : list Q -> Z)
    (batches : list (list (list (list Q) * list Z))) : res Q :=
  compute_metrics argmax (map (map fst) batches) (map (map snd) batches).

(** The labels of one encoded example: [-100] at every position but the
    last, which holds the id of the target. *)
Definition labels_of `{Tokenizer} (input_string target_string : string)
    : list Z :=
  repeat (-100) (Nat.max 40 (length (tokenize input_string)) - 1)
  ++ [convert_tokens_to_ids target_string].

(** [torch.argmax] as the index of the first maximum. *)
Fixpoint argmax_from (best : Q) (best_i i : Z) (l : list Q) : Z :=
  match l with
  | [] => best_i
  | x :: rest =>
      if Qlt_bool best x then argmax_from x i (i + 1) rest
      else argmax_from best best_i (i + 1) rest
  end.

Definition first_argmax (l : list Q) : Z :=
  match l with
  | [] => 0
  | x :: rest => argmax_from x 0 1 rest
  end.

(** ** Vocabulary of the statements about [train] *)

(** The training steps [0, ..., n - 1]. *)
Definition steps (n : nat) : list Z := map Z.of_nat (seq 0 n).

(** The step logs: on the master, every [log_step] steps. *)
Definition log_due (self : Aligner) (log_step s : Z) : bool :=
  is_master self && (s mod log_step =? 0).

(** The step runs the periodic evaluation. *)
Definition eval_due (self : Aligner) (log_step valid_steps s : Z) : bool :=
  log_due self log_step s && negb (s =? 0) && (s mod valid_steps =? 0).

(** The step runs the gradient block. *)
Definition update_due (gradient_accumulation_steps s : Z) : bool :=
  (s mod gradient_accumulation_steps =? 0)
  && negb ((gradient_accumulation_steps >? 1) && (s =? 0)).

(** The divisor applied to the loss of a step. *)
Definition loss_divisor (gradient_accumulation_steps : Z) : Z :=
  if gradient_accumulation_steps >? 1 then gradient_accumulation_steps
  else 1.

(** The evaluation passes over the held-out set in a trace: step, number of
    batches, train-mode flag, gradients enabled. *)
Definition dev_passes (tr : list event) : list (Z * nat * bool * bool) :=
  omap (fun e => match e with
                 | EvEvalPass Dev s n t g => Some (s, n, t, g)
                 | _ => None
                 end) tr.

(** The temperatures pushed into the model, in order. *)
Definition pushed_temperatures (tr : list event) : list Q :=
  omap (fun e => match e with
                 | EvSetTemperature t => Some t
                 | _ => None
                 end) tr.

(** The steps whose loss was back-propagated. *)
Definition backward_steps (tr : list event) : list Z :=
  omap (fun e => match e with
                 | EvBackward s => Some s
                 | _ => None
                 end) tr.


Fixpoint non_increasing (l : list Q) : Prop :=
  match l with
  | x :: (y :: _) as rest => (y <= x)%Q /\ non_increasing rest
  | _ => True
  end.

(** The entry of the temperature schedule at a step. *)
Definition schedule_at `{FloatOps} (target_total_step s : Z) : Q :=
  to_bfloat16
    (if target_total_step =? 1 then temperature_start
     else linspace_entry temperature_start temperature_end
            target_total_step s).








(** What the logging block of a step does, from the state before it to the
    state after it. *)
Definition logged (self : Aligner) (n_dev : nat) (log_step valid_steps : Z)
    (st st1 : TrainState) : Prop :=
  let s := total_step st in
  total_step st1 = s
  /\ grad (model st1) = grad (model st)
  /\ updates (model st1) = updates (model st)
  /\ temperature (model st1) = temperature (model st)
  /\ (training (model st) = true -> training (model st1) = true)
  /\ ((log_due self log_step s = false
       /\ trace st1 = trace st /\ best_eval_acc st1 = best_eval_acc st)
      \/ (log_due self log_step s = true
          /\ eval_due self log_step valid_steps s = false
          /\ trace st1 = trace st ++ [EvLogTrain (log_sink self) s]
          /\ best_eval_acc st1 = best_eval_acc st)
      \/ (eval_due self log_step valid_steps s = true
          /\ exists acc,
              trace st1
              = trace st
                ++ [EvLogTrain (log_sink self) s; EvSetMode false;
                    EvEvalPass Dev s n_dev false false;
                    EvLogEval (log_sink self) Dev s acc]
                ++ (if Qlt_bool (best_eval_acc st) acc
                    then [EvSaveModel "pytorch-rotate-best.bin"
                            (updates (model st)) (temperature (model st))]
                    else [])
                ++ [EvSetMode true]
              /\ best_eval_acc st1
                 = (if Qlt_bool (best_eval_acc st) acc then acc
                    else best_eval_acc st)
              /\ training (model st1) = true)).

(** What the gradient block of a step does. *)
Definition updated (temperature_schedule : list Q)
    (gradient_accumulation_steps : Z) (st1 st2 : TrainState) : Prop :=
  let s := total_step st1 in
  total_step st2 = s
  /\ best_eval_acc st2 = best_eval_acc st1
  /\ training (model st2) = training (model st1)
  /\ ((update_due gradient_accumulation_steps s = false
       /\ trace st2 = trace st1 /\ model st2 = model st1)
      \/ (update_due gradient_accumulation_steps s = true
          /\ exists t,
              py_index temperature_schedule s = Ok t
              /\ trace st2
                 = trace st1
                   ++ [EvBackward s; EvLogGradients;
                       EvOptimizerStep
                         (grad (model st1)
                          ++ [(s, loss_divisor
                                    gradient_accumulation_steps)]);
                       EvSchedulerStep; EvZeroGrad; EvSetTemperature t]
              /\ temperature (model st2) = t
              /\ grad (model st2) = []
              /\ updates (model st2)
                 = updates (model st1)
                   ++ [grad (model st1)
                       ++ [(s, loss_divisor
                                 gradient_accumulation_steps)]])).

(** The state of [train] when it enters the loop over the epochs. *)
Definition initial_state `{FloatOps} (self : Aligner) (m : Model)
    (target_total_step : Z) : TrainState :=
  {| model := set_temperature (schedule_at target_total_step 0)
                (set_training true m);
     total_step := 0;
     total_log_step := 0;
     best_eval_acc := -1;
     trace := (if is_master self && negb (is_wandb self)
               then [EvLogHeader] else [])
              ++ [EvSetMode true;
                  EvSetTemperature (schedule_at target_total_step 0)] |}.

(** What [train] does after the last epoch, from the state that leaves the
    loop to the state it returns. *)
Definition finished (self : Aligner) (n_test : nat) (stT st : TrainState)
    : Prop :=
  total_step st = total_step stT
  /\ best_eval_acc st = best_eval_acc stT
  /\ temperature (model st) = temperature (model stT)
  /\ grad (model st) = grad (model stT)
  /\ updates (model st) = updates (model stT)
  /\ ((is_master self = false /\ st = stT)
      \/ (is_master self = true
          /\ exists acc,
              trace st
              = trace stT
                ++ [EvSetMode false;
                    EvEvalPass Test (total_step stT) n_test false false;
                    EvLogEval (log_sink self) Test (total_step stT) acc;
                    EvSaveModel "pytorch-rotate-last.bin"
                      (updates (model stT)) (temperature (model stT))])).

(** The evaluation passes over the held-out set that a run of [n] steps
    makes: one at every step where the periodic evaluation is due, each over
    the whole set, in eval mode, without gradients. *)
Definition expected_dev_passes (self : Aligner) (n_dev : nat)
    (log_step valid_steps : Z) (n : nat) : list (Z * nat * bool * bool) :=
  map (fun s => (s, n_dev, false, false))
    (filter (fun s => eval_due self log_step valid_steps s = true)
       (steps n)).

(** The gradient buffers that the optimizer steps of a run of [n] steps
    consume: at every step where the gradient block is due, the gradient of
    that step alone. *)
Definition expected_updates (gradient_accumulation_steps : Z) (n : nat)
    : list (list (Z * Z)) :=
  map (fun s => [(s, loss_divisor gradient_accumulation_steps)])
    (filter (fun s => update_due gradient_accumulation_steps s = true)
       (steps n)).

(** A training set of four batches. *)
Definition four_batches : list (@Batch decoded_oracle) :=
  [yes_no_batch; yes_no_batch; yes_no_batch; yes_no_batch].

(** The temperatures a run of [n] steps pushes into the model: the first
    entry of the schedule before the loop, then the entry of every step
    where the gradient block is due. *)
Definition expected_temperatures `{FloatOps}
    (gradient_accumulation_steps target_total_step : Z) (n : nat) : list Q :=
  schedule_at target_total_step 0
  :: map (schedule_at target_total_step)
       (filter (fun s => update_due gradient_accumulation_steps s = true)
          (steps n)).

(** The last step of a run of [n] steps where the gradient block is due;
    step 0 when it never is. *)
Definition last_update_step (gradient_accumulation_steps : Z) (n : nat)
    : Z :=
  default 0
    (last (filter (fun s => update_due gradient_accumulation_steps s = true)
             (steps n))).

(** ** Vocabulary of the statements about the script *)

(** The imports that run before the script asks
    [models.configuration_alignable_model] for its names: lines 3 and 4 of
    the script, then the imports of that module. *)
Definition imports_before_configuration : list import_statement :=
  take 2 run_alignment_imports
  ++ module_imports configuration_alignable_model.

(** An installation where every module can be imported and has every name
    that the script and the modules of the repository ask of the modules
    from outside. *)
Definition everything_installed (module : string) : option (list string) :=
  Some (flat_map binds run_alignment_imports
        ++ flat_map binds (module_imports configuration_alignable_model)
        ++ flat_map binds (module_imports trainer)).

(** ** Vocabulary of the statements about a whole run of [train] *)

(** The accuracies of the periodic evaluations, in order. *)
Definition dev_accuracies (tr : list event) : list Q :=
  omap (fun e => match e with
                 | EvLogEval _ Dev _ acc => Some acc
                 | _ => None
                 end) tr.

(** [best_eval_acc] after a sequence of evaluations: it starts at [-1] and
    moves to an accuracy that exceeds it strictly. *)
Definition running_best (accs : list Q) : Q :=
  fold_left (fun best acc => if Qlt_bool best acc then acc else best)
    accs (-1)%Q.

(** The evaluation passes over the test set in a trace. *)
Definition test_passes (tr : list event) : list (Z * nat * bool * bool) :=
  omap (fun e => match e with
                 | EvEvalPass Test s n t g => Some (s, n, t, g)
                 | _ => None
                 end) tr.




(** ** [get_model] and [get_task] ([run_alignment.py]) *)

(** The names [run_alignment.py] binds at its top level, by its imports, its
    function definitions and the assignments of the script, in order.
    [model_type] is bound by the script only after the configuration is
    read. *)
Definition script_names : list string :=
  ["init_empty_weights"; "os"; "random"; "argparse"; "sys"; "torch";
   "AlignableLlamaConfig"; "AlignableT5Config"; "price_tagging";
   "continent_matching"; "Aligner"; "CACHE_DIR"; "set_seed";
   "AutoTokenizer"; "AutoConfig"; "get_linear_schedule_with_warmup";
   "DataLoader"; "SequentialSampler"; "AutoAlignableModel"; "logging";
   "logger"; "get_model"; "get_das_and_alignment_config"; "get_task";
   "is_notebook"; "cmd"; "args"; "device"; "tokenizer"; "task";
   "prealign_dataloader"; "train_dataloader"; "eval_dataloader";
   "test_dataloader"; "das_config"; "alignment_config"; "model_type";
   "model_base_name"; "run_name"; "is_master"; "output_dir"; "file_path";
   "model"; "name"; "param"; "t_total"; "warm_up_steps"; "optimizer";
   "scheduler"; "compute_metrics"; "wandb"; "run"; "aligner"].

(** A global name of the script, read when [bound] holds the names bound so
    far. *)
Definition load_global (bound : list string) (x : string) : res unit :=
  if existsb (String.eqb x) bound || existsb (String.eqb x) builtins
  then Ok tt
  else Raise (NameError x).

(** [get_model(args, das_config, alignment_config)], called when the names
    [bound] are bound, [model_type_global] being the string the global
    [model_type] holds when it is bound: the class is looked up first, then
    [from_pretrained], the loader of the library, is called. *)
Definition get_model (from_pretrained : Args -> AlignmentConfig -> res Model)
    (bound : list string) (model_type_global : string) (args : Args)
    (alignment_config : AlignmentConfig) : res Model :=
  if String.eqb (model_type args) "llama" then
    _ ← load_global bound "AlignableLlamaForCausalLM";
    from_pretrained args alignment_config
  else if String.eqb (model_type args) "t5" then
    _ ← load_global bound "AlignableT5ForConditionalGeneration";
    from_pretrained args alignment_config
  else
    _ ← load_global bound "ValueError";
    _ ← load_global bound "model_type";
    Raise (ValueError ("Unsupported model_type: " +:+ model_type_global)).

(** What a call of [get_task] comes to.  The module [price_tagging] is a
    collaborator: [PriceTagging f] stands for
    [price_tagging.PriceTaggingTask(price_tagging.f)].  The attributes read
    from the module [continent_matching] are looked up among the names that
    module binds; the constructor of [ContinentMatchingTask] takes no
    argument besides [self]. *)
Inductive task_outcome : Type :=
| PriceTagging (prompt_fn : string)
| ReturnsNone
| AttributeError (attribute : string)
| InitTypeError
| UnsupportedModelType
| UnsupportedTaskName.

Definition module_attribute (x : string) : option value :=
  module_globals !! x.

(** [continent_matching.ContinentMatchingTask(continent_matching.f,
    pad_to=n)] *)
Definition make_continent_task (prompt_fn : string) : task_outcome :=
  match module_attribute "ContinentMatchingTask" with
  | None => AttributeError "ContinentMatchingTask"
  | Some _ =>
      match module_attribute prompt_fn with
      | None => AttributeError prompt_fn
      | Some _ => InitTypeError
      end
  end.

Definition get_task (args : Args) : task_outcome :=
  let task_name := task_name args in
  if contains "price_tagging" task_name then
    if String.eqb (model_type args) "t5" then PriceTagging "t5_prompt_fn"
    else if String.eqb (model_type args) "llama"
         then PriceTagging "llama_prompt_fn"
         else ReturnsNone
  else if contains "continent_matching" task_name then
    if String.eqb (model_type args) "t5"
    then make_continent_task "t5_prompt_fn"
    else if String.eqb (model_type args) "llama"
         then make_continent_task "llama_prompt_fn"
         else UnsupportedModelType
  else UnsupportedTaskName.

(** The task was built. *)
Definition builds_task (o : task_outcome) : bool :=
  match o with
  | PriceTagging _ => true
  | _ => false
  end.

(** ** Vocabulary of the statements about the run identity *)

(** The characters [str] prints an integer with. *)
Definition is_numeric_char (c : Ascii.ascii) : bool :=
  existsb (Ascii.eqb c)
    ["-"; "0"; "1"; "2"; "3"; "4"; "5"; "6"; "7"; "8"; "9"]%char.

Fixpoint all_chars (p : Ascii.ascii -> bool) (s : string) : bool :=
  match s with
  | EmptyString => true
  | String c rest => p c && all_chars p rest
  end.

(** ** The task object and its samplers ([tasks/continent_matching.py]) *)

(** [d[k] = v] on a dictionary kept in insertion order: a key that is
    present keeps its place. *)
Fixpoint dict_set {V : Type} (d : list (string * V)) (k : string) (v : V)
    : list (string * V) :=
  match d with
  | [] => [(k, v)]
  | (k', v') :: rest =>
      if String.eqb k' k then (k', v) :: rest
      else (k', v') :: dict_set rest k v
  end.

(** [d[k].append(v)] on a [defaultdict(list)] *)
Definition defaultdict_append (d : list (string * list string))
    (k v : string) : list (string * list string) :=
  dict_set d k (defaultdict_get d k ++ [v]).

(** [s.split(',')]: the fields of [s], [cur] being the field under way. *)
Fixpoint split_fields (s cur : string) : list string :=
  match s with
  | EmptyString => [cur]
  | String c rest =>
      if Ascii.eqb c ","%char then cur :: split_fields rest EmptyString
      else split_fields rest (cur +:+ String c EmptyString)
  end.

Definition str_split_comma (s : string) : list string :=
  split_fields s EmptyString.

(** [','.join(parts)] *)
Fixpoint str_join_comma (parts : list string) : string :=
  match parts with
  | [] => EmptyString
  | [p] => p
  | p :: rest => p +:+ "," +:+ str_join_comma rest
  end.

(** The continents a line of the data file may start with. *)
Definition known_continents : list string :=
  ["Asia"; "Africa"; "North America"; "South America"; "Oceania"; "Europe"].

Section TaskConstruction.
(** [str.strip] of the interpreter *)
Variable strip : string -> string.

(** The body of the loop of [_get_country_continent_map] on one line. *)
Definition read_line (ret : list (string * string)) (line : string)
    : list (string * string) :=
  let line := strip line in
  let comma_parts := str_split_comma line in
  let continent := hd EmptyString comma_parts in
  if negb (existsb (String.eqb continent) known_continents) then ret
  else
    let country := str_join_comma (tl comma_parts) in
    dict_set ret country continent.

(** [_get_country_continent_map], on the lines of the data file. *)
Definition _get_country_continent_map (lines : list string)
    : list (string * string) :=
  fold_left read_line lines [].

(** [ContinentMatchingTask.__init__], on the lines of the data file. *)
Definition __init__ (lines : list string) : ContinentMatchingTask :=
  let country_to_continent := _get_country_continent_map lines in
  let continent_to_country :=
    fold_left (fun d (item : string * string) =>
                 defaultdict_append d item.2 item.1)
      country_to_continent [] in
  {| country_to_continent := country_to_continent;
     continent_to_country := continent_to_country;
     countries := map fst country_to_continent;
     continents := map fst continent_to_country |}.

End TaskConstruction.

Definition newline : string := String (Ascii.ascii_of_nat 10) EmptyString.

(** [_format_prompt(country1, country2, custom_prompt_fn)] *)
Definition _format_prompt (country1 country2 : string)
    (custom_prompt_fn : option (string -> string -> string)) : string :=
  match custom_prompt_fn with
  | Some f => f country1 country2
  | None =>
      "Answer the following yes/no question:" +:+ newline +:+ newline
      +:+ "Are " +:+ country1 +:+ " and " +:+ country2
      +:+ " on the same continent?" +:+ newline
  end.

(** [_sample_single_example(target_label, custom_prompt_fn)] *)
Definition _sample_single_example (self : ContinentMatchingTask)
    (target_label : option bool)
    (custom_prompt_fn : option (string -> string -> string)) (rng : Rng)
    : res (Example * Rng) :=
  r1 ← random_choice (countries self) rng;
  let country1 := r1.1 in
  continent1 ← dict_get (country_to_continent self) country1;
  s ← match target_label with
      | None =>
          r2 ← random_choice (countries self) r1.2;
          continent2 ← dict_get (country_to_continent self) r2.1;
          Ok (r2.1, continent2, r2.2)
      | Some true =>
          r2 ← random_choice
                 (defaultdict_get (continent_to_country self) continent1)
                 r1.2;
          continent2 ← dict_get (country_to_continent self) r2.1;
          Ok (r2.1, continent2, r2.2)
      | Some false =>
          rc ← random_choice
                 (filter (fun c => c ≠ continent1) (continents self)) r1.2;
          r2 ← random_choice
                 (defaultdict_get (continent_to_country self) rc.1) rc.2;
          Ok (r2.1, rc.1, r2.2)
      end;
  let '(country2, continent2, rng) := s in
  Ok ({| inputs := _format_prompt country1 country2 custom_prompt_fn;
         targets := if String.eqb continent1 continent2 then "Yes"
                    else "No";
         source_inputs := None |}, rng).

(** [output_rep_source_sampler(base_country1, base_country2,
    ctf_label_str)] *)
Definition output_rep_source_sampler (self : ContinentMatchingTask)
    (base_country1 base_country2 ctf_label_str : string) (rng : Rng)
    : res (string * string * string * Rng) :=
  r1 ← random_choice (countries self) rng;
  source_cont1 ← dict_get (country_to_continent self) r1.1;
  r2 ← (if String.eqb ctf_label_str "No"
        then _sample_not_in_continent self source_cont1 r1.2
        else random_choice
               (defaultdict_get (continent_to_country self) source_cont1)
               r1.2);
  Ok (r1.1, r2.1, ctf_label_str, r2.2).

(** [random.random()]: one draw of the generator. *)
Definition random_random (rng : Rng) : Rng := tl rng.

(** One round of the loop of [alignment_example_sampler].  The example
    carries ['inputs'], ['source_inputs'] and ['targets']; its
    ['intervention_id'] is always 0. *)
Definition sample_alignment_example (self : ContinentMatchingTask)
    (source_sampler :
       string -> string -> string -> Rng
       -> res (string * string * string * Rng))
    (rng : Rng) : res (Example * Rng) :=
  b1 ← random_choice (countries self) rng;
  base_continent1 ← dict_get (country_to_continent self) b1.1;
  b2 ← random_choice (countries self) b1.2;
  base_continent2 ← dict_get (country_to_continent self) b2.1;
  ctf ← random_choice ["Yes"; "No"] b2.2;
  s ← source_sampler b1.1 b2.1 ctf.1 ctf.2;
  let '(source_country1, source_country2, source_label_str, rng) := s in
  let base_input_str := _format_prompt b1.1 b2.1 None in
  let source_input_str :=
    _format_prompt source_country1 source_country2 None in
  Ok ({| inputs := base_input_str; targets := ctf.1;
         source_inputs := Some source_input_str |},
      random_random rng).

Fixpoint alignment_loop (self : ContinentMatchingTask)
    (source_sampler :
       string -> string -> string -> Rng
       -> res (string * string * string * Rng))
    (n : nat) (rng : Rng) : res (list Example * Rng) :=
  match n with
  | O => Ok ([], rng)
  | S k =>
      e ← sample_alignment_example self source_sampler rng;
      rest ← alignment_loop self source_sampler k e.2;
      Ok (e.1 :: rest.1, rest.2)
  end.

(** [alignment_example_sampler(n_examples, source_sampler)] *)
Definition alignment_example_sampler (self : ContinentMatchingTask)
    (n_examples : Z)
    (source_sampler :
       string -> string -> string -> Rng
       -> res (string * string * string * Rng))
    (rng : Rng) : res (list Example * Rng) :=
  alignment_loop self source_sampler (Z.to_nat n_examples) rng.

(** ** [prepare_dataloader] *)

(** A bound of a slice, against a sequence of length [len]. *)
Definition py_slice_index (len i : Z) : Z :=
  if i <? 0 then Z.max (i + len) 0 else Z.min i len.

(** [xs[lo:hi]] *)
Definition py_slice {A : Type} (xs : list A) (lo hi : option Z) : list A :=
  let len := Z.of_nat (length xs) in
  let l := match lo with
           | None => 0
           | Some i => py_slice_index len i
           end in
  let h := match hi with
           | None => len
           | Some i => py_slice_index len i
           end in
  firstn (Z.to_nat (h - l)) (skipn (Z.to_nat l) xs).

(** [a, b = self._encode_examples(...)] *)
Definition unpack2 (enc : Encoded) : res (list (list Z) * list (list Z)) :=
  match all_source_input_ids enc with
  | [] => Ok (all_input_ids enc, all_output_ids enc)
  | _ => Raise (ValueError "too many values to unpack (expected 2)")
  end.

(** [a, b, c = self._encode_examples(...)] *)
Definition unpack3 (enc : Encoded)
    : res (list (list Z) * list (list Z) * list (list Z)) :=
  match all_source_input_ids enc with
  | [] => Raise (ValueError "not enough values to unpack (expected 3, got 2)")
  | _ => Ok (all_input_ids enc, all_source_input_ids enc,
             all_output_ids enc)
  end.

(** The columns of the train, dev and test datasets. *)
Record AlignmentDataset : Type := {
  ad_input_ids : list (list Z);
  ad_labels : list (list Z);
  ad_output_only_labels : list (list Z);
  ad_source_input_ids : list (list Z);
  ad_intervention_ids : list Z
}.

(** A [DataLoader] over a dataset, not yet iterated. *)
Record DataLoader (D : Type) : Type := {
  dl_dataset : D;
  dl_batch_size : Z
}.

Arguments dl_dataset {D} _.
Arguments dl_batch_size {D} _.

(** [DataLoader(dataset, batch_size=_)]: the batch sampler it builds
    refuses a batch size that is not positive. *)
Definition make_dataloader {D : Type} (dataset : D) (batch_size : Z)
    : res (DataLoader D) :=
  if batch_size <=? 0
  then Raise (ValueError
                ("batch_size should be a positive integer value, "
                 +:+ "but got batch_size=" +:+ py_str_int batch_size))
  else Ok {| dl_dataset := dataset; dl_batch_size := batch_size |}.

Record Prepared : Type := {
  prep_prealign : DataLoader Dataset;
  prep_train : DataLoader AlignmentDataset;
  prep_dev : DataLoader AlignmentDataset;
  prep_test : DataLoader AlignmentDataset
}.

Section PrepareDataloader.
Context `{Tokenizer}.

(** The loop that samples the pre-alignment examples. *)
Fixpoint prealign_loop (self : ContinentMatchingTask) (n : nat) (rng : Rng)
    : res (list Example * Rng) :=
  match n with
  | O => Ok ([], rng)
  | S k =>
      a ← _sample_single_example self (Some true) None rng;
      b ← _sample_single_example self (Some false) None a.2;
      rest ← prealign_loop self k b.2;
      Ok (a.1 :: b.1 :: rest.1, rest.2)
  end.

(** One of the three alignment datasets. *)
Definition alignment_dataset (examples : list Example)
    : res AlignmentDataset :=
  enc ← _encode_examples examples;
  t ← unpack3 enc;
  let '(input_ids, source_ids, output_ids) := t in
  Ok {| ad_input_ids := input_ids;
        ad_labels := output_ids;
        ad_output_only_labels := map py_last_slice output_ids;
        ad_source_input_ids := source_ids;
        ad_intervention_ids := map (fun _ => 0) source_ids |}.

(** [prepare_dataloader(tokenizer, **kwargs)], with the keyword arguments
    it reads. *)
Definition prepare_dataloader (self : ContinentMatchingTask)
    (eval_batch_size train_batch_size : Z) (task_name : string)
    (n_train n_eval : Z) (rng : Rng) : res (Prepared * Rng) :=
  p ← prealign_loop self (Z.to_nat (n_eval / 2)) rng;
  enc ← _encode_examples p.1;
  t ← unpack2 enc;
  let prealign_dataset :=
    {| ds_input_ids := t.1; ds_labels := t.2;
       ds_output_only_labels := map py_last_slice t.2 |} in
  prealign_dataloader ← make_dataloader prealign_dataset eval_batch_size;
  e ← (if contains "continent_map" task_name
       then alignment_example_sampler self (n_train + n_eval + n_eval)
              (continent1_source_sampler self) p.2
       else if contains "output_rep" task_name
            then alignment_example_sampler self (n_train + n_eval + n_eval)
                   (output_rep_source_sampler self) p.2
            else Raise (ValueError "Invalid continent matching task name!"));
  let examples := e.1 in
  let train_examples := py_slice examples None (Some n_train) in
  let dev_examples :=
    py_slice examples (Some n_train) (Some (n_train + n_eval)) in
  let test_examples := py_slice examples (Some (n_train + n_eval)) None in
  train_dataset ← alignment_dataset train_examples;
  dev_dataset ← alignment_dataset dev_examples;
  test_dataset ← alignment_dataset test_examples;
  train_dataloader ← make_dataloader train_dataset train_batch_size;
  dev_dataloader ← make_dataloader dev_dataset eval_batch_size;
  test_dataloader ← make_dataloader test_dataset eval_batch_size;
  Ok ({| prep_prealign := prealign_dataloader;
         prep_train := train_dataloader;
         prep_dev := dev_dataloader;
         prep_test := test_dataloader |}, e.2).

End PrepareDataloader.

(** ** Vocabulary of the statements about the task *)

(** The attributes of a task fit together: the countries are the keys of
    [country_to_continent], the continents are the values in use, without
    repetition, and [continent_to_country] lists under a continent the
    countries mapped to it. *)
Definition consistent (t : ContinentMatchingTask) : Prop :=
  (forall country c,
      In country (defaultdict_get (continent_to_country t) c)
      <-> dict_get (country_to_continent t) country = Ok c)
  /\ (forall country,
         In country (countries t)
         <-> exists c, dict_get (country_to_continent t) country = Ok c)
  /\ (forall c,
         In c (continents t)
         <-> exists country,
               dict_get (country_to_continent t) country = Ok c)
  /\ NoDup (continents t).

(** What holds of the map of [_get_country_continent_map] after the lines
    [lines]: one entry per country name, every continent a known one, every
    entry read from a line. *)
Definition map_ok (strip : string -> string) (lines : list string)
    (ret : list (string * string)) : Prop :=
  NoDup (map fst ret)
  /\ forall country continent,
       In (country, continent) ret ->
       In continent known_continents
       /\ exists line,
            In line lines
            /\ ((strip line = continent /\ country = EmptyString)
                \/ strip line = continent +:+ "," +:+ country).

(** The continent of a country, [None] for an unknown country. *)
Definition continent_of (t : ContinentMatchingTask) (country : string)
    : option string :=
  match dict_get (country_to_continent t) country with
  | Ok c => Some c
  | Raise _ => None
  end.

(** A data file of four lines and the task read from it. *)
Definition four_countries : list string :=
  ["Asia,Japan"; "Europe,France"; "Asia,Korea, Republic of"; "Europe,Spain"].

Definition small_task : ContinentMatchingTask :=
  __init__ (fun s => s) four_countries.

(** An alignment example whose target is the truthful label of its source
    pair: the base prompt is about two countries of the task, the source
    prompt about two countries whose continents are the same exactly when
    the target is "Yes". *)
Definition source_labelled (self : ContinentMatchingTask) (ex : Example)
    : Prop :=
  exists b1 b2 s1 s2 c1 c2,
    inputs ex = _format_prompt b1 b2 None
    /\ In b1 (countries self) /\ In b2 (countries self)
    /\ source_inputs ex = Some (_format_prompt s1 s2 None)
    /\ continent_of self s1 = Some c1
    /\ continent_of self s2 = Some c2
    /\ (targets ex = "Yes" \/ targets ex = "No")
    /\ (targets ex = "Yes" <-> c1 = c2).

(** The task has two continents. *)
Definition two_continents (self : ContinentMatchingTask) : Prop :=
  exists c c', In c (continents self) /\ In c' (continents self) /\ c <> c'.

(** The encoded sources of a list of examples: one row for every example
    that has ['source_inputs'], in order. *)
Definition encoded_sources `{Tokenizer} (examples : list Example)
    : list (list Z) :=
  omap (fun e => match source_inputs e with
                 | Some s => Some (_encode_string s)
                 | None => None
                 end) examples.

(** [n] rounds of the pre-alignment loop give the labels "Yes", "No", ...,
    encoded one per row. *)
Fixpoint balanced_labels `{Tokenizer} (n : nat) : list (list Z) :=
  match n with
  | O => []
  | S k => [convert_tokens_to_ids "Yes"] :: [convert_tokens_to_ids "No"]
           :: balanced_labels k
  end.

(** A dataset of [n] rows: every column has [n] entries and every
    intervention id is 0. *)
Definition dataset_rows (n : nat) (ds : AlignmentDataset) : Prop :=
  length (ad_input_ids ds) = n
  /\ length (ad_labels ds) = n
  /\ length (ad_output_only_labels ds) = n
  /\ length (ad_source_input_ids ds) = n
  /\ ad_intervention_ids ds = repeat 0 n.

(** ** [call_model] ([trainer.py]) *)

(** What [call_model] passes as [labels]. *)
Inductive labels_argument : Type :=
| NoLabels
| GivenLabels
| OutputOnlyLabels.

(** The call [call_model] makes on the model. *)
Inductive model_call : Type :=
| Forward (attention_mask : bool) (labels : labels_argument)
| Generate.

(** [inputs[k]] on a batch with the columns [keys]. *)
Definition batch_get (keys : list string) (k : string) : res unit :=
  if existsb (String.eqb k) keys then Ok tt else Raise (KeyError k).

(** [call_model(inputs, labels, is_train, **kwargs)]: [labels] tells
    whether the argument was given. *)
Definition call_model (model_type : string) (keys : list string)
    (labels is_train : bool) : res model_call :=
  if String.eqb model_type "t5" then
    if is_train then
      _ ← batch_get keys "input_ids";
      _ ← batch_get keys "attention_masks";
      _ ← batch_get keys "output_only_labels";
      Ok (Forward true OutputOnlyLabels)
    else
      _ ← batch_get keys "input_ids";
      _ ← batch_get keys "attention_masks";
      Ok Generate
  else if String.eqb model_type "llama" then
    if labels then
      _ ← batch_get keys "input_ids";
      Ok (Forward false GivenLabels)
    else
      _ ← batch_get keys "input_ids";
      Ok (Forward false NoLabels)
  else Raise (ValueError ("Invalid model type" +:+ model_type)).

(** The columns of the datasets of [prepare_dataloader]. *)
Definition prealign_columns : list string :=
  ["input_ids"; "labels"; "output_only_labels"].

Definition alignment_columns : list string :=
  ["input_ids"; "labels"; "output_only_labels"; "source_input_ids";
   "intervention_ids"].

(** * Properties *)

(** ** The source samplers *)

Lemma load_name_base_continent2 (self_ b1 b2 lbl : value) :
  load_name
    {[ "self" := self_; "base_country1" := b1; "base_country2" := b2;
       "ctf_label_str" := lbl ]} "base_continent2"
  = Raise (NameError "base_continent2").
Proof. reflexivity. Qed.

Lemma load_name_countryt2 (self_ c1 c2 : value) :
  load_name {[ "self" := self_; "country1" := c1; "country2" := c2 ]}
    "countryt2"
  = Raise (NameError "countryt2").
Proof. reflexivity. Qed.

Lemma _are_same_continent_raises (self : ContinentMatchingTask)
    (country1 country2 : string) :
  _are_same_continent self country1 country2
  = match dict_get (country_to_continent self) country1 with
    | Ok _ => Raise (NameError "countryt2")
    | Raise e => Raise e
    end.
Proof.
  unfold _are_same_continent.
  change (load_name _ "self") with (Ok (VObject "task")).
  change (load_name _ "country1") with (Ok (VStr country1)).
  cbn [mbind res_mbind res_bind as_key].
  destruct (dict_get (country_to_continent self) country1); reflexivity.
Qed.

(** C8: every call of [continent1_source_sampler] raises [NameError] on
    [base_continent2], on the Yes branch and on the No branch alike, and
    [_are_same_continent] never returns: it raises [KeyError] on an unknown
    first country and [NameError] on the misspelt [countryt2] otherwise. *)
Theorem samplers_raise_name_error :
  (forall self b1 b2 lbl rng,
      continent1_source_sampler self b1 b2 lbl rng
      = Raise (NameError "base_continent2"))
  /\ (forall self b1 b2 rng,
         continent1_source_sampler self b1 b2 "Yes" rng
         = Raise (NameError "base_continent2")
         /\ continent1_source_sampler self b1 b2 "No" rng
            = Raise (NameError "base_continent2"))
  /\ (forall self country1 country2,
         (exists k, _are_same_continent self country1 country2
                    = Raise (KeyError k))
         \/ _are_same_continent self country1 country2
            = Raise (NameError "countryt2")).
Proof.
  assert (Hall : forall self b1 b2 lbl rng,
             continent1_source_sampler self b1 b2 lbl rng
             = Raise (NameError "base_continent2")).
  { intros self b1 b2 lbl rng. unfold continent1_source_sampler.
    change (load_name _ "ctf_label_str") with (Ok (VStr lbl)).
    change (load_name _ "_YES_LABEL") with (Ok (VStr "Yes")).
    cbn [mbind res_mbind res_bind].
    destruct (value_eqb (VStr lbl) (VStr "Yes")); reflexivity. }
  split; [exact Hall|]. split.
  - intros; split; apply Hall.
  - intros self country1 country2. rewrite _are_same_continent_raises.
    generalize (country_to_continent self) as d.
    induction d as [|[k v] d IH]; cbn [dict_get].
    + left. eauto.
    + destruct (String.eqb k country1); [right; reflexivity | exact IH].
Qed.

(** ** The run identity *)

(** C7: the run name is a function of the model base name, the task name,
    the seed, the layer and the token range in force: two invocations that
    agree on these five have the same run name, whatever else differs
    between them. *)
Theorem run_name_deterministic (base_name : string -> string)
    (a1 a2 : Args) (d1 d2 : DasConfig)
    (k1 k2 : DasConfig * AlignmentConfig) :
  get_das_and_alignment_config a1 d1 = Ok k1 ->
  get_das_and_alignment_config a2 d2 = Ok k2 ->
  base_name (model_path a1) = base_name (model_path a2) ->
  task_name a1 = task_name a2 ->
  seed a1 = seed a2 ->
  cfg_layer k1.2 = cfg_layer k2.2 ->
  cfg_token_range k1.2 = cfg_token_range k2.2 ->
  run_name_of base_name a1 d1 = run_name_of base_name a2 d2
  /\ run_name_of base_name a1 d1
     = Ok (run_name (base_name (model_path a1)) (task_name a1) (seed a1)
             k1.2).
Proof.
  intros E1 E2 Hm Ht Hs Hl Hr. unfold run_name_of.
  rewrite E1, E2. cbn [mbind res_mbind res_bind]. split; [|reflexivity].
  unfold run_name. rewrite Hm, Ht, Hs, Hl, Hr. reflexivity.
Qed.

Lemma run_name_deterministic_witness :
  run_name_of last_component default_args
    {| das_layer := 15; das_token_range := [80; 81] |}
  = run_name_of last_component other_args
      {| das_layer := 3; das_token_range := [1; 2; 3] |}
  /\ run_name_of last_component default_args
       {| das_layer := 15; das_token_range := [80; 81] |}
     = Ok "model:alpaca_7b_task:price_tagging_lb_seed:42_intl:15_intr:80,81".
Proof.
  apply (run_name_deterministic last_component default_args other_args
           {| das_layer := 15; das_token_range := [80; 81] |}
           {| das_layer := 3; das_token_range := [1; 2; 3] |}
           ({| das_layer := 15; das_token_range := [80; 81] |},
            {| cfg_layer := 15; cfg_token_range := (80, 81) |})
           ({| das_layer := 3; das_token_range := [1; 2; 3] |},
            {| cfg_layer := 15; cfg_token_range := (80, 81) |}));
    reflexivity.
Defined.

(** ** Example encoding *)

Section EncodingFacts.
Context `{Tokenizer}.

Lemma tokenizer_call_length (text : string) (n : nat) :
  length (tokenizer_call text n) = Nat.max n (length (tokenize text)).
Proof.
  unfold tokenizer_call.
  destruct padding_side_left; rewrite length_app, repeat_length; lia.
Qed.

Lemma py_set_last_repeat (n : nat) (x v : Z) :
  (0 < n)%nat ->
  py_set_last (repeat x n) v = Ok (repeat x (n - 1) ++ [v]).
Proof.
  intros Hn. destruct n as [|n]; [lia|].
  unfold py_set_last. cbn [repeat]. f_equal. f_equal.
  replace (S n - 1)%nat with n by lia.
  change (x :: repeat x n) with (repeat x (S n)).
  clear Hn. induction n as [|n IH]; [reflexivity|].
  change (repeat x (S (S n))) with (x :: repeat x (S n)).
  cbn [removelast repeat] in *. rewrite IH. reflexivity.
Qed.

Lemma py_last_slice_snoc {A : Type} (l : list A) (v : A) :
  py_last_slice (l ++ [v]) = [v].
Proof.
  unfold py_last_slice. rewrite length_app. cbn [length].
  replace (length l + 1 - 1)%nat with (length l) by lia.
  rewrite drop_app_length. reflexivity.
Qed.

Lemma encode_loop_spec (examples : list Example) (acc : Encoded) :
  exists enc,
    encode_loop examples acc = Ok enc
    /\ all_input_ids enc
       = all_input_ids acc
         ++ map (fun e => tokenizer_call (inputs e) 40) examples
    /\ all_output_ids enc
       = all_output_ids acc
         ++ map (fun e => labels_of (inputs e) (targets e)) examples.
Proof.
  revert acc. induction examples as [|e rest IH]; intros acc.
  - exists acc. cbn. rewrite !app_nil_r. auto.
  - cbn [encode_loop]. rewrite py_set_last_repeat
      by (rewrite tokenizer_call_length; lia).
    cbn [mbind res_mbind res_bind].
    edestruct IH as (enc & -> & Hi & Ho). exists enc.
    split; [reflexivity|]. rewrite Hi, Ho. cbn [all_input_ids all_output_ids].
    rewrite <- !app_assoc. cbn [map app].
    rewrite tokenizer_call_length. auto.
Qed.

End EncodingFacts.

(** C10, as the code has it: the labels of an encoded example are as long as
    its [input_ids], whose length is 40 or, for a text of more than 40
    tokens, the number of its tokens; every label is [-100] but the last,
    which is the id of the target; [output_only_labels] is the list of that
    id alone.  This holds for [_encode_input_and_target] and for every
    example of [_encode_examples]. *)
Theorem encoded_labels_shape `{Tokenizer} :
  (forall input_string target_string,
      _encode_input_and_target input_string target_string
      = Ok (tokenizer_call input_string 40,
            labels_of input_string target_string))
  /\ (forall examples, exists enc,
         _encode_examples examples = Ok enc
         /\ all_input_ids enc
            = map (fun e => tokenizer_call (inputs e) 40) examples
         /\ ds_labels (dataset_of enc)
            = map (fun e => labels_of (inputs e) (targets e)) examples
         /\ ds_output_only_labels (dataset_of enc)
            = map (fun e => [convert_tokens_to_ids (targets e)]) examples)
  /\ (forall input_string target_string,
         length (labels_of input_string target_string)
         = length (tokenizer_call input_string 40)
         /\ length (tokenizer_call input_string 40)
            = Nat.max 40 (length (tokenize input_string))
         /\ py_last_slice (labels_of input_string target_string)
            = [convert_tokens_to_ids target_string]).
Proof.
  split; [|split].
  - intros i t. unfold _encode_input_and_target.
    rewrite py_set_last_repeat by (rewrite tokenizer_call_length; lia).
    cbn [mbind res_mbind res_bind]. rewrite tokenizer_call_length.
    reflexivity.
  - intros examples.
    destruct (encode_loop_spec examples
                {| all_input_ids := []; all_source_input_ids := [];
                   all_output_ids := [] |}) as (enc & E & Hi & Ho).
    exists enc. cbn [all_input_ids all_output_ids app] in Hi, Ho.
    split; [exact E|]. split; [exact Hi|]. unfold dataset_of.
    cbn [ds_labels ds_output_only_labels]. rewrite Ho. split; [reflexivity|].
    rewrite map_map. apply map_ext. intros e. apply py_last_slice_snoc.
  - intros i t. rewrite tokenizer_call_length. unfold labels_of.
    rewrite length_app, repeat_length. cbn [length].
    split; [lia|]. split; [reflexivity|]. apply py_last_slice_snoc.
Qed.

(** C10 as stated fails: a prompt of 41 characters under the character
    tokenizer is encoded to 41 ids and 41 labels, not 40. *)
Lemma encoded_length_not_40 :
  exists input_ids output_ids,
    @_encode_input_and_target char_tokenizer
      "Are France and Japan on the same planet??" "Yes"
    = Ok (input_ids, output_ids)
    /\ length input_ids <> 40%nat /\ length output_ids <> 40%nat.
Proof. eexists. eexists. split; [reflexivity|]. split; discriminate. Qed.

(** ** Accuracy *)

Lemma tensor_sum_cons (b : bool) (l : list bool) :
  tensor_sum (b :: l) = (if b then 1 else 0) + tensor_sum l.
Proof.
  unfold tensor_sum. rewrite filter_cons.
  destruct b; destruct (decide _) as [E|E]; try congruence;
    cbn [length]; lia.
Qed.

Lemma tensor_sum_app (l1 l2 : list bool) :
  tensor_sum (l1 ++ l2) = tensor_sum l1 + tensor_sum l2.
Proof.
  induction l1 as [|b l1 IH]; [reflexivity|].
  cbn [app]. rewrite !tensor_sum_cons, IH. lia.
Qed.

Lemma tensor_sum_map_perm {A : Type} (f : A -> bool) (l l' : list A) :
  Permutation l l' -> tensor_sum (map f l) = tensor_sum (map f l').
Proof.
  induction 1 as [|x l l' _ IH|x y l|l l' l'' _ IH1 _ IH2]; cbn [map].
  - reflexivity.
  - rewrite !tensor_sum_cons, IH. reflexivity.
  - rewrite !tensor_sum_cons. lia.
  - congruence.
Qed.

Lemma forallb_perm {A : Type} (f : A -> bool) (l l' : list A) :
  Permutation l l' -> forallb f l = forallb f l'.
Proof.
  induction 1 as [|x l l' _ IH|x y l|l l' l'' _ IH1 _ IH2]; cbn [forallb].
  - reflexivity.
  - rewrite IH. reflexivity.
  - destruct (f x), (f y); reflexivity.
  - congruence.
Qed.

Section TrainerAccuracy.
Context `{FloatOps} `{ModelOracle}.

Lemma correct_labels_pairs (m : Model) (inputs : Batch) :
  correct_labels (target_decoded inputs) (pred_decoded m inputs)
  = map pair_correct (decoded_pairs m inputs).
Proof. reflexivity. Qed.

Lemma eval_counts_from (m : Model) (dataloader : list Batch) (t c : Z) :
  fold_left
    (fun (acc : Z * Z) (inputs : Batch) =>
       let cl := correct_labels (target_decoded inputs)
                   (pred_decoded m inputs) in
       (acc.1 + Z.of_nat (length cl), acc.2 + tensor_sum cl))
    dataloader (t, c)
  = (t + Z.of_nat (length (flat_map (decoded_pairs m) dataloader)),
     c + tensor_sum (map pair_correct
                       (flat_map (decoded_pairs m) dataloader))).
Proof.
  revert t c. induction dataloader as [|b rest IH]; intros t c.
  - cbn [fold_left flat_map map length]. change (tensor_sum []) with 0.
    change (Z.of_nat 0) with 0. rewrite !Z.add_0_r. reflexivity.
  - cbn [fold_left flat_map]. cbv zeta. rewrite IH.
    rewrite correct_labels_pairs, map_app, tensor_sum_app, length_app,
      length_map.
    cbn [fst snd]. f_equal; lia.
Qed.

Lemma eval_counts_flat (m : Model) (dataloader : list Batch) :
  eval_counts m dataloader
  = (Z.of_nat (length (flat_map (decoded_pairs m) dataloader)),
     tensor_sum (map pair_correct (flat_map (decoded_pairs m) dataloader))).
Proof. unfold eval_counts. rewrite eval_counts_from. reflexivity. Qed.

Lemma eval_counts_perm (m : Model) (dl dl' : list Batch) :
  Permutation (flat_map (decoded_pairs m) dl)
    (flat_map (decoded_pairs m) dl') ->
  eval_counts m dl = eval_counts m dl'.
Proof.
  intros P. rewrite !eval_counts_flat.
  rewrite (Permutation_length P), (tensor_sum_map_perm pair_correct _ _ P).
  reflexivity.
Qed.

Lemma eval_counts_nil (m : Model) : eval_counts m [] = (0, 0).
Proof. reflexivity. Qed.

End TrainerAccuracy.

Section MetricsFacts.
Context `{FloatOps}.
Variable argmax : list Q -> Z.

Lemma last_column_map {A E : Type} (f : E -> list A) (d : A) (b : list E) :
  last_column (map f b)
  = if forallb (fun ex => bool_decide (is_Some (last (f ex)))) b
    then Ok (map (fun ex => default d (last (f ex))) b)
    else Raise IndexError.
Proof.
  induction b as [|ex b IH]; [reflexivity|].
  cbn [map last_column forallb]. unfold py_last.
  destruct (last (f ex)) as [x|] eqn:Hlast; cbn [mbind res_mbind res_bind];
    [|reflexivity].
  rewrite IH, bool_decide_true by eauto. cbn [andb default].
  destruct (forallb _ b); reflexivity.
Qed.

Lemma row_ok_split (b : list (list (list Q) * list Z)) :
  forallb row_ok b
  = forallb (fun ex => bool_decide (is_Some (last ex.2))) b
    && forallb (fun ex => bool_decide (is_Some (last ex.1))) b.
Proof.
  induction b as [|ex b IH]; [reflexivity|].
  cbn [forallb]. rewrite IH. unfold row_ok.
  destruct (last ex.1) as [x|], (last ex.2) as [y|];
    repeat (rewrite bool_decide_true by eauto);
    repeat (rewrite bool_decide_false by (intros [? ?]; discriminate));
    cbn [andb]; rewrite ?andb_false_r; reflexivity.
Qed.

Lemma tensor_sum_rows (b : list (list (list Q) * list Z)) :
  forallb row_ok b = true ->
  tensor_sum
    (zip_with Z.eqb (map (fun ex => default 0 (last ex.2)) b)
       (map argmax (map (fun ex => default [] (last ex.1)) b)))
  = tensor_sum (map (row_correct argmax) b).
Proof.
  induction b as [|ex b IH]; [reflexivity|].
  cbn [forallb map zip_with]. intros Hok.
  apply andb_true_iff in Hok as [Hex Hb].
  rewrite !tensor_sum_cons, (IH Hb). f_equal.
  unfold row_ok in Hex. unfold row_correct.
  destruct (last ex.1), (last ex.2); try discriminate. reflexivity.
Qed.

Lemma batch_counts_rows (b : list (list (list Q) * list Z)) :
  batch_counts argmax (map fst b) (map snd b)
  = if forallb row_ok b
    then Ok (Z.of_nat (length b), tensor_sum (map (row_correct argmax) b))
    else Raise IndexError.
Proof.
  unfold batch_counts.
  rewrite (last_column_map snd 0 b), (last_column_map fst [] b).
  rewrite row_ok_split.
  destruct (forallb (fun ex => bool_decide (is_Some (last ex.2))) b) eqn:E2;
    cbn [mbind res_mbind res_bind andb]; [|reflexivity].
  destruct (forallb (fun ex => bool_decide (is_Some (last ex.1))) b) eqn:E1;
    cbn [mbind res_mbind res_bind andb]; [|reflexivity].
  unfold tensor_eq. rewrite !length_map, Nat.eqb_refl.
  cbn [mbind res_mbind res_bind].
  rewrite length_zip_with, !length_map, Nat.min_id.
  rewrite tensor_sum_rows by (rewrite row_ok_split, E1, E2; reflexivity).
  reflexivity.
Qed.

Lemma metrics_loop_rows (bs : list (list (list (list Q) * list Z)))
    (t c : Z) :
  metrics_loop argmax (zip (map (map fst) bs) (map (map snd) bs)) t c
  = if forallb row_ok (concat bs)
    then Ok (t + Z.of_nat (length (concat bs)),
             c + tensor_sum (map (row_correct argmax) (concat bs)))
    else Raise IndexError.
Proof.
  revert t c. induction bs as [|b bs IH]; intros t c.
  - cbn [map zip zip_with metrics_loop concat forallb length].
    change (tensor_sum []) with 0.
    change (Z.of_nat 0) with 0. rewrite !Z.add_0_r. reflexivity.
  - cbn [map zip zip_with metrics_loop concat].
    change (zip_with pair (map (map fst) bs) (map (map snd) bs))
      with (zip (map (map fst) bs) (map (map snd) bs)).
    rewrite batch_counts_rows, forallb_app.
    destruct (forallb row_ok b); cbn [mbind res_mbind res_bind andb];
      [|reflexivity].
    rewrite IH. destruct (forallb row_ok (concat bs)); [|reflexivity].
    rewrite length_app, map_app, tensor_sum_app. cbn [fst snd].
    f_equal. f_equal; lia.
Qed.

Lemma metrics_of_perm (bs bs' : list (list (list (list Q) * list Z))) :
  Permutation (concat bs) (concat bs') ->
  metrics_of argmax bs = metrics_of argmax bs'.
Proof.
  intros P. unfold metrics_of, compute_metrics.
  rewrite !metrics_loop_rows.
  rewrite (forallb_perm row_ok _ _ P), (Permutation_length P),
    (tensor_sum_map_perm (row_correct argmax) _ _ P).
  reflexivity.
Qed.

End MetricsFacts.

(** C9: the accuracy does not depend on the order of the examples.  For
    [compute_metrics], batches whose examples are the same up to order give
    the same result; for the evaluation loop of the trainer, dataloaders
    whose decoded (gold, prediction) pairs are the same up to order give the
    same counts, hence the same reported accuracy in [prealign_eval].  Both
    cover a shuffle inside a batch and a shuffle of the batches. *)
Theorem accuracy_order_independent `{FloatOps} `{ModelOracle}
    (argmax : list Q -> Z) :
  (forall bs bs' : list (list (list (list Q) * list Z)),
      Permutation (concat bs) (concat bs') ->
      metrics_of argmax bs = metrics_of argmax bs')
  /\ (forall (self : Aligner) (m : Model) (dl dl' : list Batch),
         Permutation
           (flat_map (decoded_pairs (set_training false m)) dl)
           (flat_map (decoded_pairs (set_training false m)) dl') ->
         reported_accuracy (prealign_eval self m dl)
         = reported_accuracy (prealign_eval self m dl')).
Proof.
  split.
  - intros bs bs'. apply metrics_of_perm.
  - intros self m dl dl' P. unfold prealign_eval.
    rewrite (eval_counts_perm _ dl dl' P).
    destruct (rounded_accuracy _ _) as [acc|e]; [|reflexivity].
    cbn [mbind res_mbind res_bind reported_accuracy].
    destruct (is_master self && negb (is_wandb self)), (is_wandb self);
      reflexivity.
Qed.

(** C4, on the code: with an empty dataloader [prealign_eval] divides by a
    zero [total_count] and raises. *)
Theorem prealign_eval_empty_raises `{FloatOps} `{ModelOracle}
    (self : Aligner) (m : Model) :
  prealign_eval self m [] = Raise ZeroDivisionError.
Proof. reflexivity. Qed.

(** ** The training loop *)

Lemma py_mod_ok (a b : Z) : b <> 0 -> py_mod a b = Ok (a mod b).
Proof.
  intros Hb. unfold py_mod. destruct (b =? 0) eqn:E; [lia|reflexivity].
Qed.

Lemma py_index_ok {A : Type} (xs : list A) (i : Z) (x : A) :
  0 <= i -> nth_error xs (Z.to_nat i) = Some x -> py_index xs i = Ok x.
Proof.
  intros Hi Hx. unfold py_index.
  destruct (i <? 0) eqn:E; [lia|]. rewrite Hx. reflexivity.
Qed.

Lemma TrainState_eq (a b : TrainState) :
  model a = model b -> total_step a = total_step b ->
  total_log_step a = total_log_step b ->
  best_eval_acc a = best_eval_acc b -> trace a = trace b -> a = b.
Proof. destruct a, b. cbn. intros; subst; reflexivity. Qed.

Lemma Model_eq (a b : Model) :
  training a = training b -> temperature a = temperature b ->
  grad a = grad b -> updates a = updates b -> a = b.
Proof. destruct a, b. cbn. intros; subst; reflexivity. Qed.

Ltac project :=
  cbn [model total_step total_log_step best_eval_acc trace training
       temperature grad updates emit with_model with_best save_model
       incr_log_step incr_step set_training set_temperature backward
       optimizer_step zero_grad].

Section TrainerFacts.
Context `{FloatOps} `{ModelOracle}.
Variable self : Aligner.
Variable dev_dataloader : list Batch.
Variable temperature_schedule : list Q.
Variables log_step valid_steps gradient_accumulation_steps : Z.

Hypothesis log_step_nonzero : is_master self = true -> log_step <> 0.
Hypothesis valid_steps_nonzero : valid_steps <> 0.
Hypothesis accumulation_nonzero : gradient_accumulation_steps <> 0.
Hypothesis dev_nonempty :
  forall m, (eval_counts m dev_dataloader).1 <> 0.

Lemma rounded_accuracy_ok (c t : Z) :
  t <> 0 -> rounded_accuracy c t = Ok (round2 (inject_Z c / inject_Z t)%Q).
Proof.
  intros Ht. unfold rounded_accuracy, py_truediv.
  destruct (t =? 0) eqn:E; [lia|reflexivity].
Qed.

Lemma periodic_eval_spec (st : TrainState) :
  exists acc,
    periodic_eval self dev_dataloader st
    = Ok {| model := set_training true (model st);
            total_step := total_step st;
            total_log_step := total_log_step st;
            best_eval_acc := (if Qlt_bool (best_eval_acc st) acc then acc
                              else best_eval_acc st);
            trace := trace st
                     ++ [EvSetMode false;
                         EvEvalPass Dev (total_step st)
                           (length dev_dataloader) false false;
                         EvLogEval (log_sink self) Dev (total_step st) acc]
                     ++ (if Qlt_bool (best_eval_acc st) acc
                            && is_master self
                         then [EvSaveModel "pytorch-rotate-best.bin"
                                 (updates (model st))
                                 (temperature (model st))]
                         else [])
                     ++ [EvSetMode true] |}.
Proof.
  unfold periodic_eval. cbv zeta.
  rewrite rounded_accuracy_ok by apply dev_nonempty.
  match goal with
  | |- context [Ok (round2 ?q)] => exists (round2 q); generalize (round2 q)
  end.
  intros acc. cbn [mbind res_mbind res_bind]. f_equal.
  destruct (Qlt_bool (best_eval_acc st) acc) eqn:Elt, (is_master self);
    (apply TrainState_eq; project; rewrite ?Elt; project;
     [apply Model_eq; project; reflexivity
     |reflexivity ..
     |rewrite <- ?app_assoc; reflexivity]).
Qed.

Lemma log_and_validate_spec (st : TrainState) :
  exists st1,
    log_and_validate self dev_dataloader log_step valid_steps st = Ok st1
    /\ logged self (length dev_dataloader) log_step valid_steps st st1.
Proof.
  unfold log_and_validate, logged, eval_due, log_due. cbv zeta.
  assert (Hm : is_master self = true \/ is_master self = false)
    by (destruct (is_master self); auto).
  destruct Hm as [Em|Em]; rewrite Em.
  - rewrite (py_mod_ok _ log_step) by auto.
    cbn [mbind res_mbind res_bind andb].
    destruct (total_step st mod log_step =? 0) eqn:El.
    + cbn [total_step emit].
      destruct (total_step st =? 0) eqn:E0; cbn [negb andb].
      * cbn [mbind res_mbind res_bind]. eexists. split; [reflexivity|].
        project. repeat split; auto. right. left. auto.
      * rewrite (py_mod_ok _ valid_steps) by auto.
        cbn [mbind res_mbind res_bind].
        destruct (total_step st mod valid_steps =? 0) eqn:Ev.
        -- destruct (periodic_eval_spec
                       (emit [EvLogTrain (log_sink self) (total_step st)]
                          st)) as [acc ->].
           cbn [mbind res_mbind res_bind]. eexists. split; [reflexivity|].
           project. rewrite Em, andb_true_r. repeat split; auto.
           right. right. split; [reflexivity|]. exists acc.
           rewrite <- !app_assoc. cbn [app]. auto.
        -- cbn [mbind res_mbind res_bind]. eexists. split; [reflexivity|].
           project. repeat split; auto. right. left. auto.
    + eexists. split; [reflexivity|]. repeat split; auto.
  - cbn [mbind res_mbind res_bind andb]. eexists. split; [reflexivity|].
    repeat split; auto.
Qed.

Lemma accumulate_and_update_spec (st : TrainState) :
  0 <= total_step st ->
  (Z.to_nat (total_step st) < length temperature_schedule)%nat ->
  exists st2,
    accumulate_and_update temperature_schedule gradient_accumulation_steps st
    = Ok st2
    /\ updated temperature_schedule gradient_accumulation_steps st st2.
Proof.
  intros Hs Hlt. unfold accumulate_and_update, updated, update_due.
  cbv zeta. rewrite py_mod_ok by auto. cbn [mbind res_mbind res_bind].
  destruct (total_step st mod gradient_accumulation_steps =? 0);
    cbn [andb]; [|eexists; split; [reflexivity|]; repeat split; auto].
  destruct (negb _);
    [|eexists; split; [reflexivity|]; repeat split; auto].
  destruct (nth_error temperature_schedule (Z.to_nat (total_step st)))
    as [t|] eqn:Et; [|apply nth_error_None in Et; lia].
  cbn [emit with_model total_step model].
  assert (Ei : py_index temperature_schedule (total_step st) = Ok t)
    by (apply py_index_ok; assumption).
  rewrite Ei. cbn [mbind res_mbind res_bind]. eexists.
  split; [reflexivity|].
  unfold loss_divisor. project. repeat split; auto. right. split; [reflexivity|]. exists t.
  rewrite <- !app_assoc. cbn [app]. repeat split; auto.
Qed.

Lemma train_step_spec (st : TrainState) (inputs : Batch) :
  0 <= total_step st ->
  (Z.to_nat (total_step st) < length temperature_schedule)%nat ->
  exists st1 st2,
    logged self (length dev_dataloader) log_step valid_steps st st1
    /\ updated temperature_schedule gradient_accumulation_steps st1 st2
    /\ train_step self dev_dataloader temperature_schedule log_step
         valid_steps gradient_accumulation_steps st inputs
       = Ok (incr_step st2).
Proof.
  intros Hs Hlt. unfold train_step.
  destruct (log_and_validate_spec st) as (st1 & -> & L).
  cbn [mbind res_mbind res_bind].
  assert (E1 : total_step st1 = total_step st) by apply L.
  destruct (accumulate_and_update_spec st1) as (st2 & -> & U);
    [rewrite E1; lia .. |].
  cbn [mbind res_mbind res_bind]. eauto.
Qed.

End TrainerFacts.

Section Loops.
Context `{ModelOracle}.
Variable step : TrainState -> Batch -> res TrainState.
Variable P : nat -> TrainState -> Prop.
Variable T : nat.
Hypothesis step_ok :
  forall k st b, (k < T)%nat -> P k st ->
    exists st', step st b = Ok st' /\ P (S k) st'.

Lemma run_batches_inv (bs : list Batch) :
  forall k st, (k + length bs <= T)%nat -> P k st ->
    exists st', run_batches step bs st = Ok st'
                /\ P (k + length bs)%nat st'.
Proof.
  induction bs as [|b bs IH]; intros k st Hk HP.
  - exists st. cbn [run_batches length]. rewrite Nat.add_0_r. auto.
  - cbn [run_batches length] in *.
    destruct (step_ok k st b) as (st1 & -> & HP1); [lia|assumption|].
    cbn [mbind res_mbind res_bind].
    destruct (IH (S k) st1) as (st' & E & HP'); [lia|assumption|].
    exists st'. split; [exact E|].
    replace (k + S (length bs))%nat with (S k + length bs)%nat by lia.
    exact HP'.
Qed.

Lemma run_epochs_inv (dl : list Batch) (n : nat) :
  forall k st, (k + n * length dl <= T)%nat -> P k st ->
    exists st', run_epochs step dl n st = Ok st'
                /\ P (k + n * length dl)%nat st'.
Proof.
  induction n as [|n IH]; intros k st Hk HP.
  - exists st. cbn [run_epochs]. rewrite Nat.mul_0_l, Nat.add_0_r. auto.
  - cbn [run_epochs].
    destruct (run_batches_inv dl k st) as (st1 & -> & HP1);
      [lia|assumption|].
    cbn [mbind res_mbind res_bind].
    destruct (IH (k + length dl)%nat st1) as (st' & E & HP');
      [lia|assumption|].
    exists st'. split; [exact E|].
    replace (k + S n * length dl)%nat
      with (k + length dl + n * length dl)%nat by lia.
    exact HP'.
Qed.

End Loops.

Section Schedule.
Context `{FloatOps}.

Lemma linspace_lookup (start end_ : Q) (T k : nat) :
  (k < T)%nat ->
  exists l,
    linspace start end_ (Z.of_nat T) = Ok l
    /\ length l = T
    /\ nth_error l k
       = Some (if Z.of_nat T =? 1 then start
               else linspace_entry start end_ (Z.of_nat T) (Z.of_nat k)).
Proof.
  intros Hk. unfold linspace.
  destruct (Z.of_nat T <? 0) eqn:E0; [lia|].
  destruct (Z.of_nat T =? 1) eqn:E1.
  - exists [start]. assert (T = 1%nat) by lia. subst T.
    assert (k = 0%nat) by lia. subst k. auto.
  - eexists. split; [reflexivity|]. rewrite Nat2Z.id.
    rewrite length_map, length_seq. split; [reflexivity|].
    rewrite nth_error_map, nth_error_seq.
    destruct (Nat.ltb_spec k T); [reflexivity|lia].
Qed.

Lemma schedule_lookup (T : nat) :
  (0 < T)%nat ->
  exists l,
    linspace temperature_start temperature_end (Z.of_nat T) = Ok l
    /\ length (map to_bfloat16 l) = T
    /\ forall k, (k < T)%nat ->
         py_index (map to_bfloat16 l) (Z.of_nat k)
         = Ok (schedule_at (Z.of_nat T) (Z.of_nat k)).
Proof.
  intros HT.
  destruct (linspace_lookup temperature_start temperature_end T 0 HT)
    as (l & El & Hlen & _).
  exists l. split; [exact El|]. rewrite length_map. split; [exact Hlen|].
  intros k Hk.
  destruct (linspace_lookup temperature_start temperature_end T k Hk)
    as (l' & El' & _ & Hnth).
  rewrite El in El'. injection El' as <-.
  apply py_index_ok; [lia|]. rewrite Nat2Z.id, nth_error_map, Hnth.
  reflexivity.
Qed.

End Schedule.

Section TrainInvariant.
Context `{FloatOps} `{ModelOracle}.
Variable self : Aligner.
Variable m : Model.
Variables train_dataloader dev_dataloader test_dataloader : list Batch.
Variables log_step valid_steps epochs gradient_accumulation_steps : Z.

(** The number of training steps of the run. *)
Let T : nat := (length train_dataloader * Z.to_nat epochs)%nat.

Hypothesis log_step_nonzero : is_master self = true -> log_step <> 0.
Hypothesis valid_steps_nonzero : valid_steps <> 0.
Hypothesis accumulation_nonzero : gradient_accumulation_steps <> 0.
Hypothesis dev_nonempty :
  forall m', (eval_counts m' dev_dataloader).1 <> 0.
Hypothesis test_nonempty :
  is_master self = true ->
  forall m', (eval_counts m' test_dataloader).1 <> 0.
Hypothesis some_steps : (0 < T)%nat.

Variable P : nat -> TrainState -> Prop.
Hypothesis P_initial : P 0 (initial_state self m (Z.of_nat T)).
Hypothesis P_step :
  forall temperature_schedule k st st1 st2,
    (k < T)%nat ->
    (forall j, (j < T)%nat ->
       py_index temperature_schedule (Z.of_nat j)
       = Ok (schedule_at (Z.of_nat T) (Z.of_nat j))) ->
    total_step st = Z.of_nat k ->
    P k st ->
    logged self (length dev_dataloader) log_step valid_steps st st1 ->
    updated temperature_schedule gradient_accumulation_steps st1 st2 ->
    P (S k) (incr_step st2).

Lemma final_eval_spec (stT : TrainState) :
  exists st,
    final_eval self test_dataloader stT = Ok st
    /\ finished self (length test_dataloader) stT
         (if is_master self then save_model "pytorch-rotate-last.bin" st
          else st).
Proof.
  unfold final_eval, finished.
  assert (Hm : is_master self = true \/ is_master self = false)
    by (destruct (is_master self); auto).
  destruct Hm as [Em|Em]; rewrite Em.
  - cbv zeta. rewrite rounded_accuracy_ok by (apply test_nonempty; exact Em).
    cbn [mbind res_mbind res_bind]. eexists. split; [reflexivity|].
    project. repeat split; auto. right. split; [reflexivity|]. eexists.
    rewrite <- !app_assoc. reflexivity.
  - exists stT. split; [reflexivity|]. repeat split; auto.
Qed.

Lemma train_inv :
  exists stT st,
    train self m train_dataloader dev_dataloader test_dataloader log_step
      valid_steps epochs gradient_accumulation_steps = Ok st
    /\ total_step stT = Z.of_nat T
    /\ P T stT
    /\ finished self (length test_dataloader) stT st.
Proof.
  assert (Hep : 0 < epochs) by (subst T; lia).
  assert (HT : Z.of_nat (length train_dataloader) * epochs = Z.of_nat T).
  { subst T. rewrite Nat2Z.inj_mul, Z2Nat.id by lia. reflexivity. }
  unfold train. cbv zeta. rewrite HT.
  destruct (schedule_lookup T some_steps) as (l & -> & Hlen & Hidx).
  cbn [mbind res_mbind res_bind].
  pose proof (Hidx 0%nat some_steps) as H00.
  change (Z.of_nat 0) with 0 in H00. rewrite H00.
  cbn [mbind res_mbind res_bind].
  change {| model := _; total_step := 0; total_log_step := 0;
            best_eval_acc := -1; trace := _ |}
    with (initial_state self m (Z.of_nat T)).
  destruct (run_epochs_inv
              (train_step self dev_dataloader (map to_bfloat16 l) log_step
                 valid_steps gradient_accumulation_steps)
              (fun k st => total_step st = Z.of_nat k /\ P k st) T)
    with (dl := train_dataloader) (n := Z.to_nat epochs) (k := 0%nat)
         (st := initial_state self m (Z.of_nat T))
    as (stT & -> & Hstep & HP).
  - intros k st b Hk [Hs HP].
    destruct (train_step_spec self dev_dataloader (map to_bfloat16 l)
                log_step valid_steps gradient_accumulation_steps
                log_step_nonzero valid_steps_nonzero accumulation_nonzero
                dev_nonempty st b) as (st1 & st2 & L & U & ->);
      [lia | rewrite Hs, Nat2Z.id, Hlen; exact Hk |].
    eexists. split; [reflexivity|]. split.
    + cbn [incr_step total_step].
      assert (total_step st2 = total_step st1) by apply U.
      assert (total_step st1 = total_step st) by apply L. lia.
    + eapply P_step; eauto.
  - subst T. lia.
  - split; [reflexivity|exact P_initial].
  - cbn [mbind res_mbind res_bind].
    destruct (final_eval_spec stT) as (st & -> & F).
    cbn [mbind res_mbind res_bind]. eexists stT, _.
    split; [reflexivity|]. replace (0 + Z.to_nat epochs * length train_dataloader)%nat
      with T in * by (subst T; lia).
    auto.
Qed.

End TrainInvariant.

Lemma steps_S (k : nat) : steps (S k) = steps k ++ [Z.of_nat k].
Proof. unfold steps. rewrite seq_S, map_app. reflexivity. Qed.

Lemma filter_steps_S (f : Z -> bool) (k : nat) :
  filter (fun s => f s = true) (steps (S k))
  = filter (fun s => f s = true) (steps k)
    ++ (if f (Z.of_nat k) then [Z.of_nat k] else []).
Proof.
  rewrite steps_S, filter_app. f_equal.
  rewrite filter_cons, filter_nil.
  destruct (decide _) as [E|E]; destruct (f (Z.of_nat k));
    congruence.
Qed.

Lemma elem_of_filter_steps (f : Z -> bool) (n : nat) (s : Z) :
  In s (filter (fun s => f s = true) (steps n))
  <-> (0 <= s < Z.of_nat n /\ f s = true).
Proof.
  induction n as [|n IH].
  - cbn. lia.
  - rewrite filter_steps_S, in_app_iff, IH.
    destruct (f (Z.of_nat n)) eqn:E; cbn [In]; split.
    + intros [[? ?]|[<-|[]]]; split; auto; lia.
    + intros [? Hf]. destruct (Z.eq_dec s (Z.of_nat n)); [auto|].
      left. split; [lia|auto].
    + intros [[? ?]|[]]; split; auto; lia.
    + intros [? Hf]. left. split; [|auto].
      assert (s <> Z.of_nat n) by congruence. lia.
Qed.

Lemma dev_passes_app (t1 t2 : list event) :
  dev_passes (t1 ++ t2) = dev_passes t1 ++ dev_passes t2.
Proof. apply omap_app. Qed.

Lemma backward_steps_app (t1 t2 : list event) :
  backward_steps (t1 ++ t2) = backward_steps t1 ++ backward_steps t2.
Proof. apply omap_app. Qed.

Section PeriodicEvaluation.
Context `{FloatOps} `{ModelOracle}.
Variable self : Aligner.
Variable m : Model.
Variables train_dataloader dev_dataloader test_dataloader : list Batch.
Variables log_step valid_steps epochs gradient_accumulation_steps : Z.

Hypothesis log_step_nonzero : is_master self = true -> log_step <> 0.
Hypothesis valid_steps_nonzero : valid_steps <> 0.
Hypothesis accumulation_nonzero : gradient_accumulation_steps <> 0.
Hypothesis dev_nonempty :
  forall m', (eval_counts m' dev_dataloader).1 <> 0.
Hypothesis test_nonempty :
  is_master self = true ->
  forall m', (eval_counts m' test_dataloader).1 <> 0.
Hypothesis some_steps :
  (0 < length train_dataloader * Z.to_nat epochs)%nat.

Lemma train_dev_passes :
  exists st,
    train self m train_dataloader dev_dataloader test_dataloader log_step
      valid_steps epochs gradient_accumulation_steps = Ok st
    /\ dev_passes (trace st)
       = expected_dev_passes self (length dev_dataloader) log_step
           valid_steps (length train_dataloader * Z.to_nat epochs).
Proof.
  destruct (train_inv self m train_dataloader dev_dataloader
              test_dataloader log_step valid_steps epochs
              gradient_accumulation_steps log_step_nonzero
              valid_steps_nonzero accumulation_nonzero dev_nonempty
              test_nonempty some_steps
              (fun k st =>
                 dev_passes (trace st)
                 = expected_dev_passes self (length dev_dataloader)
                     log_step valid_steps k))
    as (stT & st & E & _ & HP & F).
  - unfold initial_state. cbn [trace].
    destruct (is_master self && negb (is_wandb self)); reflexivity.
  - intros sched k st st1 st2 Hk _ Hs HP L U.
    cbn [incr_step trace]. unfold expected_dev_passes.
    rewrite filter_steps_S, map_app.
    fold (expected_dev_passes self (length dev_dataloader) log_step
            valid_steps k).
    rewrite <- HP, <- Hs.
    destruct L as (Hs1 & _ & _ & _ & _ & L).
    destruct U as (_ & _ & _ & U).
    assert (Eu : dev_passes (trace st2) = dev_passes (trace st1)).
    { destruct U as [(_ & -> & _)|(_ & t & _ & -> & _)]; [reflexivity|].
      rewrite dev_passes_app. cbn. apply app_nil_r. }
    rewrite Eu.
    destruct L as [(El & -> & _)|[(El & Ee & -> & _)|(Ee & acc & -> & _)]].
    + unfold eval_due. rewrite El. cbn. rewrite app_nil_r. reflexivity.
    + rewrite Ee, dev_passes_app. reflexivity.
    + rewrite Ee, dev_passes_app. f_equal.
      destruct (Qlt_bool (best_eval_acc st) acc); reflexivity.
  - exists st. split; [exact E|]. rewrite <- HP.
    destruct F as (_ & _ & _ & _ & _ & [(_ & ->)|(_ & acc & ->)]);
      [reflexivity|].
    rewrite dev_passes_app. cbn. apply app_nil_r.
Qed.

End PeriodicEvaluation.

(** C2, as the code has it: in a run of [train] that completes, a full pass
    over the held-out set, in eval mode and without gradients, is made
    exactly at the steps that are due: on the master, the steps before the
    end that are not zero and are multiples of [valid_steps] and of
    [log_step] both. *)
Theorem periodic_eval_when_due `{FloatOps} `{ModelOracle}
    (self : Aligner) (m : Model)
    (train_dataloader dev_dataloader test_dataloader : list Batch)
    (log_step valid_steps epochs gradient_accumulation_steps : Z) :
  (is_master self = true -> log_step <> 0) ->
  valid_steps <> 0 ->
  gradient_accumulation_steps <> 0 ->
  (forall m', (eval_counts m' dev_dataloader).1 <> 0) ->
  (is_master self = true ->
   forall m', (eval_counts m' test_dataloader).1 <> 0) ->
  (0 < length train_dataloader * Z.to_nat epochs)%nat ->
  exists st,
    train self m train_dataloader dev_dataloader test_dataloader log_step
      valid_steps epochs gradient_accumulation_steps = Ok st
    /\ (forall s n train_mode grad_enabled,
           In (s, n, train_mode, grad_enabled) (dev_passes (trace st))
           <-> (0 <= s
                   < Z.of_nat (length train_dataloader * Z.to_nat epochs)
                /\ is_master self = true
                /\ s mod log_step = 0
                /\ s <> 0
                /\ s mod valid_steps = 0
                /\ n = length dev_dataloader
                /\ train_mode = false
                /\ grad_enabled = false)).
Proof.
  intros Hl Hv Hg Hd Ht HT.
  destruct (train_dev_passes self m train_dataloader dev_dataloader
              test_dataloader log_step valid_steps epochs
              gradient_accumulation_steps Hl Hv Hg Hd Ht HT)
    as (st & E & Hp).
  exists st. split; [exact E|]. intros s n tm ge. rewrite Hp.
  unfold expected_dev_passes. rewrite in_map_iff. split.
  - intros (s' & Heq & Hin). injection Heq as <- <- <- <-.
    apply elem_of_filter_steps in Hin as [Hr Hdue].
    unfold eval_due, log_due in Hdue.
    repeat (apply andb_true_iff in Hdue as [Hdue ?]).
    repeat split; try lia; auto.
  - intros (Hr & Hm & Hls & Hnz & Hvs & -> & -> & ->). exists s.
    split; [reflexivity|]. apply elem_of_filter_steps. split; [exact Hr|].
    unfold eval_due, log_due. rewrite Hm, Hls, Hvs.
    destruct (s =? 0) eqn:E0; [lia|reflexivity].
Qed.

Lemma decoded_counts_nonzero (m : Model) :
  (@eval_counts decoded_oracle m [yes_no_batch]).1 <> 0.
Proof. intros E. vm_compute in E. discriminate E. Qed.

Lemma periodic_eval_when_due_witness :
  exists st,
    @train exact_ops decoded_oracle master fresh_model four_batches
      [yes_no_batch] [yes_no_batch] 1 2 1 1 = Ok st
    /\ (forall s n train_mode grad_enabled,
           In (s, n, train_mode, grad_enabled) (dev_passes (trace st))
           <-> (0 <= s < Z.of_nat (length four_batches * Z.to_nat 1)
                /\ is_master master = true
                /\ s mod 1 = 0
                /\ s <> 0
                /\ s mod 2 = 0
                /\ n = length [yes_no_batch]
                /\ train_mode = false
                /\ grad_enabled = false)).
Proof.
  apply (@periodic_eval_when_due exact_ops decoded_oracle master fresh_model
           four_batches [yes_no_batch] [yes_no_batch] 1 2 1 1).
  - intros _. lia.
  - lia.
  - lia.
  - apply decoded_counts_nonzero.
  - intros _. apply decoded_counts_nonzero.
  - vm_compute. lia.
Defined.

(** C2 as stated fails: with [log_step = 2] and [valid_steps = 3], step 3
    of a run of four steps is a non-zero multiple of [valid_steps], and the
    run makes no pass over the held-out set at all. *)
Lemma periodic_eval_depends_on_log_step :
  exists st,
    @train exact_ops decoded_oracle master fresh_model four_batches
      [yes_no_batch] [yes_no_batch] 2 3 1 1 = Ok st
    /\ dev_passes (trace st) = []
    /\ 3 mod 3 = 0 /\ 3 <> 0 /\ 0 <= 3 < 4.
Proof.
  assert (E : exists st,
             @train exact_ops decoded_oracle master fresh_model four_batches
               [yes_no_batch] [yes_no_batch] 2 3 1 1 = Ok st
             /\ dev_passes (trace st) = []).
  { vm_compute. eexists. split; reflexivity. }
  destruct E as (st & E1 & E2). exists st. repeat split; auto; lia.
Qed.

(** ** Gradient accumulation *)

Section Accumulation.
Context `{FloatOps} `{ModelOracle}.
Variable self : Aligner.
Variable m : Model.
Variables train_dataloader dev_dataloader test_dataloader : list Batch.
Variables log_step valid_steps epochs gradient_accumulation_steps : Z.

Hypothesis log_step_nonzero : is_master self = true -> log_step <> 0.
Hypothesis valid_steps_nonzero : valid_steps <> 0.
Hypothesis accumulation_nonzero : gradient_accumulation_steps <> 0.
Hypothesis dev_nonempty :
  forall m', (eval_counts m' dev_dataloader).1 <> 0.
Hypothesis test_nonempty :
  is_master self = true ->
  forall m', (eval_counts m' test_dataloader).1 <> 0.
Hypothesis some_steps :
  (0 < length train_dataloader * Z.to_nat epochs)%nat.
Hypothesis no_gradient_yet : grad m = [].
Hypothesis no_update_yet : updates m = [].

Lemma train_updates :
  exists st,
    train self m train_dataloader dev_dataloader test_dataloader log_step
      valid_steps epochs gradient_accumulation_steps = Ok st
    /\ updates (model st)
       = expected_updates gradient_accumulation_steps
           (length train_dataloader * Z.to_nat epochs)
    /\ backward_steps (trace st)
       = filter (fun s => update_due gradient_accumulation_steps s = true)
           (steps (length train_dataloader * Z.to_nat epochs)).
Proof.
  destruct (train_inv self m train_dataloader dev_dataloader
              test_dataloader log_step valid_steps epochs
              gradient_accumulation_steps log_step_nonzero
              valid_steps_nonzero accumulation_nonzero dev_nonempty
              test_nonempty some_steps
              (fun k st =>
                 grad (model st) = []
                 /\ updates (model st)
                    = expected_updates gradient_accumulation_steps k
                 /\ backward_steps (trace st)
                    = filter
                        (fun s =>
                           update_due gradient_accumulation_steps s = true)
                        (steps k)))
    as (stT & st & E & _ & (Hg & Hu & Hb) & F).
  - unfold initial_state. cbn [trace model grad updates set_temperature
                                set_training].
    repeat split; auto.
    destruct (is_master self && negb (is_wandb self)); reflexivity.
  - intros sched k st st1 st2 Hk _ Hs (Hg & Hu & Hb) L U.
    cbn [incr_step trace model]. unfold expected_updates.
    rewrite filter_steps_S, map_app.
    fold (expected_updates gradient_accumulation_steps k).
    destruct L as (Hs1 & Hg1 & Hu1 & _ & _ & L).
    assert (Eb : backward_steps (trace st1) = backward_steps (trace st)).
    { destruct L as [(_ & -> & _)|[(_ & _ & -> & _)|(_ & acc & -> & _)]];
        [reflexivity| |].
      - rewrite backward_steps_app. cbn. apply app_nil_r.
      - rewrite backward_steps_app.
        destruct (Qlt_bool (best_eval_acc st) acc); cbn; apply app_nil_r. }
    destruct U as (_ & _ & _ & U). rewrite <- Hs, <- Hs1.
    destruct U as [(-> & -> & ->)|(-> & t & _ & -> & _ & Hg2 & Hu2)].
    + cbn [map]. rewrite ?app_nil_r. rewrite Hg1, Hu1, Eb. auto.
    + rewrite Hg2, Hu2, Hu1, Hg1, Hg, Hu, backward_steps_app, Eb, Hb.
      cbn [app map]. auto.
  - exists st. destruct F as (_ & _ & _ & _ & Hu' & F).
    split; [exact E|]. rewrite Hu', Hu. split; [reflexivity|].
    rewrite <- Hb.
    destruct F as [(_ & ->)|(_ & acc & ->)]; [reflexivity|].
    rewrite backward_steps_app. cbn. apply app_nil_r.
Qed.

End Accumulation.

(** C1, on the code: in a run of [train] that completes, the loss is
    back-propagated only at the steps where the gradient block is due (the
    multiples of [gradient_accumulation_steps], step 0 left out when that
    number is above one), and every optimizer step consumes the gradient of
    the batch of its own step alone: the other batches of an accumulation
    window contribute nothing to the update. *)
Theorem updates_use_one_batch `{FloatOps} `{ModelOracle}
    (self : Aligner) (m : Model)
    (train_dataloader dev_dataloader test_dataloader : list Batch)
    (log_step valid_steps epochs gradient_accumulation_steps : Z) :
  (is_master self = true -> log_step <> 0) ->
  valid_steps <> 0 ->
  gradient_accumulation_steps <> 0 ->
  (forall m', (eval_counts m' dev_dataloader).1 <> 0) ->
  (is_master self = true ->
   forall m', (eval_counts m' test_dataloader).1 <> 0) ->
  (0 < length train_dataloader * Z.to_nat epochs)%nat ->
  grad m = [] ->
  updates m = [] ->
  exists st,
    train self m train_dataloader dev_dataloader test_dataloader log_step
      valid_steps epochs gradient_accumulation_steps = Ok st
    /\ updates (model st)
       = expected_updates gradient_accumulation_steps
           (length train_dataloader * Z.to_nat epochs)
    /\ backward_steps (trace st)
       = filter (fun s => update_due gradient_accumulation_steps s = true)
           (steps (length train_dataloader * Z.to_nat epochs)).
Proof. intros. apply train_updates; assumption. Qed.

Lemma updates_use_one_batch_witness :
  exists st,
    @train exact_ops decoded_oracle master fresh_model four_batches
      [yes_no_batch] [yes_no_batch] 1 2 1 2 = Ok st
    /\ updates (model st) = [[(2, 2)]]
    /\ backward_steps (trace st) = [2].
Proof.
  apply (@updates_use_one_batch exact_ops decoded_oracle master fresh_model
           four_batches [yes_no_batch] [yes_no_batch] 1 2 1 2).
  - intros _. lia.
  - lia.
  - lia.
  - apply decoded_counts_nonzero.
  - intros _. apply decoded_counts_nonzero.
  - vm_compute. lia.
  - reflexivity.
  - reflexivity.
Defined.

(** ** Checkpoints *)





Section Checkpoints.
Context `{FloatOps} `{ModelOracle}.
Variable self : Aligner.
Variable m : Model.
Variables train_dataloader dev_dataloader test_dataloader : list Batch.
Variables log_step valid_steps epochs gradient_accumulation_steps : Z.

Hypothesis on_master : is_master self = true.
Hypothesis log_step_nonzero : log_step <> 0.
Hypothesis valid_steps_nonzero : valid_steps <> 0.
Hypothesis accumulation_nonzero : gradient_accumulation_steps <> 0.
Hypothesis dev_nonempty :
  forall m', (eval_counts m' dev_dataloader).1 <> 0.
Hypothesis test_nonempty :
  forall m', (eval_counts m' test_dataloader).1 <> 0.
Hypothesis some_steps :
  (0 < length train_dataloader * Z.to_nat epochs)%nat.





End Checkpoints.



(** ** The temperature schedule *)

Lemma linspace_entry_linear (start end_ : Q) (T i : Z) :
  2 <= T ->
  (linspace_entry start end_ T i
   == start + (end_ - start) / inject_Z (T - 1) * inject_Z i)%Q.
Proof.
  intros HT. unfold linspace_entry. cbv zeta.
  destruct (i <? T / 2); [reflexivity|].
  replace (T - i - 1) with ((T - 1) + - i) by lia.
  rewrite inject_Z_plus, inject_Z_opp.
  assert (Hx : ~ (inject_Z (T - 1) == 0)%Q).
  { intros E. assert (H1 : (0 < inject_Z (T - 1))%Q)
      by (change 0%Q with (inject_Z 0); rewrite <- Zlt_Qlt; lia).
    rewrite E in H1. apply (Qlt_irrefl 0). exact H1. }
  field. exact Hx.
Qed.

Lemma linspace_entry_antitone (start end_ : Q) (T i j : Z) :
  2 <= T -> (end_ <= start)%Q -> i <= j ->
  (linspace_entry start end_ T j <= linspace_entry start end_ T i)%Q.
Proof.
  intros HT Hes Hij. rewrite !linspace_entry_linear by exact HT.
  assert (Hx : (0 < inject_Z (T - 1))%Q)
    by (change 0%Q with (inject_Z 0); rewrite <- Zlt_Qlt; lia).
  assert (Hd : ((end_ - start) / inject_Z (T - 1) <= 0)%Q).
  { apply Qle_shift_div_r; [exact Hx|]. lra. }
  assert (Hq : (inject_Z i <= inject_Z j)%Q) by (rewrite <- Zle_Qle; lia).
  nra.
Qed.

Lemma linspace_entry_last (start end_ : Q) (T : Z) :
  2 <= T -> (linspace_entry start end_ T (T - 1) == end_)%Q.
Proof.
  intros HT. unfold linspace_entry. cbv zeta.
  destruct (T - 1 <? T / 2) eqn:E.
  - apply Z.ltb_lt in E.
    assert (T / 2 <= T - 1); [|lia].
    apply Z.div_le_upper_bound; lia.
  - replace (T - (T - 1) - 1) with 0 by lia. change (inject_Z 0) with 0%Q.
    ring.
Qed.

Lemma non_increasing_snoc (l : list Q) (x y : Q) :
  non_increasing l -> last l = Some y -> (x <= y)%Q ->
  non_increasing (l ++ [x]).
Proof.
  revert y. induction l as [|a [|b l] IH]; intros y Hl Hlast Hxy.
  - discriminate.
  - cbn in Hlast. injection Hlast as <-. cbn. auto.
  - destruct Hl as [Hba Hl]. cbn [app non_increasing].
    split; [exact Hba|]. apply (IH y); auto.
Qed.

Section Temperature.
Context `{FloatOps}.
Hypothesis to_bfloat16_monotone :
  forall x y : Q, (x <= y)%Q -> (to_bfloat16 x <= to_bfloat16 y)%Q.

Lemma to_bfloat16_proper (x y : Q) :
  (x == y)%Q -> (to_bfloat16 x == to_bfloat16 y)%Q.
Proof.
  intros E. apply Qle_antisym; apply to_bfloat16_monotone; rewrite E;
    apply Qle_refl.
Qed.

Lemma schedule_at_antitone (T i j : Z) :
  1 <= T -> i <= j -> (schedule_at T j <= schedule_at T i)%Q.
Proof.
  intros HT Hij. unfold schedule_at. destruct (T =? 1) eqn:E.
  - apply Qle_refl.
  - apply to_bfloat16_monotone. apply linspace_entry_antitone; [lia| |lia].
    unfold temperature_start, temperature_end. lra.
Qed.

Lemma schedule_at_last (T : Z) :
  2 <= T -> (schedule_at T (T - 1) == to_bfloat16 temperature_end)%Q.
Proof.
  intros HT. unfold schedule_at. destruct (T =? 1) eqn:E; [lia|].
  apply to_bfloat16_proper. apply linspace_entry_last. exact HT.
Qed.

Lemma schedule_at_linear (T s : Z) :
  2 <= T ->
  (schedule_at T s
   == to_bfloat16
        (temperature_start
         + (temperature_end - temperature_start) / inject_Z (T - 1)
           * inject_Z s))%Q.
Proof.
  intros HT. unfold schedule_at. destruct (T =? 1) eqn:E; [lia|].
  apply to_bfloat16_proper. apply linspace_entry_linear. exact HT.
Qed.

Lemma pushed_non_increasing (gas T : Z) (n : nat) :
  1 <= T ->
  non_increasing (expected_temperatures gas T n)
  /\ exists j, 0 <= j /\ (j < Z.of_nat n \/ j = 0)
               /\ last (expected_temperatures gas T n)
                  = Some (schedule_at T j).
Proof.
  intros HT. unfold expected_temperatures. induction n as [|n IH].
  - cbn. split; [exact I|]. exists 0. split; [lia|]. auto.
  - destruct IH as (Hn & j & Hj0 & Hj & Hlast).
    rewrite filter_steps_S, map_app, app_comm_cons.
    destruct (update_due gas (Z.of_nat n)); cbn [map].
    + split.
      * eapply non_increasing_snoc; [exact Hn|exact Hlast|].
        apply schedule_at_antitone; lia.
      * exists (Z.of_nat n). split; [lia|]. split; [lia|].
        rewrite last_snoc. reflexivity.
    + rewrite app_nil_r. split; [exact Hn|]. exists j.
      split; [lia|]. split; [lia|exact Hlast].
Qed.

End Temperature.

Lemma pushed_temperatures_app (t1 t2 : list event) :
  pushed_temperatures (t1 ++ t2)
  = pushed_temperatures t1 ++ pushed_temperatures t2.
Proof. apply omap_app. Qed.

Lemma last_cons_map {A B : Type} (f : A -> B) (d : A) (l : list A) :
  last (f d :: map f l) = Some (f (default d (last l))).
Proof.
  destruct (decide (l = [])) as [->|Hne]; [reflexivity|].
  destruct (exists_last Hne) as (l' & x & ->).
  rewrite map_app, app_comm_cons. cbn [map]. rewrite !last_snoc.
  reflexivity.
Qed.

Section PushedTemperatures.
Context `{FloatOps} `{ModelOracle}.
Variable self : Aligner.
Variable m : Model.
Variables train_dataloader dev_dataloader test_dataloader : list Batch.
Variables log_step valid_steps epochs gradient_accumulation_steps : Z.

Hypothesis log_step_nonzero : is_master self = true -> log_step <> 0.
Hypothesis valid_steps_nonzero : valid_steps <> 0.
Hypothesis accumulation_nonzero : gradient_accumulation_steps <> 0.
Hypothesis dev_nonempty :
  forall m', (eval_counts m' dev_dataloader).1 <> 0.
Hypothesis test_nonempty :
  is_master self = true ->
  forall m', (eval_counts m' test_dataloader).1 <> 0.
Hypothesis some_steps :
  (0 < length train_dataloader * Z.to_nat epochs)%nat.

Lemma train_pushed_temperatures :
  exists st,
    train self m train_dataloader dev_dataloader test_dataloader log_step
      valid_steps epochs gradient_accumulation_steps = Ok st
    /\ pushed_temperatures (trace st)
       = expected_temperatures gradient_accumulation_steps
           (Z.of_nat (length train_dataloader * Z.to_nat epochs))
           (length train_dataloader * Z.to_nat epochs)
    /\ last (pushed_temperatures (trace st))
       = Some (temperature (model st)).
Proof.
  set (T := (length train_dataloader * Z.to_nat epochs)%nat) in *.
  destruct (train_inv self m train_dataloader dev_dataloader
              test_dataloader log_step valid_steps epochs
              gradient_accumulation_steps log_step_nonzero
              valid_steps_nonzero accumulation_nonzero dev_nonempty
              test_nonempty some_steps
              (fun k st =>
                 pushed_temperatures (trace st)
                 = expected_temperatures gradient_accumulation_steps
                     (Z.of_nat T) k
                 /\ last (pushed_temperatures (trace st))
                    = Some (temperature (model st))))
    as (stT & st & E & _ & (Hp & Hl) & F).
  - unfold initial_state. cbn [trace model temperature set_temperature].
    destruct (is_master self && negb (is_wandb self)); split; reflexivity.
  - intros sched k st st1 st2 Hk Hidx Hs (Hp & Hl) L U.
    cbn [incr_step trace model]. unfold expected_temperatures.
    rewrite filter_steps_S, map_app, app_comm_cons.
    fold (expected_temperatures gradient_accumulation_steps (Z.of_nat T) k).
    destruct L as (Hs1 & _ & _ & Ht1 & _ & L).
    assert (Ep : pushed_temperatures (trace st1)
                 = pushed_temperatures (trace st)).
    { destruct L as [(_ & -> & _)|[(_ & _ & -> & _)|(_ & acc & -> & _)]];
        [reflexivity| |].
      - rewrite pushed_temperatures_app. cbn. apply app_nil_r.
      - rewrite pushed_temperatures_app.
        destruct (Qlt_bool (best_eval_acc st) acc); cbn; apply app_nil_r. }
    destruct U as (_ & _ & _ & U). rewrite <- Hs, <- Hs1.
    destruct U as [(-> & -> & ->)|(-> & t & Et & -> & Ht2 & _)].
    + cbn [map]. rewrite app_nil_r, Ep, Ht1. auto.
    + rewrite Hs1, Hs, (Hidx k Hk) in Et. injection Et as <-.
      rewrite pushed_temperatures_app, Ep, Hp, Ht2, Hs1, Hs.
      cbn [map]. split; [reflexivity|].
      change (pushed_temperatures _) with
        ([] ++ [schedule_at (Z.of_nat T) (Z.of_nat k)]).
      rewrite app_nil_l, last_snoc. reflexivity.
  - exists st. destruct F as (_ & _ & Ht & _ & _ & F).
    split; [exact E|]. rewrite Ht.
    destruct F as [(_ & ->)|(_ & acc & ->)]; [auto|].
    rewrite pushed_temperatures_app. cbn. rewrite app_nil_r. auto.
Qed.

End PushedTemperatures.

(** C3, as the code has it: the schedule is the linear interpolation from
    50 to 0.1 over the number of training steps, cast entry by entry (the
    cast of 50 alone when there is one step); [train] pushes its first entry
    before the loop and then, at every step where the gradient block is due,
    the entry of that step.  When the cast is monotone the temperatures
    pushed never increase.  The temperature the run ends with is the one
    pushed last: the entry of the last step where the gradient block was due
    (the first entry when it never was).  So it is the cast of
    [temperature_end] when the run has at least two steps and the gradient
    block is due at the last step, and the cast of 50 when the run has one
    step. *)
Theorem temperature_schedule_pushed `{FloatOps} `{ModelOracle}
    (self : Aligner) (m : Model)
    (train_dataloader dev_dataloader test_dataloader : list Batch)
    (log_step valid_steps epochs gradient_accumulation_steps : Z) :
  (forall x y : Q, (x <= y)%Q -> (to_bfloat16 x <= to_bfloat16 y)%Q) ->
  (is_master self = true -> log_step <> 0) ->
  valid_steps <> 0 ->
  gradient_accumulation_steps <> 0 ->
  (forall m', (eval_counts m' dev_dataloader).1 <> 0) ->
  (is_master self = true ->
   forall m', (eval_counts m' test_dataloader).1 <> 0) ->
  (0 < length train_dataloader * Z.to_nat epochs)%nat ->
  let T := Z.of_nat (length train_dataloader * Z.to_nat epochs) in
  exists st,
    train self m train_dataloader dev_dataloader test_dataloader log_step
      valid_steps epochs gradient_accumulation_steps = Ok st
    /\ pushed_temperatures (trace st)
       = expected_temperatures gradient_accumulation_steps T
           (length train_dataloader * Z.to_nat epochs)
    /\ non_increasing (pushed_temperatures (trace st))
    /\ (2 <= T ->
        forall s,
          (schedule_at T s
           == to_bfloat16
                (temperature_start
                 + (temperature_end - temperature_start) / inject_Z (T - 1)
                   * inject_Z s))%Q)
    /\ (T = 1 -> forall s, schedule_at T s = to_bfloat16 temperature_start)
    /\ last (pushed_temperatures (trace st)) = Some (temperature (model st))
    /\ temperature (model st)
       = schedule_at T
           (last_update_step gradient_accumulation_steps
              (length train_dataloader * Z.to_nat epochs))
    /\ (2 <= T ->
        update_due gradient_accumulation_steps (T - 1) = true ->
        (temperature (model st) == to_bfloat16 temperature_end)%Q)
    /\ (T = 1 -> temperature (model st) = to_bfloat16 temperature_start).
Proof.
  intros Hmono Hl Hv Hg Hd Ht HT T.
  destruct (train_pushed_temperatures self m train_dataloader
              dev_dataloader test_dataloader log_step valid_steps epochs
              gradient_accumulation_steps Hl Hv Hg Hd Ht HT)
    as (st & E & Hp & Hlast).
  fold T in Hp. exists st. split; [exact E|]. split; [exact Hp|].
  assert (Hend : temperature (model st)
                 = schedule_at T
                     (last_update_step gradient_accumulation_steps
                        (length train_dataloader * Z.to_nat epochs))).
  { rewrite Hp in Hlast. unfold expected_temperatures in Hlast.
    rewrite last_cons_map in Hlast. injection Hlast as <-. reflexivity. }
  assert (Hone : T = 1 ->
                 forall s, schedule_at T s = to_bfloat16 temperature_start).
  { intros -> s. reflexivity. }
  split; [|split; [|split; [|split; [|split; [|split]]]]].
  - rewrite Hp. apply pushed_non_increasing; [exact Hmono|lia].
  - intros HT2 s. apply schedule_at_linear; assumption.
  - exact Hone.
  - exact Hlast.
  - exact Hend.
  - intros HT2 Hdue. rewrite Hp in Hlast.
    remember (length train_dataloader * Z.to_nat epochs)%nat as n eqn:En.
    destruct n as [|n]; [lia|].
    unfold expected_temperatures in Hlast.
    rewrite filter_steps_S, map_app, app_comm_cons in Hlast.
    replace (Z.of_nat n) with (T - 1) in Hlast by (subst T; lia).
    rewrite Hdue in Hlast. cbn [map] in Hlast.
    rewrite last_snoc in Hlast. injection Hlast as <-.
    apply schedule_at_last; assumption.
  - intros H1. rewrite Hend. apply Hone. exact H1.
Qed.

Lemma temperature_schedule_pushed_witness :
  exists st,
    @train exact_ops decoded_oracle master fresh_model four_batches
      [yes_no_batch] [yes_no_batch] 1 2 1 1 = Ok st
    /\ pushed_temperatures (trace st)
       = @expected_temperatures exact_ops 1 4 4
    /\ non_increasing (pushed_temperatures (trace st))
    /\ (2 <= 4 ->
        forall s,
          (@schedule_at exact_ops 4 s
           == temperature_start
              + (temperature_end - temperature_start) / inject_Z (4 - 1)
                * inject_Z s)%Q)
    /\ (4 = 1 -> forall s, @schedule_at exact_ops 4 s = temperature_start)
    /\ last (pushed_temperatures (trace st)) = Some (temperature (model st))
    /\ temperature (model st)
       = @schedule_at exact_ops 4 (last_update_step 1 4)
    /\ (2 <= 4 ->
        update_due 1 (4 - 1) = true ->
        (temperature (model st) == temperature_end)%Q)
    /\ (4 = 1 -> temperature (model st) = temperature_start).
Proof.
  apply (@temperature_schedule_pushed exact_ops decoded_oracle master
           fresh_model four_batches [yes_no_batch] [yes_no_batch] 1 2 1 1).
  - intros x y Hxy. exact Hxy.
  - intros _. lia.
  - lia.
  - lia.
  - apply decoded_counts_nonzero.
  - intros _. apply decoded_counts_nonzero.
  - vm_compute. lia.
Defined.

(** C3 as stated fails: a run of one step has the schedule [50.0] alone, and
    ends at temperature 50, not at [temperature_end]; a run of four steps
    that accumulates over two never pushes the last entry of its schedule
    and ends above [temperature_end] as well. *)
Lemma final_temperature_not_end :
  (exists st,
      @train exact_ops decoded_oracle master fresh_model [yes_no_batch]
        [yes_no_batch] [yes_no_batch] 1 2 1 1 = Ok st
      /\ (temperature (model st) == 50)%Q
      /\ ~ (temperature (model st) == temperature_end)%Q)
  /\ (exists st,
         @train exact_ops decoded_oracle master fresh_model four_batches
           [yes_no_batch] [yes_no_batch] 1 2 1 2 = Ok st
         /\ (temperature_end < temperature (model st))%Q).
Proof.
  split.
  - assert (E : exists st,
               @train exact_ops decoded_oracle master fresh_model
                 [yes_no_batch] [yes_no_batch] [yes_no_batch] 1 2 1 1
               = Ok st
               /\ temperature (model st) = 50%Q).
    { vm_compute. eexists. split; reflexivity. }
    destruct E as (st & E & Et). exists st. rewrite Et.
    split; [exact E|]. split; [reflexivity|]. intros C. discriminate C.
  - assert (E : exists st,
               @train exact_ops decoded_oracle master fresh_model
                 four_batches [yes_no_batch] [yes_no_batch] 1 2 1 2 = Ok st
               /\ Qlt_bool temperature_end (temperature (model st)) = true).
    { vm_compute. eexists. split; reflexivity. }
    destruct E as (st & E & Et). exists st. split; [exact E|].
    unfold Qlt_bool in Et. apply negb_true_iff in Et.
    apply Qnot_le_lt. intros C. apply Qle_bool_iff in C. congruence.
Qed.

(** ** The imports of the script *)

Lemma first_error_app {A : Type} (run : A -> option import_error)
    (l1 l2 : list A) :
  first_error run (l1 ++ l2)
  = match first_error run l1 with
    | Some e => Some e
    | None => first_error run l2
    end.
Proof.
  induction l1 as [|x l1 IH]; [reflexivity|]. cbn [app first_error].
  destruct (run x); [reflexivity|exact IH].
Qed.

Section ImportFacts.
Variable outside : string -> option (list string).

(** Line 5 of the script never succeeds: the module has no
    [AlignableT5Config]. *)
Lemma configuration_import_fails :
  exists e,
    execute_import outside
      (FromImport "models.configuration_alignable_model"
         ["AlignableLlamaConfig"; "AlignableT5Config"]) = Some e
    /\ (first_error (import_outside outside)
          (module_imports configuration_alignable_model) = None ->
        e = ImportError "AlignableT5Config"
              "models.configuration_alignable_model").
Proof.
  cbn [execute_import].
  change (repository_module "models.configuration_alignable_model")
    with (Some configuration_alignable_model).
  cbv beta iota.
  destruct (first_error (import_outside outside)
              (module_imports configuration_alignable_model)) as [e|].
  - exists e. split; [reflexivity|discriminate].
  - eexists. split; [reflexivity|]. intros _. reflexivity.
Qed.

(** Line 8 never succeeds either: [trainer.py] has no [Aligner]. *)
Lemma trainer_import_fails :
  exists e,
    execute_import outside (FromImport "trainer" ["Aligner"; "CACHE_DIR"])
    = Some e
    /\ (first_error (import_outside outside) (module_imports trainer) = None ->
        e = ImportError "Aligner" "trainer").
Proof.
  cbn [execute_import].
  change (repository_module "trainer") with (Some trainer).
  cbv beta iota.
  destruct (first_error (import_outside outside) (module_imports trainer))
    as [e|].
  - exists e. split; [reflexivity|discriminate].
  - eexists. split; [reflexivity|]. intros _. reflexivity.
Qed.

Lemma run_alignment_fails {A : Type} (rest : A) :
  exists e,
    run_alignment outside rest = inl e
    /\ (first_error (import_outside outside) imports_before_configuration
        = None ->
        e = ImportError "AlignableT5Config"
              "models.configuration_alignable_model").
Proof.
  unfold run_alignment, imports_before_configuration.
  rewrite first_error_app.
  change run_alignment_imports
    with ([FromImport "accelerate" ["init_empty_weights"];
           ImportModules ["os"; "random"; "argparse"; "sys"; "torch"]]
          ++ FromImport "models.configuration_alignable_model"
               ["AlignableLlamaConfig"; "AlignableT5Config"]
             :: drop 3 run_alignment_imports) at 1.
  change (take 2 run_alignment_imports)
    with [FromImport "accelerate" ["init_empty_weights"];
          ImportModules ["os"; "random"; "argparse"; "sys"; "torch"]].
  rewrite first_error_app.
  change (first_error (execute_import outside)
            [FromImport "accelerate" ["init_empty_weights"];
             ImportModules ["os"; "random"; "argparse"; "sys"; "torch"]])
    with (first_error (import_outside outside)
            [FromImport "accelerate" ["init_empty_weights"];
             ImportModules ["os"; "random"; "argparse"; "sys"; "torch"]]).
  destruct (first_error (import_outside outside)
              [FromImport "accelerate" ["init_empty_weights"];
               ImportModules ["os"; "random"; "argparse"; "sys"; "torch"]])
    as [e|].
  { exists e. split; [reflexivity|discriminate]. }
  cbn [first_error].
  destruct configuration_import_fails as (e & -> & He).
  exists e. split; [reflexivity|exact He].
Qed.

End ImportFacts.

(** C5 fails on the code as it stands: the script never reaches its skip
    check.  Whatever is installed around the repository, [run_alignment.py]
    ends in an import error before any statement after its imports runs, so
    it neither quits on an existing "last" checkpoint nor proceeds to
    training when there is none.  When the imports before it succeed, the
    error is that of line 5, which asks
    [models/configuration_alignable_model.py] for [AlignableT5Config], a
    name the module does not have; line 8, which asks [trainer.py] for
    [Aligner], cannot succeed either. *)
Theorem script_stops_at_its_imports {A : Type}
    (outside : string -> option (list string)) (rest : A) :
  (exists e, run_alignment outside rest = inl e)
  /\ (first_error (import_outside outside) imports_before_configuration
      = None ->
      run_alignment outside rest
      = inl (ImportError "AlignableT5Config"
               "models.configuration_alignable_model"))
  /\ (exists e,
        execute_import outside (FromImport "trainer" ["Aligner"; "CACHE_DIR"])
        = Some e)
  /\ (first_error (import_outside outside) (module_imports trainer) = None ->
      execute_import outside (FromImport "trainer" ["Aligner"; "CACHE_DIR"])
      = Some (ImportError "Aligner" "trainer")).
Proof.
  destruct (run_alignment_fails outside rest) as (e & E & He).
  destruct (trainer_import_fails outside) as (e' & E' & He').
  split; [eauto|]. split; [|split; [eauto|]].
  - intros Hb. rewrite E, (He Hb). reflexivity.
  - intros Hb. rewrite E', (He' Hb). reflexivity.
Qed.

(** With everything installed, the script ends at line 5. *)
Lemma run_alignment_with_everything_installed :
  run_alignment everything_installed tt
  = inl (ImportError "AlignableT5Config"
           "models.configuration_alignable_model").
Proof. reflexivity. Qed.

Lemma accuracy_order_independent_witness :
  metrics_of (H:=exact_ops) first_argmax
    [[([[0%Q; 1%Q]], [1]); ([[1%Q; 0%Q]], [1])]; [([[0%Q; 1%Q]], [0])]]
  = metrics_of (H:=exact_ops) first_argmax
      [[([[0%Q; 1%Q]], [0]); ([[0%Q; 1%Q]], [1])]; [([[1%Q; 0%Q]], [1])]]
  /\ reported_accuracy
       (prealign_eval (H:=exact_ops) (H0:=decoded_oracle) master fresh_model
          [[("Yes", "yes"); ("No", "Yes")]; [("No", "no")]])
     = reported_accuracy
         (prealign_eval (H:=exact_ops) (H0:=decoded_oracle) master fresh_model
            [[("No", "no"); ("No", "Yes")]; [("Yes", "yes")]]).
Proof.
  destruct (@accuracy_order_independent exact_ops decoded_oracle first_argmax)
    as [Hm Hp].
  split.
  - apply Hm.
    exact (Permutation_app_comm
             [([[0%Q; 1%Q]], [1]); ([[1%Q; 0%Q]], [1])] [([[0%Q; 1%Q]], [0])]).
  - apply Hp.
    exact (Permutation_rev [("Yes", "yes"); ("No", "Yes"); ("No", "no")]).
Defined.

(** * Further properties of the trainer *)

(** ** Runs that cannot start *)

Section TrainFailures.
Context `{FloatOps} `{ModelOracle}.
Variable self : Aligner.
Variable m : Model.
Variables train_dataloader dev_dataloader test_dataloader : list Batch.
Variables log_step valid_steps epochs gradient_accumulation_steps : Z.

Lemma train_no_steps :
  Z.of_nat (length train_dataloader) * epochs = 0 ->
  train self m train_dataloader dev_dataloader test_dataloader log_step
    valid_steps epochs gradient_accumulation_steps = Raise IndexError.
Proof. intros E. unfold train. cbv zeta. rewrite E. reflexivity. Qed.

Lemma train_negative_steps :
  Z.of_nat (length train_dataloader) * epochs < 0 ->
  train self m train_dataloader dev_dataloader test_dataloader log_step
    valid_steps epochs gradient_accumulation_steps = Raise RuntimeError.
Proof.
  intros E. unfold train, linspace. cbv zeta.
  destruct (_ <? 0) eqn:E0; [reflexivity|lia].
Qed.

Lemma train_step_zero_raises (temperature_schedule : list Q)
    (st : TrainState) (inputs : Batch) :
  total_step st = 0 ->
  (is_master self = true /\ log_step = 0)
  \/ gradient_accumulation_steps = 0 ->
  train_step self dev_dataloader temperature_schedule log_step valid_steps
    gradient_accumulation_steps st inputs = Raise ZeroDivisionError.
Proof.
  intros Hs Hz. unfold train_step, log_and_validate. rewrite Hs.
  assert (Hm : is_master self = true \/ is_master self = false)
    by (destruct (is_master self); auto).
  destruct Hm as [Em|Em]; rewrite Em.
  - destruct (Z.eq_dec log_step 0) as [->|Hl]; [reflexivity|].
    destruct Hz as [[_ Hz]|Hz]; [contradiction|].
    rewrite (py_mod_ok _ log_step) by exact Hl.
    cbn [mbind res_mbind res_bind]. rewrite Z.mod_0_l by exact Hl.
    cbn [Z.eqb mbind res_mbind res_bind emit total_step]. rewrite Hs.
    cbn [Z.eqb negb mbind res_mbind res_bind].
    unfold accumulate_and_update. cbv zeta.
    cbn [incr_log_step emit total_step]. rewrite Hs, Hz. reflexivity.
  - destruct Hz as [[Hz _]|Hz]; [congruence|].
    cbn [mbind res_mbind res_bind].
    unfold accumulate_and_update. cbv zeta. rewrite Hs, Hz. reflexivity.
Qed.

Lemma train_zero_interval :
  (0 < length train_dataloader * Z.to_nat epochs)%nat ->
  (is_master self = true /\ log_step = 0)
  \/ gradient_accumulation_steps = 0 ->
  train self m train_dataloader dev_dataloader test_dataloader log_step
    valid_steps epochs gradient_accumulation_steps
  = Raise ZeroDivisionError.
Proof.
  intros HT Hz.
  assert (Hep : 0 < epochs) by lia.
  unfold train. cbv zeta.
  replace (Z.of_nat (length train_dataloader) * epochs)
    with (Z.of_nat (length train_dataloader * Z.to_nat epochs))
    by (rewrite Nat2Z.inj_mul, Z2Nat.id by lia; reflexivity).
  destruct (schedule_lookup _ HT) as (l & -> & _ & Hidx).
  cbn [mbind res_mbind res_bind].
  pose proof (Hidx 0%nat HT) as H00. change (Z.of_nat 0) with 0 in H00.
  rewrite H00. cbn [mbind res_mbind res_bind].
  destruct (Z.to_nat epochs) as [|n] eqn:En; [lia|].
  destruct train_dataloader as [|b rest]; [cbn in HT; lia|].
  cbn [run_epochs run_batches].
  rewrite train_step_zero_raises by (reflexivity || exact Hz).
  reflexivity.
Qed.

End TrainFailures.

(** X1: a run of [train] without a training step never starts: with an
    empty training dataloader or zero epochs the temperature schedule is
    empty and reading its first entry raises [IndexError]; with a negative
    number of epochs over a non-empty dataloader [torch.linspace] raises. *)
Theorem train_without_steps_raises `{FloatOps} `{ModelOracle}
    (self : Aligner) (m : Model)
    (train_dataloader dev_dataloader test_dataloader : list Batch)
    (log_step valid_steps epochs gradient_accumulation_steps : Z) :
  (Z.of_nat (length train_dataloader) * epochs = 0 ->
   train self m train_dataloader dev_dataloader test_dataloader log_step
     valid_steps epochs gradient_accumulation_steps = Raise IndexError)
  /\ (Z.of_nat (length train_dataloader) * epochs < 0 ->
      train self m train_dataloader dev_dataloader test_dataloader log_step
        valid_steps epochs gradient_accumulation_steps
      = Raise RuntimeError).
Proof. split; [apply train_no_steps|apply train_negative_steps]. Qed.

(** X2: a run of [train] with at least one step raises
    [ZeroDivisionError] at its first step when [log_step] is zero on the
    master or when [gradient_accumulation_steps] is zero: both are used as
    divisors of [total_step] without a check. *)
Theorem train_zero_interval_raises `{FloatOps} `{ModelOracle}
    (self : Aligner) (m : Model)
    (train_dataloader dev_dataloader test_dataloader : list Batch)
    (log_step valid_steps epochs gradient_accumulation_steps : Z) :
  (0 < length train_dataloader * Z.to_nat epochs)%nat ->
  (is_master self = true /\ log_step = 0)
  \/ gradient_accumulation_steps = 0 ->
  train self m train_dataloader dev_dataloader test_dataloader log_step
    valid_steps epochs gradient_accumulation_steps
  = Raise ZeroDivisionError.
Proof. apply train_zero_interval. Qed.

Lemma train_zero_interval_raises_witness :
  @train exact_ops decoded_oracle master fresh_model four_batches
    [yes_no_batch] [yes_no_batch] 1 2 1 0
  = Raise ZeroDivisionError.
Proof.
  apply (@train_zero_interval_raises exact_ops decoded_oracle master
           fresh_model four_batches [yes_no_batch] [yes_no_batch] 1 2 1 0).
  - vm_compute. lia.
  - right. reflexivity.
Defined.

(** ** Whole runs of [train] *)

Lemma dev_accuracies_app (t1 t2 : list event) :
  dev_accuracies (t1 ++ t2) = dev_accuracies t1 ++ dev_accuracies t2.
Proof. apply omap_app. Qed.

Lemma test_passes_app (t1 t2 : list event) :
  test_passes (t1 ++ t2) = test_passes t1 ++ test_passes t2.
Proof. apply omap_app. Qed.

Lemma running_best_snoc (accs : list Q) (acc : Q) :
  running_best (accs ++ [acc])
  = if Qlt_bool (running_best accs) acc then acc else running_best accs.
Proof. unfold running_best. rewrite fold_left_app. reflexivity. Qed.




Section RunFacts.
Context `{FloatOps} `{ModelOracle}.
Variable self : Aligner.
Variable m : Model.
Variables train_dataloader dev_dataloader test_dataloader : list Batch.
Variables log_step valid_steps epochs gradient_accumulation_steps : Z.

Hypothesis log_step_nonzero : is_master self = true -> log_step <> 0.
Hypothesis valid_steps_nonzero : valid_steps <> 0.
Hypothesis accumulation_nonzero : gradient_accumulation_steps <> 0.
Hypothesis dev_nonempty :
  forall m', (eval_counts m' dev_dataloader).1 <> 0.
Hypothesis test_nonempty :
  is_master self = true ->
  forall m', (eval_counts m' test_dataloader).1 <> 0.
Hypothesis some_steps :
  (0 < length train_dataloader * Z.to_nat epochs)%nat.

Lemma train_master_mode (st : TrainState) :
  is_master self = true ->
  train self m train_dataloader dev_dataloader test_dataloader log_step
    valid_steps epochs gradient_accumulation_steps = Ok st ->
  training (model st) = false.
Proof.
  intros Hm. unfold train. cbv zeta.
  destruct (linspace _ _ _) as [l|]; cbn [mbind res_mbind res_bind];
    [|discriminate].
  destruct (py_index _ 0) as [t0|]; cbn [mbind res_mbind res_bind];
    [|discriminate].
  destruct (run_epochs _ _ _ _) as [st1|]; cbn [mbind res_mbind res_bind];
    [|discriminate].
  unfold final_eval. rewrite Hm. cbv zeta.
  destruct (rounded_accuracy _ _) as [acc|]; cbn [mbind res_mbind res_bind];
    [|discriminate].
  intros E. injection E as <-. reflexivity.
Qed.

Lemma train_run :
  exists stT st,
    train self m train_dataloader dev_dataloader test_dataloader log_step
      valid_steps epochs gradient_accumulation_steps = Ok st
    /\ total_step stT
       = Z.of_nat (length train_dataloader * Z.to_nat epochs)
    /\ best_eval_acc stT = running_best (dev_accuracies (trace stT))
    /\ test_passes (trace stT) = []
    /\ training (model stT) = true
    /\ finished self (length test_dataloader) stT st.
Proof.
  destruct (train_inv self m train_dataloader dev_dataloader
              test_dataloader log_step valid_steps epochs
              gradient_accumulation_steps log_step_nonzero
              valid_steps_nonzero accumulation_nonzero dev_nonempty
              test_nonempty some_steps
              (fun k st =>
                 best_eval_acc st = running_best (dev_accuracies (trace st))
                 /\ test_passes (trace st) = []
                 /\ training (model st) = true))
    as (stT & st & E & HT & (Hb & Ht & Hm) & F).
  - unfold initial_state. cbn [trace best_eval_acc model].
    destruct (is_master self && negb (is_wandb self)); repeat split.
  - intros sched k st st1 st2 Hk _ Hs (Hb & Ht & Hm) L U.
    cbn [incr_step trace best_eval_acc model].
    destruct L as (_ & _ & _ & _ & Hm1 & L).
    destruct U as (_ & Hb2 & Hm2 & U). rewrite Hb2, Hm2.
    assert (L' : best_eval_acc st1
                 = running_best (dev_accuracies (trace st1))
                 /\ test_passes (trace st1) = []).
    { destruct L as [(_ & -> & ->)|[(_ & _ & -> & ->)
                                   |(_ & acc & -> & -> & _)]].
      - auto.
      - rewrite dev_accuracies_app, test_passes_app, Ht.
        cbn [dev_accuracies test_passes omap list_omap app].
        rewrite app_nil_r, <- Hb. auto.
      - rewrite dev_accuracies_app, test_passes_app, Ht.
        destruct (Qlt_bool (best_eval_acc st) acc) eqn:Elt;
          cbn [dev_accuracies test_passes omap list_omap app];
          rewrite running_best_snoc, <- Hb, Elt; auto. }
    destruct L' as [Hb1 Ht1].
    destruct U as [(_ & -> & _)|(_ & t & _ & -> & _)]; [auto|].
    rewrite dev_accuracies_app, test_passes_app, Ht1.
    cbn [dev_accuracies test_passes omap list_omap app].
    rewrite app_nil_r, <- Hb1. auto.
  - exists stT, st. auto 10.
Qed.


Lemma train_final_mode :
  exists st,
    train self m train_dataloader dev_dataloader test_dataloader log_step
      valid_steps epochs gradient_accumulation_steps = Ok st
    /\ training (model st) = negb (is_master self).
Proof.
  destruct train_run as (stT & st & E & _ & _ & _ & Hm & F).
  exists st. split; [exact E|].
  assert (Hc : is_master self = true \/ is_master self = false)
    by (destruct (is_master self); auto).
  destruct Hc as [Em|Em]; rewrite Em; cbn [negb].
  - apply train_master_mode; assumption.
  - destruct F as (_ & _ & _ & _ & _ & [(_ & ->)|(Em' & _)]);
      [exact Hm|congruence].
Qed.

Lemma train_test_pass :
  exists st,
    train self m train_dataloader dev_dataloader test_dataloader log_step
      valid_steps epochs gradient_accumulation_steps = Ok st
    /\ (is_master self = false -> test_passes (trace st) = [])
    /\ (is_master self = true ->
        exists tr acc,
          trace st
          = tr ++ [EvSetMode false;
                   EvEvalPass Test
                     (Z.of_nat (length train_dataloader * Z.to_nat epochs))
                     (length test_dataloader) false false;
                   EvLogEval (log_sink self) Test
                     (Z.of_nat (length train_dataloader * Z.to_nat epochs))
                     acc;
                   EvSaveModel "pytorch-rotate-last.bin"
                     (updates (model st)) (temperature (model st))]
          /\ test_passes tr = []).
Proof.
  destruct train_run as (stT & st & E & HT & _ & Ht & _ & F).
  exists st. split; [exact E|].
  destruct F as (_ & _ & Htemp & _ & Hupd & [(Em & ->)|(Em & acc & Htr)]).
  - split; [intros _; exact Ht|congruence].
  - split; [congruence|]. intros _. exists (trace stT), acc.
    rewrite Htr, HT, Htemp, Hupd. auto.
Qed.

End RunFacts.



(** X4: a run of [train] that completes returns with the model in eval mode
    on the master (the evaluation on the test set switches to eval mode and
    nothing switches back) and in train mode off the master. *)
Theorem train_leaves_eval_mode_on_master `{FloatOps} `{ModelOracle}
    (self : Aligner) (m : Model)
    (train_dataloader dev_dataloader test_dataloader : list Batch)
    (log_step valid_steps epochs gradient_accumulation_steps : Z) :
  (is_master self = true -> log_step <> 0) ->
  valid_steps <> 0 ->
  gradient_accumulation_steps <> 0 ->
  (forall m', (eval_counts m' dev_dataloader).1 <> 0) ->
  (is_master self = true ->
   forall m', (eval_counts m' test_dataloader).1 <> 0) ->
  (0 < length train_dataloader * Z.to_nat epochs)%nat ->
  exists st,
    train self m train_dataloader dev_dataloader test_dataloader log_step
      valid_steps epochs gradient_accumulation_steps = Ok st
    /\ training (model st) = negb (is_master self).
Proof. intros. apply train_final_mode; assumption. Qed.

Lemma train_leaves_eval_mode_on_master_witness :
  exists st,
    @train exact_ops decoded_oracle master fresh_model four_batches
      [yes_no_batch] [yes_no_batch] 1 2 1 1 = Ok st
    /\ training (model st) = false.
Proof.
  apply (@train_leaves_eval_mode_on_master exact_ops decoded_oracle master
           fresh_model four_batches [yes_no_batch] [yes_no_batch] 1 2 1 1).
  - intros _. lia.
  - lia.
  - lia.
  - apply decoded_counts_nonzero.
  - intros _. apply decoded_counts_nonzero.
  - vm_compute. lia.
Defined.

(** X5: in a run of [train] that completes on the master, the test set is
    evaluated once, after the last training step, in eval mode and without
    gradients, its accuracy is logged at the step count of the run, and the
    "last" checkpoint written right after holds the parameters and the
    temperature the run ends with.  Off the master the test set is never
    evaluated. *)
Theorem test_set_evaluated_once_at_the_end `{FloatOps} `{ModelOracle}
    (self : Aligner) (m : Model)
    (train_dataloader dev_dataloader test_dataloader : list Batch)
    (log_step valid_steps epochs gradient_accumulation_steps : Z) :
  (is_master self = true -> log_step <> 0) ->
  valid_steps <> 0 ->
  gradient_accumulation_steps <> 0 ->
  (forall m', (eval_counts m' dev_dataloader).1 <> 0) ->
  (is_master self = true ->
   forall m', (eval_counts m' test_dataloader).1 <> 0) ->
  (0 < length train_dataloader * Z.to_nat epochs)%nat ->
  exists st,
    train self m train_dataloader dev_dataloader test_dataloader log_step
      valid_steps epochs gradient_accumulation_steps = Ok st
    /\ (is_master self = false -> test_passes (trace st) = [])
    /\ (is_master self = true ->
        exists tr acc,
          trace st
          = tr ++ [EvSetMode false;
                   EvEvalPass Test
                     (Z.of_nat (length train_dataloader * Z.to_nat epochs))
                     (length test_dataloader) false false;
                   EvLogEval (log_sink self) Test
                     (Z.of_nat (length train_dataloader * Z.to_nat epochs))
                     acc;
                   EvSaveModel "pytorch-rotate-last.bin"
                     (updates (model st)) (temperature (model st))]
          /\ test_passes tr = []).
Proof. intros. apply train_test_pass; assumption. Qed.

Lemma test_set_evaluated_once_at_the_end_witness :
  exists st,
    @train exact_ops decoded_oracle master fresh_model four_batches
      [yes_no_batch] [yes_no_batch] 1 2 1 1 = Ok st
    /\ (is_master master = false -> test_passes (trace st) = [])
    /\ (is_master master = true ->
        exists tr acc,
          trace st
          = tr ++ [EvSetMode false;
                   EvEvalPass Test
                     (Z.of_nat (length four_batches * Z.to_nat 1))
                     (length [yes_no_batch]) false false;
                   EvLogEval (log_sink master) Test
                     (Z.of_nat (length four_batches * Z.to_nat 1)) acc;
                   EvSaveModel "pytorch-rotate-last.bin"
                     (updates (model st)) (temperature (model st))]
          /\ test_passes tr = []).
Proof.
  apply (@test_set_evaluated_once_at_the_end exact_ops decoded_oracle master
           fresh_model four_batches [yes_no_batch] [yes_no_batch] 1 2 1 1).
  - intros _. lia.
  - lia.
  - lia.
  - apply decoded_counts_nonzero.
  - intros _. apply decoded_counts_nonzero.
  - vm_compute. lia.
Defined.

(** ** Runs off the master *)

Section WorkerRun.
Context `{FloatOps} `{ModelOracle}.
Variable self : Aligner.
Variable m : Model.
Variables train_dataloader dev_dataloader test_dataloader : list Batch.
Variables log_step valid_steps epochs gradient_accumulation_steps : Z.

Hypothesis off_master : is_master self = false.
Hypothesis accumulation_nonzero : gradient_accumulation_steps <> 0.
Hypothesis some_steps :
  (0 < length train_dataloader * Z.to_nat epochs)%nat.
Hypothesis no_gradient : grad m = [].



End WorkerRun.



(** * Further properties of the accuracy computations *)

Lemma tensor_sum_bounds (l : list bool) :
  0 <= tensor_sum l <= Z.of_nat (length l).
Proof.
  induction l as [|b l IH].
  - change (tensor_sum []) with 0. cbn [length]. lia.
  - rewrite tensor_sum_cons. cbn [length]. destruct b; lia.
Qed.

Lemma fraction_bounds (c t : Z) :
  0 <= c <= t -> 0 < t ->
  (0 <= inject_Z c / inject_Z t <= 1)%Q.
Proof.
  intros Hc Ht.
  assert (Ht' : (0 < inject_Z t)%Q)
    by (change 0%Q with (inject_Z 0); rewrite <- Zlt_Qlt; exact Ht).
  split.
  - apply Qle_shift_div_l; [exact Ht'|]. rewrite Qmult_0_l.
    change 0%Q with (inject_Z 0). rewrite <- Zle_Qle. lia.
  - apply Qle_shift_div_r; [exact Ht'|]. rewrite Qmult_1_l.
    rewrite <- Zle_Qle. lia.
Qed.

Section PrealignFacts.
Context `{FloatOps} `{ModelOracle}.

Lemma prealign_eval_fraction (self : Aligner) (m : Model)
    (dl : list Batch) :
  flat_map (decoded_pairs (set_training false m)) dl <> [] ->
  exists q,
    prealign_eval self m dl
    = Ok (set_training false m,
          [EvSetMode false; EvEvalPass Prealign 0 (length dl) false false;
           EvLoggerInfo (round2 q)]
          ++ (if is_wandb self then [EvLogEval Wandb Prealign 0 (round2 q)]
              else if is_master self
                   then [EvLogEval LogFile Prealign 0 (round2 q)]
                   else []))
    /\ (q = inject_Z
              (tensor_sum
                 (map pair_correct
                    (flat_map (decoded_pairs (set_training false m)) dl)))
            / inject_Z
                (Z.of_nat
                   (length
                      (flat_map (decoded_pairs (set_training false m)) dl))))%Q
    /\ (0 <= q <= 1)%Q.
Proof.
  intros Hne. unfold prealign_eval. cbv zeta. rewrite eval_counts_flat.
  cbn [fst snd].
  set (pairs := flat_map (decoded_pairs (set_training false m)) dl) in *.
  assert (Hlen : 0 < Z.of_nat (length pairs))
    by (destruct pairs; [congruence|cbn [length]; lia]).
  unfold rounded_accuracy, py_truediv.
  destruct (Z.of_nat (length pairs) =? 0) eqn:E0; [lia|].
  cbn [mbind res_mbind res_bind]. eexists. split; [|split; [reflexivity|]].
  - destruct (is_wandb self), (is_master self); reflexivity.
  - apply fraction_bounds; [|exact Hlen].
    pose proof (tensor_sum_bounds (map pair_correct pairs)) as Hb.
    rewrite length_map in Hb. exact Hb.
Qed.

End PrealignFacts.

(** X7: on a dataloader with at least one decoded example [prealign_eval]
    returns; it leaves the model in eval mode and touches neither its
    temperature nor its gradients nor its parameters; the accuracy it
    reports is the rounding of a fraction between 0 and 1, the share of the
    decoded (gold, prediction) pairs that agree up to case.  The accuracy
    goes to experiment tracking whenever tracking is on, on the master or
    not, and to the log file on the master otherwise. *)
Theorem prealign_eval_reports_fraction `{FloatOps} `{ModelOracle}
    (self : Aligner) (m : Model) (prealign_dataloader : list Batch) :
  flat_map (decoded_pairs (set_training false m)) prealign_dataloader
  <> [] ->
  exists q,
    prealign_eval self m prealign_dataloader
    = Ok (set_training false m,
          [EvSetMode false;
           EvEvalPass Prealign 0 (length prealign_dataloader) false false;
           EvLoggerInfo (round2 q)]
          ++ (if is_wandb self then [EvLogEval Wandb Prealign 0 (round2 q)]
              else if is_master self
                   then [EvLogEval LogFile Prealign 0 (round2 q)]
                   else []))
    /\ (q = inject_Z
              (tensor_sum
                 (map pair_correct
                    (flat_map (decoded_pairs (set_training false m))
                       prealign_dataloader)))
            / inject_Z
                (Z.of_nat
                   (length
                      (flat_map (decoded_pairs (set_training false m))
                         prealign_dataloader))))%Q
    /\ (0 <= q <= 1)%Q.
Proof. apply prealign_eval_fraction. Qed.

Lemma prealign_eval_reports_fraction_witness :
  exists q,
    @prealign_eval exact_ops decoded_oracle worker fresh_model [yes_no_batch]
    = Ok (set_training false fresh_model,
          [EvSetMode false; EvEvalPass Prealign 0 1 false false;
           EvLoggerInfo q])
    /\ q = (1 # 2)%Q
    /\ (0 <= q <= 1)%Q.
Proof.
  destruct (@prealign_eval_reports_fraction exact_ops decoded_oracle worker
              fresh_model [yes_no_batch]) as (q & E & Hq & Hb).
  - discriminate.
  - exists q. split; [exact E|]. split; [|exact Hb]. rewrite Hq.
    vm_compute. reflexivity.
Defined.

Section MetricsBounds.
Context `{FloatOps}.
Variable argmax : list Q -> Z.

Lemma tensor_eq_length (a b : list Z) (l : list bool) :
  tensor_eq a b = Ok l -> 0 <= tensor_sum l <= Z.of_nat (length l).
Proof. intros _. apply tensor_sum_bounds. Qed.

Lemma batch_counts_bounds (eval_pred : list (list (list Q)))
    (eval_label : list (list Z)) (c : Z * Z) :
  batch_counts argmax eval_pred eval_label = Ok c -> 0 <= c.2 <= c.1.
Proof.
  unfold batch_counts.
  destruct (last_column eval_label) as [a|]; cbn [mbind res_mbind res_bind];
    [|discriminate].
  destruct (last_column eval_pred) as [p|]; cbn [mbind res_mbind res_bind];
    [|discriminate].
  destruct (tensor_eq a (map argmax p)) as [l|];
    cbn [mbind res_mbind res_bind]; [|discriminate].
  intros E. injection E as <-. cbn [fst snd]. apply tensor_sum_bounds.
Qed.

Lemma metrics_loop_bounds
    (batches : list (list (list (list Q)) * list (list Z))) :
  forall t c r,
    0 <= c <= t ->
    metrics_loop argmax batches t c = Ok r -> 0 <= r.2 <= r.1.
Proof.
  induction batches as [|[p l] rest IH]; intros t c r Hc.
  - cbn [metrics_loop]. intros E. injection E as <-. exact Hc.
  - cbn [metrics_loop].
    destruct (batch_counts argmax p l) as [n|] eqn:Eb;
      cbn [mbind res_mbind res_bind]; [|discriminate].
    apply batch_counts_bounds in Eb. apply IH. lia.
Qed.

Lemma compute_metrics_bounds (eval_preds : list (list (list (list Q))))
    (eval_labels : list (list (list Z))) (accuracy : Q) :
  compute_metrics argmax eval_preds eval_labels = Ok accuracy ->
  exists q, accuracy = round2 q /\ (0 <= q <= 1)%Q.
Proof.
  unfold compute_metrics.
  destruct (metrics_loop argmax (zip eval_preds eval_labels) 0 0)
    as [r|] eqn:El; cbn [mbind res_mbind res_bind]; [|discriminate].
  apply metrics_loop_bounds in El; [|lia].
  unfold rounded_accuracy, py_truediv.
  destruct (r.1 =? 0) eqn:E0; cbn [mbind res_mbind res_bind];
    [discriminate|].
  intros E. injection E as <-. eexists. split; [reflexivity|].
  apply fraction_bounds; lia.
Qed.

Lemma compute_metrics_no_batches (eval_preds : list (list (list (list Q))))
    (eval_labels : list (list (list Z))) :
  eval_preds = [] \/ eval_labels = [] ->
  compute_metrics argmax eval_preds eval_labels = Raise ZeroDivisionError.
Proof.
  intros [->| ->]; [reflexivity|]. unfold compute_metrics.
  rewrite zip_with_nil_r. reflexivity.
Qed.

Lemma compute_metrics_unpaired (eval_preds : list (list (list (list Q))))
    (eval_labels : list (list (list Z)))
    (more_preds : list (list (list (list Q))))
    (more_labels : list (list (list Z))) :
  length eval_preds = length eval_labels ->
  compute_metrics argmax (eval_preds ++ more_preds) eval_labels
  = compute_metrics argmax eval_preds eval_labels
  /\ compute_metrics argmax eval_preds (eval_labels ++ more_labels)
     = compute_metrics argmax eval_preds eval_labels.
Proof.
  intros Hlen. unfold compute_metrics. split.
  - replace (zip (eval_preds ++ more_preds) eval_labels)
      with (zip eval_preds eval_labels); [reflexivity|].
    rewrite <- (app_nil_r eval_labels) at 2.
    rewrite zip_with_app by exact Hlen.
    rewrite zip_with_nil_r, app_nil_r. reflexivity.
  - replace (zip eval_preds (eval_labels ++ more_labels))
      with (zip eval_preds eval_labels); [reflexivity|].
    rewrite <- (app_nil_r eval_preds) at 2.
    rewrite zip_with_app by exact Hlen.
    cbn [zip_with]. rewrite app_nil_r. reflexivity.
Qed.

End MetricsBounds.

(** X8: whenever [compute_metrics] returns, its accuracy is the rounding of
    a fraction between 0 and 1. *)
Theorem compute_metrics_accuracy_is_a_fraction `{FloatOps}
    (argmax : list Q -> Z) (eval_preds : list (list (list (list Q))))
    (eval_labels : list (list (list Z))) (accuracy : Q) :
  compute_metrics argmax eval_preds eval_labels = Ok accuracy ->
  exists q, accuracy = round2 q /\ (0 <= q <= 1)%Q.
Proof. apply compute_metrics_bounds. Qed.

Lemma compute_metrics_accuracy_is_a_fraction_witness :
  exists q, (1 # 2)%Q = q /\ (0 <= q <= 1)%Q.
Proof.
  exact (@compute_metrics_accuracy_is_a_fraction exact_ops first_argmax
           [[[[0%Q; 1%Q]]; [[1%Q; 0%Q]]]] [[[1]; [1]]] (1 # 2)%Q eq_refl).
Defined.

(** X9: [compute_metrics] pairs the batches of predictions with the batches
    of labels by position and stops at the shorter list: without a pair it
    raises [ZeroDivisionError], and batches without a partner are ignored
    silently. *)
Theorem compute_metrics_pairs_batches `{FloatOps} (argmax : list Q -> Z)
    (eval_preds more_preds : list (list (list (list Q))))
    (eval_labels more_labels : list (list (list Z))) :
  compute_metrics argmax [] eval_labels = Raise ZeroDivisionError
  /\ compute_metrics argmax eval_preds [] = Raise ZeroDivisionError
  /\ (length eval_preds = length eval_labels ->
      compute_metrics argmax (eval_preds ++ more_preds) eval_labels
      = compute_metrics argmax eval_preds eval_labels
      /\ compute_metrics argmax eval_preds (eval_labels ++ more_labels)
         = compute_metrics argmax eval_preds eval_labels).
Proof.
  split; [apply compute_metrics_no_batches; auto|].
  split; [apply compute_metrics_no_batches; auto|].
  apply compute_metrics_unpaired.
Qed.

(** * Further properties of the launcher *)

(** ** The run identity *)

Lemma py_str_int_inj (a b : Z) : py_str_int a = py_str_int b -> a = b.
Proof.
  unfold py_str_int. intros E.
  assert (Hn : forall n, NilZero.int_of_string
                           (NilZero.string_of_int (Z.to_int n))
                         = Some (Z.to_int n)).
  { intros n. apply NilZero.isi; destruct n; cbn; try discriminate;
      intros C; injection C as C;
      exact (DecimalPos.Unsigned.to_uint_nonnil _ C). }
  pose proof (Hn a) as Ha. rewrite E, Hn in Ha. injection Ha as Ha.
  apply DecimalZ.to_int_inj. symmetry. exact Ha.
Qed.

Lemma string_of_uint_numeric (d : Decimal.uint) :
  all_chars is_numeric_char (NilEmpty.string_of_uint d) = true.
Proof. induction d; cbn [NilEmpty.string_of_uint all_chars]; auto. Qed.

Lemma py_str_int_numeric (n : Z) :
  all_chars is_numeric_char (py_str_int n) = true.
Proof.
  unfold py_str_int, NilZero.string_of_int, NilZero.string_of_uint.
  destruct (Z.to_int n) as [d|d]; destruct d;
    try reflexivity;
    try (apply (string_of_uint_numeric (_ d)));
    cbn [all_chars]; try (apply (string_of_uint_numeric (_ d))).
Qed.

Lemma append_cancel_l (s a b : string) : s +:+ a = s +:+ b -> a = b.
Proof.
  induction s as [|c s IH]; cbn [String.append]; [auto|].
  intros E. injection E as E. auto.
Qed.

Lemma split_at_separator (p : Ascii.ascii -> bool) (c : Ascii.ascii)
    (x : string) :
  forall (y r r' : string),
    p c = false ->
    all_chars p x = true -> all_chars p y = true ->
    x +:+ String c r = y +:+ String c r' -> x = y /\ r = r'.
Proof.
  induction x as [|a x IH]; intros y r r' Hc Hx Hy E.
  - destruct y as [|b y]; cbn [String.append] in E.
    + injection E as E. auto.
    + injection E as E1 E2. cbn [all_chars] in Hy. subst b.
      rewrite Hc in Hy. discriminate.
  - destruct y as [|b y]; cbn [String.append] in E.
    + injection E as E1 E2. cbn [all_chars] in Hx. subst a.
      rewrite Hc in Hx. discriminate.
    + injection E as E1 E2. cbn [all_chars] in Hx, Hy.
      apply andb_true_iff in Hx as [_ Hx].
      apply andb_true_iff in Hy as [_ Hy].
      destruct (IH y r r' Hc Hx Hy E2) as [-> ->]. subst b. auto.
Qed.

Lemma run_name_numeric_parts (model_base_name task : string) (s1 s2 : Z)
    (c1 c2 : AlignmentConfig) :
  run_name model_base_name task s1 c1 = run_name model_base_name task s2 c2 ->
  s1 = s2 /\ c1 = c2.
Proof.
  unfold run_name. intros E.
  apply (append_cancel_l "model:") in E.
  apply append_cancel_l in E.
  apply (append_cancel_l "_task:") in E.
  apply append_cancel_l in E.
  apply (append_cancel_l "_seed:") in E.
  change ("_intl:" +:+ ?r) with (String "_" ("intl:" +:+ r)) in E.
  apply (split_at_separator is_numeric_char) in E as [Es E];
    [|reflexivity|apply py_str_int_numeric ..].
  apply (append_cancel_l "intl:") in E.
  change ("_intr:" +:+ ?r) with (String "_" ("intr:" +:+ r)) in E.
  apply (split_at_separator is_numeric_char) in E as [El E];
    [|reflexivity|apply py_str_int_numeric ..].
  apply (append_cancel_l "intr:") in E.
  change ("," +:+ ?r) with (String "," r) in E.
  apply (split_at_separator is_numeric_char) in E as [Ea Eb];
    [|reflexivity|apply py_str_int_numeric ..].
  apply py_str_int_inj in Es, El, Ea, Eb.
  split; [exact Es|].
  destruct c1 as [l1 [a1 b1]], c2 as [l2 [a2 b2]].
  cbn [cfg_layer cfg_token_range fst snd] in *. congruence.
Qed.

(** X10: for one model and one task, the run name tells the seed, the layer
    and the token range apart: two runs with the same name have the same
    seed and the same alignment configuration, so runs that differ in one
    of them never share a checkpoint directory.  The model name and the task
    name are not told apart: a separator inside one of them can move a
    piece of text from one to the other without changing the run name. *)
Theorem run_name_separates_numeric_parts :
  (forall (model_base_name task : string) (s1 s2 : Z)
          (c1 c2 : AlignmentConfig),
      run_name model_base_name task s1 c1
      = run_name model_base_name task s2 c2 ->
      s1 = s2 /\ c1 = c2)
  /\ (forall (s : Z) (c : AlignmentConfig),
         run_name "alpaca_task:price" "tagging" s c
         = run_name "alpaca" "price_task:tagging" s c).
Proof.
  split; [apply run_name_numeric_parts|]. intros s c. reflexivity.
Qed.

(** ** [get_model] and [get_task] *)

Lemma load_global_unbound (bound : list string) (x : string) :
  (forall y, In y bound -> In y script_names) ->
  existsb (String.eqb x) script_names = false ->
  existsb (String.eqb x) builtins = false ->
  load_global bound x = Raise (NameError x).
Proof.
  intros Hsub Hs Hb. unfold load_global. rewrite Hb, orb_false_r.
  destruct (existsb (String.eqb x) bound) eqn:E; [|reflexivity].
  apply existsb_exists in E as (y & Hy & Exy).
  apply String.eqb_eq in Exy. subst y.
  assert (Hx : existsb (String.eqb x) script_names = true).
  { apply existsb_exists. exists x. split; [auto|apply String.eqb_refl]. }
  congruence.
Qed.

Lemma get_model_raises
    (from_pretrained : Args -> AlignmentConfig -> res Model)
    (bound : list string) (model_type_global : string) (args : Args)
    (alignment_config : AlignmentConfig) :
  (forall y, In y bound -> In y script_names) ->
  get_model from_pretrained bound model_type_global args alignment_config
  = Raise
      (if String.eqb (model_type args) "llama"
       then NameError "AlignableLlamaForCausalLM"
       else if String.eqb (model_type args) "t5"
            then NameError "AlignableT5ForConditionalGeneration"
            else if existsb (String.eqb "model_type") bound
                 then ValueError
                        ("Unsupported model_type: " +:+ model_type_global)
                 else NameError "model_type").
Proof.
  intros Hsub. unfold get_model.
  destruct (String.eqb (model_type args) "llama").
  { rewrite load_global_unbound by (exact Hsub || reflexivity).
    reflexivity. }
  destruct (String.eqb (model_type args) "t5").
  { rewrite load_global_unbound by (exact Hsub || reflexivity).
    reflexivity. }
  assert (Ev : load_global bound "ValueError" = Ok tt).
  { unfold load_global.
    change (existsb (String.eqb "ValueError") builtins) with true.
    rewrite orb_true_r. reflexivity. }
  rewrite Ev. cbn [mbind res_mbind res_bind]. unfold load_global.
  change (existsb (String.eqb "model_type") builtins) with false.
  rewrite orb_false_r.
  destruct (existsb (String.eqb "model_type") bound); reflexivity.
Qed.

(** X13: [get_model] of [run_alignment.py] never returns a model, whenever
    in the script it is called: the two model classes it names are bound
    nowhere in the file, so "llama" and "t5" end in [NameError]; any other
    model type ends in [NameError] on [model_type] before the script binds
    that global and in [ValueError] after. *)
Theorem get_model_never_returns
    (from_pretrained : Args -> AlignmentConfig -> res Model)
    (bound : list string) (model_type_global : string) (args : Args)
    (alignment_config : AlignmentConfig) :
  (forall y, In y bound -> In y script_names) ->
  get_model from_pretrained bound model_type_global args alignment_config
  = Raise
      (if String.eqb (model_type args) "llama"
       then NameError "AlignableLlamaForCausalLM"
       else if String.eqb (model_type args) "t5"
            then NameError "AlignableT5ForConditionalGeneration"
            else if existsb (String.eqb "model_type") bound
                 then ValueError
                        ("Unsupported model_type: " +:+ model_type_global)
                 else NameError "model_type").
Proof. apply get_model_raises. Qed.

Lemma get_model_never_returns_witness :
  get_model (fun _ _ => Ok fresh_model) script_names "LlamaForCausalLM"
    default_args {| cfg_layer := 15; cfg_token_range := (80, 81) |}
  = Raise (NameError "AlignableLlamaForCausalLM").
Proof.
  apply (get_model_never_returns (fun _ _ => Ok fresh_model) script_names
           "LlamaForCausalLM" default_args
           {| cfg_layer := 15; cfg_token_range := (80, 81) |}).
  intros y Hy. exact Hy.
Defined.

Lemma make_continent_task_fails (prompt_fn : string) :
  prompt_fn = "t5_prompt_fn" \/ prompt_fn = "llama_prompt_fn" ->
  make_continent_task prompt_fn = AttributeError prompt_fn.
Proof. intros [-> | ->]; reflexivity. Qed.

(** X14: [get_task] builds a task only for a task name that contains
    "price_tagging", and then only for the model types "t5" and "llama"
    (for any other model type it returns [None] without an error).  For a
    continent-matching task name it always fails: the module
    [continent_matching] has neither [t5_prompt_fn] nor [llama_prompt_fn]. *)
Theorem get_task_builds_price_tagging_only (args : Args) :
  (builds_task (get_task args) = true
   <-> contains "price_tagging" (task_name args) = true
       /\ (model_type args = "t5" \/ model_type args = "llama"))
  /\ (contains "price_tagging" (task_name args) = true ->
      model_type args <> "t5" -> model_type args <> "llama" ->
      get_task args = ReturnsNone)
  /\ (contains "price_tagging" (task_name args) = false ->
      contains "continent_matching" (task_name args) = true ->
      get_task args
      = if String.eqb (model_type args) "t5"
        then AttributeError "t5_prompt_fn"
        else if String.eqb (model_type args) "llama"
             then AttributeError "llama_prompt_fn"
             else UnsupportedModelType).
Proof.
  unfold get_task. cbv zeta.
  destruct (contains "price_tagging" (task_name args)) eqn:Ep.
  - split; [|split].
    + destruct (String.eqb (model_type args) "t5") eqn:Et.
      { apply String.eqb_eq in Et. cbn. tauto. }
      destruct (String.eqb (model_type args) "llama") eqn:El.
      { apply String.eqb_eq in El. cbn. tauto. }
      apply String.eqb_neq in Et, El. cbn. split; [discriminate|tauto].
    + intros _ Ht Hl. apply String.eqb_neq in Ht, Hl. rewrite Ht, Hl.
      reflexivity.
    + discriminate.
  - split; [|split].
    + destruct (contains "continent_matching" (task_name args)).
      * destruct (String.eqb (model_type args) "t5");
          [cbn; split; [discriminate|intros [C _]; discriminate]|].
        destruct (String.eqb (model_type args) "llama");
          cbn; (split; [discriminate|intros [C _]; discriminate]).
      * cbn. split; [discriminate|intros [C _]; discriminate].
    + discriminate.
    + intros _ ->.
      destruct (String.eqb (model_type args) "t5"); [reflexivity|].
      destruct (String.eqb (model_type args) "llama"); reflexivity.
Qed.

(** * Further properties of the continent-matching task *)

(** ** Dictionaries *)

Lemma dict_get_set_eq {V : Type} (d : list (string * V)) (k : string)
    (v : V) :
  dict_get (dict_set d k v) k = Ok v.
Proof.
  induction d as [|[k' v'] d IH]; cbn [dict_set dict_get].
  - rewrite String.eqb_refl. reflexivity.
  - destruct (String.eqb k' k) eqn:E; cbn [dict_get]; rewrite E; auto.
Qed.

Lemma dict_get_set_ne {V : Type} (d : list (string * V)) (k k' : string)
    (v : V) :
  k <> k' -> dict_get (dict_set d k v) k' = dict_get d k'.
Proof.
  intros Hne. induction d as [|[k0 v0] d IH]; cbn [dict_set dict_get].
  - apply String.eqb_neq in Hne. rewrite Hne. reflexivity.
  - destruct (String.eqb k0 k) eqn:E; cbn [dict_get].
    + apply String.eqb_eq in E. subst k0.
      apply String.eqb_neq in Hne. rewrite Hne. reflexivity.
    + rewrite IH. reflexivity.
Qed.

Lemma dict_set_keys {V : Type} (d : list (string * V)) (k : string) (v : V)
    (x : string) :
  In x (map fst (dict_set d k v)) <-> In x (map fst d) \/ x = k.
Proof.
  induction d as [|[k' v'] d IH]; cbn [dict_set map fst In].
  - intuition congruence.
  - destruct (String.eqb k' k) eqn:E; cbn [map fst In].
    + apply String.eqb_eq in E. subst k'. intuition congruence.
    + rewrite IH. tauto.
Qed.

Lemma dict_set_NoDup {V : Type} (d : list (string * V)) (k : string)
    (v : V) :
  NoDup (map fst d) -> NoDup (map fst (dict_set d k v)).
Proof.
  induction d as [|[k' v'] d IH]; cbn [dict_set map fst]; intros Hnd.
  - apply NoDup_singleton.
  - destruct (String.eqb k' k) eqn:E; cbn [map fst].
    + exact Hnd.
    + apply NoDup_cons in Hnd as [Hnot Hnd].
      apply NoDup_cons. split; [|auto].
      rewrite list_elem_of_In, dict_set_keys.
      intros [Hin| ->]; [apply Hnot, list_elem_of_In; exact Hin|].
      rewrite String.eqb_refl in E. discriminate.
Qed.

Lemma dict_get_key {V : Type} (d : list (string * V)) (k : string) :
  In k (map fst d) <-> exists v, dict_get d k = Ok v.
Proof.
  induction d as [|[k' v'] d IH]; cbn [dict_get map fst In].
  - split; [intros []|intros [v C]; discriminate].
  - destruct (String.eqb k' k) eqn:E.
    + apply String.eqb_eq in E. split; eauto.
    + apply String.eqb_neq in E. rewrite IH. split; [|auto].
      intros [C|Hv]; [contradiction|exact Hv].
Qed.

Lemma dict_get_In {V : Type} (d : list (string * V)) (k : string) (v : V) :
  dict_get d k = Ok v -> In (k, v) d.
Proof.
  induction d as [|[k' v'] d IH]; cbn [dict_get]; [discriminate|].
  destruct (String.eqb k' k) eqn:E.
  - apply String.eqb_eq in E. intros C. injection C as <-. subst k'.
    left. reflexivity.
  - intros Hg. right. auto.
Qed.

Lemma In_dict_get {V : Type} (d : list (string * V)) (k : string) (v : V) :
  NoDup (map fst d) -> In (k, v) d -> dict_get d k = Ok v.
Proof.
  induction d as [|[k' v'] d IH]; cbn [dict_get map fst];
    intros Hnd Hin; [destruct Hin|].
  apply NoDup_cons in Hnd as [Hnot Hnd].
  destruct Hin as [E|Hin].
  - injection E as -> ->. rewrite String.eqb_refl. reflexivity.
  - destruct (String.eqb k' k) eqn:E; [|auto].
    apply String.eqb_eq in E. subst k'. exfalso. apply Hnot.
    apply list_elem_of_In. apply (in_map fst) in Hin. exact Hin.
Qed.

Lemma dict_set_In {V : Type} (d : list (string * V)) (k : string) (v : V)
    (k' : string) (v' : V) :
  In (k', v') (dict_set d k v) -> (k' = k /\ v' = v) \/ In (k', v') d.
Proof.
  induction d as [|[k0 v0] d IH]; cbn [dict_set In].
  - intros [E|[]]. injection E as <- <-. auto.
  - destruct (String.eqb k0 k) eqn:E; cbn [In].
    + apply String.eqb_eq in E. subst k0.
      intros [C|Hin]; [injection C as <- <-; auto|auto].
    + intros [C|Hin]; [auto|]. destruct (IH Hin); auto.
Qed.

Lemma defaultdict_get_set (d : list (string * list string)) (k : string)
    (l : list string) (c : string) :
  defaultdict_get (dict_set d k l) c
  = if String.eqb k c then l else defaultdict_get d c.
Proof.
  unfold defaultdict_get. destruct (String.eqb k c) eqn:E.
  - apply String.eqb_eq in E. subst c. rewrite dict_get_set_eq. reflexivity.
  - apply String.eqb_neq in E. rewrite dict_get_set_ne by exact E.
    reflexivity.
Qed.

(** ** Lines of the data file *)

Lemma append_nil_r (s : string) : s +:+ EmptyString = s.
Proof.
  induction s as [|c s IH]; [reflexivity|].
  change (String c (s +:+ EmptyString) = String c s). rewrite IH.
  reflexivity.
Qed.

Lemma append_assoc (a b c : string) : (a +:+ b) +:+ c = a +:+ (b +:+ c).
Proof.
  induction a as [|x a IH]; [reflexivity|].
  change (String x ((a +:+ b) +:+ c) = String x (a +:+ (b +:+ c))).
  rewrite IH. reflexivity.
Qed.

Lemma split_fields_nonempty (s cur : string) : split_fields s cur <> [].
Proof.
  revert cur. induction s as [|c s IH]; intros cur; cbn [split_fields].
  - discriminate.
  - destruct (Ascii.eqb c ","%char); [discriminate|apply IH].
Qed.

Lemma split_fields_join (s cur : string) :
  str_join_comma (split_fields s cur) = cur +:+ s.
Proof.
  revert cur. induction s as [|c s IH]; intros cur; cbn [split_fields].
  - cbn [str_join_comma]. rewrite append_nil_r. reflexivity.
  - destruct (Ascii.eqb c ","%char) eqn:E.
    + apply Ascii.eqb_eq in E. subst c.
      pose proof (split_fields_nonempty s EmptyString) as Hne.
      pose proof (IH EmptyString) as IH0.
      destruct (split_fields s EmptyString) as [|p ps]; [congruence|].
      change (str_join_comma (cur :: p :: ps))
        with (cur +:+ "," +:+ str_join_comma (p :: ps)).
      rewrite IH0. reflexivity.
    + rewrite IH, append_assoc. reflexivity.
Qed.

(** A line is its first field alone, or its first field, a comma and the
    other fields joined again. *)
Lemma split_head_tail (s : string) :
  (s = hd EmptyString (str_split_comma s)
   /\ str_join_comma (tl (str_split_comma s)) = EmptyString)
  \/ s = hd EmptyString (str_split_comma s) +:+ ","
         +:+ str_join_comma (tl (str_split_comma s)).
Proof.
  unfold str_split_comma.
  pose proof (split_fields_join s EmptyString) as Hj.
  change (EmptyString +:+ s) with s in Hj.
  destruct (split_fields s EmptyString) as [|h [|p ps]].
  - left. split; [symmetry; exact Hj|reflexivity].
  - left. split; [symmetry; exact Hj|reflexivity].
  - right. symmetry. exact Hj.
Qed.

Section MapFacts.
Variable strip : string -> string.

Lemma read_line_ok (lines : list string) (ret : list (string * string))
    (line : string) :
  map_ok strip lines ret ->
  map_ok strip (lines ++ [line]) (read_line strip ret line).
Proof.
  intros [Hnd Hin]. unfold read_line. cbv zeta.
  destruct (existsb _ known_continents) eqn:Ek; cbn [negb].
  - split; [apply dict_set_NoDup; exact Hnd|].
    intros country continent Hc. apply dict_set_In in Hc.
    destruct Hc as [[-> ->]|Hc].
    + split.
      * apply existsb_exists in Ek as (x & Hx & Ex).
        apply String.eqb_eq in Ex. subst x. exact Hx.
      * exists line. split; [apply in_or_app; right; left; reflexivity|].
        destruct (split_head_tail (strip line)) as [[E E']|E];
          [left; split; [exact E|exact E']|right; exact E].
    + destruct (Hin _ _ Hc) as (Hk & l & Hl & Hs). split; [exact Hk|].
      exists l. split; [apply in_or_app; left; exact Hl|exact Hs].
  - split; [exact Hnd|]. intros country continent Hc.
    destruct (Hin _ _ Hc) as (Hk & l & Hl & Hs). split; [exact Hk|].
    exists l. split; [apply in_or_app; left; exact Hl|exact Hs].
Qed.

Lemma fold_read_line_ok (lines : list string) :
  forall done ret,
    map_ok strip done ret ->
    map_ok strip (done ++ lines) (fold_left (read_line strip) lines ret).
Proof.
  induction lines as [|line lines IH]; intros done ret Hok.
  - rewrite app_nil_r. exact Hok.
  - cbn [fold_left].
    replace (done ++ line :: lines) with ((done ++ [line]) ++ lines)
      by (rewrite <- app_assoc; reflexivity).
    apply IH. apply read_line_ok. exact Hok.
Qed.

Lemma country_continent_map_ok (lines : list string) :
  map_ok strip lines (_get_country_continent_map strip lines).
Proof.
  apply (fold_read_line_ok lines [] []). split; [apply NoDup_nil_2|].
  intros ? ? [].
Qed.

Lemma read_line_keeps (ret : list (string * string)) (line x : string) :
  In x (map fst ret) -> In x (map fst (read_line strip ret line)).
Proof.
  intros Hx. unfold read_line. cbv zeta.
  destruct (negb _); [exact Hx|]. apply dict_set_keys. left. exact Hx.
Qed.

Lemma fold_read_line_keeps (lines : list string) (x : string) :
  forall ret,
    In x (map fst ret) ->
    In x (map fst (fold_left (read_line strip) lines ret)).
Proof.
  induction lines as [|line lines IH]; intros ret Hx; [exact Hx|].
  cbn [fold_left]. apply IH, read_line_keeps, Hx.
Qed.

Lemma read_line_adds (ret : list (string * string)) (line : string) :
  In (hd EmptyString (str_split_comma (strip line))) known_continents ->
  In (str_join_comma (tl (str_split_comma (strip line))))
    (map fst (read_line strip ret line)).
Proof.
  intros Hk. unfold read_line. cbv zeta.
  assert (E : existsb
                (String.eqb (hd EmptyString (str_split_comma (strip line))))
                known_continents = true).
  { apply existsb_exists. eexists. split; [exact Hk|].
    apply String.eqb_refl. }
  rewrite E. cbn [negb]. apply dict_set_keys. right. reflexivity.
Qed.

Lemma country_continent_map_complete (lines : list string) (line : string) :
  In line lines ->
  In (hd EmptyString (str_split_comma (strip line))) known_continents ->
  In (str_join_comma (tl (str_split_comma (strip line))))
    (map fst (_get_country_continent_map strip lines)).
Proof.
  intros Hl Hk. unfold _get_country_continent_map.
  apply in_split in Hl as (l1 & l2 & ->).
  rewrite fold_left_app. cbn [fold_left].
  apply fold_read_line_keeps, read_line_adds, Hk.
Qed.

End MapFacts.

(** X15: the map that [_get_country_continent_map] reads has one entry per
    country name; every continent in it is one of the six the code accepts;
    every entry comes from a line of the file that is, once stripped,
    either the continent, a comma and the country name as it stands, commas
    included, or the continent alone, the country name being the empty
    string then; and every line whose first field is one of the six
    continents has its country name in the map. *)
Theorem country_continent_map_entries (strip : string -> string)
    (lines : list string) :
  NoDup (map fst (_get_country_continent_map strip lines))
  /\ (forall country continent,
         In (country, continent) (_get_country_continent_map strip lines) ->
         In continent known_continents
         /\ exists line,
              In line lines
              /\ ((strip line = continent /\ country = EmptyString)
                  \/ strip line = continent +:+ "," +:+ country))
  /\ (forall line,
         In line lines ->
         In (hd EmptyString (str_split_comma (strip line)))
           known_continents ->
         In (str_join_comma (tl (str_split_comma (strip line))))
           (map fst (_get_country_continent_map strip lines))).
Proof.
  destruct (country_continent_map_ok strip lines) as [Hnd Hin].
  split; [exact Hnd|]. split; [exact Hin|].
  apply country_continent_map_complete.
Qed.

(** ** The attributes of the task *)

Lemma fold_group_spec (items : list (string * string)) :
  forall d : list (string * list string),
    let d' := fold_left (fun d (item : string * string) =>
                           defaultdict_append d item.2 item.1) items d in
    (forall c x,
        In x (defaultdict_get d' c)
        <-> In x (defaultdict_get d c) \/ In (x, c) items)
    /\ (forall c,
           In c (map fst d')
           <-> In c (map fst d) \/ exists x, In (x, c) items)
    /\ (NoDup (map fst d) -> NoDup (map fst d')).
Proof.
  induction items as [|[x0 c0] items IH]; intros d; cbn [fold_left];
    cbv zeta.
  - split; [|split]; [intros c x|intros c|auto]; cbn [In].
    + tauto.
    + split; [auto|]. intros [Hc|[x []]]. exact Hc.
  - destruct (IH (defaultdict_append d c0 x0)) as (Hg & Hk & Hn).
    cbv zeta in Hg, Hk, Hn. cbn [fst snd]. split; [|split].
    + intros c x. rewrite Hg. unfold defaultdict_append.
      rewrite defaultdict_get_set. cbn [In].
      destruct (String.eqb c0 c) eqn:E.
      * apply String.eqb_eq in E. subst c0. rewrite in_app_iff. cbn [In].
        split.
        -- intros [[Hx|[->|[]]]|Hx]; auto.
        -- intros [Hx|[C|Hx]]; auto. injection C as ->. auto.
      * apply String.eqb_neq in E. split.
        -- intros [Hx|Hx]; auto.
        -- intros [Hx|[C|Hx]]; auto. injection C as _ C. congruence.
    + intros c. rewrite Hk. unfold defaultdict_append.
      rewrite dict_set_keys. cbn [In]. split.
      * intros [[Hc| ->]|[x Hx]]; eauto.
      * intros [Hc|[x [C|Hx]]]; eauto. injection C as _ ->. auto.
    + intros Hnd. apply Hn. unfold defaultdict_append.
      apply dict_set_NoDup. exact Hnd.
Qed.

Lemma grouped_consistent (m : list (string * string)) :
  NoDup (map fst m) ->
  consistent
    {| country_to_continent := m;
       continent_to_country :=
         fold_left (fun d (item : string * string) =>
                      defaultdict_append d item.2 item.1) m [];
       countries := map fst m;
       continents :=
         map fst
           (fold_left (fun d (item : string * string) =>
                         defaultdict_append d item.2 item.1) m []) |}.
Proof.
  intros Hnd. destruct (fold_group_spec m []) as (Hg & Hk & Hn).
  cbv zeta in Hg, Hk, Hn.
  unfold consistent.
  cbn [country_to_continent continent_to_country countries continents].
  split; [|split; [|split]].
  - intros country c. rewrite Hg. cbn [defaultdict_get dict_get In]. split.
    + intros [[]|Hin]. apply In_dict_get; assumption.
    + intros Hget. right. apply dict_get_In. exact Hget.
  - intros country. apply dict_get_key.
  - intros c. rewrite Hk. cbn [map In]. split.
    + intros [[]|[x Hx]]. exists x. apply In_dict_get; assumption.
    + intros [x Hx]. right. exists x. apply dict_get_In. exact Hx.
  - apply Hn. apply NoDup_nil_2.
Qed.

Lemma init_consistent (strip : string -> string) (lines : list string) :
  consistent (__init__ strip lines).
Proof.
  destruct (country_continent_map_ok strip lines) as [Hnd _].
  exact (grouped_consistent _ Hnd).
Qed.

(** X16: the attributes that [__init__] gives a task fit together, whatever
    the data file holds: the countries are the keys of
    [country_to_continent]; [continent_to_country] lists under a continent
    exactly the countries mapped to it; the continents are the continents in
    use, each once, and each is one of the six known continents. *)
Theorem init_attributes_are_consistent (strip : string -> string)
    (lines : list string) :
  consistent (__init__ strip lines)
  /\ (forall c, In c (continents (__init__ strip lines)) ->
                In c known_continents).
Proof.
  destruct (country_continent_map_ok strip lines) as [Hnd Hin].
  pose proof (grouped_consistent _ Hnd) as Hc. split; [exact Hc|].
  intros c Hc0. apply Hc in Hc0 as [country Hget].
  cbn [country_to_continent] in Hget. apply dict_get_In in Hget.
  apply (Hin _ _ Hget).
Qed.

(** ** The samplers *)

Lemma random_choice_Ok {A : Type} (seq : list A) (rng : Rng) (x : A)
    (rng' : Rng) :
  random_choice seq rng = Ok (x, rng') -> In x seq /\ rng' = tl rng.
Proof.
  unfold random_choice. cbv zeta.
  destruct (seq !! _) as [y|] eqn:E; [|discriminate].
  intros C. injection C as <- <-. split; [|reflexivity].
  apply list_elem_of_In. eapply list_elem_of_lookup_2. exact E.
Qed.

Lemma random_choice_nonempty {A : Type} (seq : list A) (rng : Rng) :
  seq <> [] -> exists x, random_choice seq rng = Ok (x, tl rng) /\ In x seq.
Proof.
  intros Hne. unfold random_choice. cbv zeta.
  destruct (seq !! _) as [y|] eqn:E.
  - exists y. split; [reflexivity|].
    apply list_elem_of_In. eapply list_elem_of_lookup_2. exact E.
  - apply lookup_ge_None in E. exfalso.
    assert (Hlen : (0 < length seq)%nat)
      by (destruct seq; [congruence|cbn [length]; lia]).
    pose proof (Nat.mod_upper_bound
                  (match rng with [] => 0%nat | n :: _ => n end)
                  (length seq)) as Hb.
    lia.
Qed.

Lemma random_choice_nil {A : Type} (rng : Rng) :
  random_choice (@nil A) rng = Raise IndexError.
Proof. reflexivity. Qed.

Lemma continent_of_get (t : ContinentMatchingTask) (country c : string) :
  dict_get (country_to_continent t) country = Ok c ->
  continent_of t country = Some c.
Proof. unfold continent_of. intros ->. reflexivity. Qed.

Section SamplerFacts.
Variable self : ContinentMatchingTask.
Hypothesis self_consistent : consistent self.

Lemma listed_country (country c : string) :
  In country (defaultdict_get (continent_to_country self) c) ->
  dict_get (country_to_continent self) country = Ok c.
Proof. apply self_consistent. Qed.

Lemma sample_single_example_label (target_label : option bool)
    (custom_prompt_fn : option (string -> string -> string))
    (rng : Rng) (example : Example) (rng' : Rng) :
  _sample_single_example self target_label custom_prompt_fn rng
  = Ok (example, rng') ->
  exists country1 country2 continent1 continent2,
    inputs example = _format_prompt country1 country2 custom_prompt_fn
    /\ source_inputs example = None
    /\ continent_of self country1 = Some continent1
    /\ continent_of self country2 = Some continent2
    /\ targets example
       = (if String.eqb continent1 continent2 then "Yes" else "No")
    /\ (target_label = Some true -> targets example = "Yes")
    /\ (target_label = Some false -> targets example = "No").
Proof.
  unfold _sample_single_example. cbv zeta.
  destruct (random_choice (countries self) rng) as [[country1 rng1]|]
    eqn:E1; cbn [mbind res_mbind res_bind fst snd]; [|discriminate].
  destruct (dict_get (country_to_continent self) country1)
    as [continent1|] eqn:Ec1; cbn [mbind res_mbind res_bind];
    [|discriminate].
  destruct target_label as [[|]|].
  - destruct (random_choice _ rng1) as [[country2 rng2]|] eqn:E2;
      cbn [mbind res_mbind res_bind fst snd]; [|discriminate].
    apply random_choice_Ok in E2 as [Hin _].
    apply listed_country in Hin. rewrite Hin.
    cbn [mbind res_mbind res_bind]. intros C. injection C as <- <-.
    exists country1, country2, continent1, continent1.
    cbn [inputs targets source_inputs]. rewrite String.eqb_refl.
    repeat split; auto using continent_of_get. discriminate.
  - destruct (random_choice _ rng1) as [[rc rngc]|] eqn:Ec;
      cbn [mbind res_mbind res_bind fst snd]; [|discriminate].
    destruct (random_choice _ rngc) as [[country2 rng2]|] eqn:E2;
      cbn [mbind res_mbind res_bind fst snd]; [|discriminate].
    apply random_choice_Ok in Ec as [Hrc _].
    apply list_elem_of_In, list_elem_of_filter in Hrc as [Hne _].
    apply random_choice_Ok in E2 as [Hin _]. apply listed_country in Hin.
    intros C. injection C as <- <-.
    exists country1, country2, continent1, rc.
    cbn [inputs targets source_inputs].
    assert (Eq : String.eqb continent1 rc = false)
      by (apply String.eqb_neq; congruence).
    rewrite Eq. repeat split; auto using continent_of_get. discriminate.
  - destruct (random_choice _ rng1) as [[country2 rng2]|] eqn:E2;
      cbn [mbind res_mbind res_bind fst snd]; [|discriminate].
    destruct (dict_get (country_to_continent self) country2)
      as [continent2|] eqn:Ec2; cbn [mbind res_mbind res_bind];
      [|discriminate].
    intros C. injection C as <- <-.
    exists country1, country2, continent1, continent2.
    cbn [inputs targets source_inputs].
    repeat split; auto using continent_of_get; discriminate.
Qed.

Lemma known_country (country : string) :
  In country (countries self) ->
  exists c, dict_get (country_to_continent self) country = Ok c
            /\ In c (continents self)
            /\ In country (defaultdict_get (continent_to_country self) c).
Proof.
  intros Hin. apply self_consistent in Hin as [c Hc]. exists c.
  split; [exact Hc|]. split; [|apply self_consistent; exact Hc].
  apply self_consistent. eauto.
Qed.

Lemma continent_listed (c : string) :
  In c (continents self) ->
  defaultdict_get (continent_to_country self) c <> [].
Proof.
  intros Hin. apply self_consistent in Hin as [country Hc].
  apply self_consistent in Hc. intros E. rewrite E in Hc. destruct Hc.
Qed.

Lemma other_continent (c : string) :
  (exists c', In c' (continents self) /\ c' <> c) ->
  filter (fun x => x ≠ c) (continents self) <> [].
Proof.
  intros (c' & Hin & Hne) E.
  assert (Hf : c' ∈ filter (fun x => x ≠ c) (continents self))
    by (apply list_elem_of_filter; split; [exact Hne|];
        apply list_elem_of_In; exact Hin).
  rewrite E in Hf. apply not_elem_of_nil in Hf. exact Hf.
Qed.

Lemma only_continent (c : string) :
  (forall c', In c' (continents self) -> c' = c) ->
  filter (fun x => x ≠ c) (continents self) = [].
Proof.
  intros Hall.
  destruct (filter (fun x => x ≠ c) (continents self)) as [|y l] eqn:E;
    [reflexivity|].
  assert (Hf : y ∈ filter (fun x => x ≠ c) (continents self))
    by (rewrite E; left).
  apply list_elem_of_filter in Hf as [Hne Hin].
  apply list_elem_of_In in Hin. apply Hall in Hin. contradiction.
Qed.

Lemma sample_single_example_returns (target_label : option bool)
    (custom_prompt_fn : option (string -> string -> string)) (rng : Rng) :
  countries self <> [] ->
  (target_label = Some false ->
   exists c c', In c (continents self) /\ In c' (continents self)
                /\ c <> c') ->
  exists example rng',
    _sample_single_example self target_label custom_prompt_fn rng
    = Ok (example, rng').
Proof.
  intros Hne Htwo. unfold _sample_single_example. cbv zeta.
  destruct (random_choice_nonempty (countries self) rng Hne)
    as (country1 & -> & Hin1).
  cbn [mbind res_mbind res_bind fst snd].
  destruct (known_country country1 Hin1) as (continent1 & -> & Hc1 & Hl1).
  cbn [mbind res_mbind res_bind].
  destruct target_label as [[|]|].
  - destruct (random_choice_nonempty
                (defaultdict_get (continent_to_country self) continent1)
                (tl rng)) as (country2 & -> & Hin2).
    { intros E. rewrite E in Hl1. destruct Hl1. }
    cbn [mbind res_mbind res_bind fst snd].
    rewrite (listed_country _ _ Hin2). cbn [mbind res_mbind res_bind].
    eauto.
  - destruct (random_choice_nonempty
                (filter (fun c => c ≠ continent1) (continents self))
                (tl rng)) as (rc & -> & Hrc).
    { apply other_continent.
      destruct (Htwo eq_refl) as (c & c' & Hc & Hc' & Hd).
      destruct (String.eqb_spec c continent1) as [->|Hn]; eauto. }
    cbn [mbind res_mbind res_bind fst snd].
    apply list_elem_of_In, list_elem_of_filter in Hrc as [_ Hrc].
    apply list_elem_of_In in Hrc.
    destruct (random_choice_nonempty
                (defaultdict_get (continent_to_country self) rc)
                (tl (tl rng))) as (country2 & -> & Hin2).
    { apply continent_listed. exact Hrc. }
    cbn [mbind res_mbind res_bind fst snd]. eauto.
  - destruct (random_choice_nonempty (countries self) (tl rng) Hne)
      as (country2 & -> & Hin2).
    cbn [mbind res_mbind res_bind fst snd].
    destruct (known_country country2 Hin2) as (continent2 & -> & _).
    cbn [mbind res_mbind res_bind]. eauto.
Qed.

Lemma sample_single_example_one_continent
    (custom_prompt_fn : option (string -> string -> string)) (rng : Rng)
    (c : string) :
  countries self <> [] ->
  (forall c', In c' (continents self) -> c' = c) ->
  _sample_single_example self (Some false) custom_prompt_fn rng
  = Raise IndexError.
Proof.
  intros Hne Hone. unfold _sample_single_example. cbv zeta.
  destruct (random_choice_nonempty (countries self) rng Hne)
    as (country1 & -> & Hin1).
  cbn [mbind res_mbind res_bind fst snd].
  destruct (known_country country1 Hin1) as (continent1 & -> & Hc1 & Hl1).
  cbn [mbind res_mbind res_bind].
  rewrite only_continent; [reflexivity|].
  intros c' Hc'. rewrite (Hone _ Hc'), (Hone _ Hc1). reflexivity.
Qed.

End SamplerFacts.

(** X17: an example that [_sample_single_example] returns for a task with
    consistent attributes carries a truthful label: its prompt is about two
    countries of the task, its target is "Yes" when their continents are the
    same and "No" when they differ, and a requested label is the label it
    gets ([True] gives "Yes", [False] gives "No"). *)
Theorem sampled_example_label_is_truthful (self : ContinentMatchingTask)
    (target_label : option bool)
    (custom_prompt_fn : option (string -> string -> string))
    (rng : Rng) (example : Example) (rng' : Rng) :
  consistent self ->
  _sample_single_example self target_label custom_prompt_fn rng
  = Ok (example, rng') ->
  exists country1 country2 continent1 continent2,
    inputs example = _format_prompt country1 country2 custom_prompt_fn
    /\ source_inputs example = None
    /\ continent_of self country1 = Some continent1
    /\ continent_of self country2 = Some continent2
    /\ targets example
       = (if String.eqb continent1 continent2 then "Yes" else "No")
    /\ (target_label = Some true -> targets example = "Yes")
    /\ (target_label = Some false -> targets example = "No").
Proof. intros Hc. apply sample_single_example_label. exact Hc. Qed.

Lemma sampled_example_label_is_truthful_witness :
  exists country1 country2 continent1 continent2,
    _format_prompt "Japan" "France" None
    = _format_prompt country1 country2 None
    /\ @None string = None
    /\ continent_of small_task country1 = Some continent1
    /\ continent_of small_task country2 = Some continent2
    /\ "No" = (if String.eqb continent1 continent2 then "Yes" else "No")
    /\ (Some false = Some true -> "No" = "Yes")
    /\ (Some false = Some false -> "No" = "No").
Proof.
  exact (sampled_example_label_is_truthful small_task (Some false) None
           [0; 1; 0]%nat
           {| inputs := _format_prompt "Japan" "France" None;
              targets := "No"; source_inputs := None |}
           [] (init_consistent _ _) eq_refl).
Defined.

(** X18: for a task with consistent attributes and at least one country,
    [_sample_single_example] returns an example whenever it is asked for any
    label or for "Yes"; asked for "No" it returns when the task has two
    continents and raises [IndexError] (a choice from an empty list) when it
    has only one. *)
Theorem sampling_needs_two_continents (self : ContinentMatchingTask)
    (custom_prompt_fn : option (string -> string -> string)) (rng : Rng) :
  consistent self ->
  countries self <> [] ->
  (forall target_label,
      (target_label = Some false ->
       exists c c', In c (continents self) /\ In c' (continents self)
                    /\ c <> c') ->
      exists example rng',
        _sample_single_example self target_label custom_prompt_fn rng
        = Ok (example, rng'))
  /\ (forall c,
         (forall c', In c' (continents self) -> c' = c) ->
         _sample_single_example self (Some false) custom_prompt_fn rng
         = Raise IndexError).
Proof.
  intros Hc Hne. split.
  - intros target_label Htwo.
    apply sample_single_example_returns; assumption.
  - intros c Hone.
    apply (sample_single_example_one_continent self Hc custom_prompt_fn rng
             c); assumption.
Qed.

Lemma small_task_has_countries : countries small_task <> [].
Proof. intros E. vm_compute in E. discriminate E. Qed.

Lemma sampling_needs_two_continents_witness :
  (forall target_label,
      (target_label = Some false ->
       exists c c', In c (continents small_task)
                    /\ In c' (continents small_task) /\ c <> c') ->
      exists example rng',
        _sample_single_example small_task target_label None [] 
        = Ok (example, rng'))
  /\ (forall c,
         (forall c', In c' (continents small_task) -> c' = c) ->
         _sample_single_example small_task (Some false) None []
         = Raise IndexError).
Proof.
  exact (sampling_needs_two_continents small_task None []
           (init_consistent _ _) small_task_has_countries).
Defined.

(** ** The source samplers and the alignment examples *)

Lemma continent1_source_sampler_raises (self : ContinentMatchingTask)
    (b1 b2 lbl : string) (rng : Rng) :
  continent1_source_sampler self b1 b2 lbl rng
  = Raise (NameError "base_continent2").
Proof.
  unfold continent1_source_sampler.
  change (load_name _ "ctf_label_str") with (Ok (VStr lbl)).
  change (load_name _ "_YES_LABEL") with (Ok (VStr "Yes")).
  cbn [mbind res_mbind res_bind].
  destruct (value_eqb (VStr lbl) (VStr "Yes")); reflexivity.
Qed.

Section AlignmentFacts.
Variable self : ContinentMatchingTask.
Hypothesis self_consistent : consistent self.

Lemma sample_not_in_continent_Ok (c : string) (rng : Rng)
    (country : string) (rng' : Rng) :
  _sample_not_in_continent self c rng = Ok (country, rng') ->
  exists c', dict_get (country_to_continent self) country = Ok c'
             /\ c' <> c.
Proof.
  unfold _sample_not_in_continent.
  destruct (random_choice _ rng) as [[rc rngc]|] eqn:Ec;
    cbn [mbind res_mbind res_bind fst snd]; [|discriminate].
  intros E2. apply random_choice_Ok in E2 as [Hin _].
  apply random_choice_Ok in Ec as [Hrc _].
  apply list_elem_of_In, list_elem_of_filter in Hrc as [Hne _].
  exists rc. split; [apply (listed_country self self_consistent); auto|auto].
Qed.

Lemma sample_not_in_continent_returns (c : string) (rng : Rng) :
  two_continents self ->
  exists country,
    _sample_not_in_continent self c rng = Ok (country, tl (tl rng)).
Proof.
  intros (x & y & Hx & Hy & Hd). unfold _sample_not_in_continent.
  destruct (random_choice_nonempty
              (filter (fun k => k ≠ c) (continents self)) rng)
    as (rc & -> & Hrc).
  { apply other_continent.
    destruct (String.eqb_spec x c) as [->|Hn]; eauto. }
  cbn [mbind res_mbind res_bind fst snd].
  apply list_elem_of_In, list_elem_of_filter in Hrc as [_ Hrc].
  apply list_elem_of_In in Hrc.
  destruct (random_choice_nonempty
              (defaultdict_get (continent_to_country self) rc) (tl rng))
    as (country & -> & _).
  { apply (continent_listed self self_consistent). exact Hrc. }
  eauto.
Qed.

Lemma output_rep_label (b1 b2 ctf : string) (rng : Rng)
    (s1 s2 lbl : string) (rng' : Rng) :
  output_rep_source_sampler self b1 b2 ctf rng = Ok (s1, s2, lbl, rng') ->
  lbl = ctf
  /\ exists c1 c2,
       continent_of self s1 = Some c1
       /\ continent_of self s2 = Some c2
       /\ (ctf = "No" -> c1 <> c2)
       /\ (ctf <> "No" -> c1 = c2).
Proof.
  unfold output_rep_source_sampler.
  destruct (random_choice (countries self) rng) as [[x1 rng1]|] eqn:E1;
    cbn [mbind res_mbind res_bind fst snd]; [|discriminate].
  destruct (dict_get (country_to_continent self) x1) as [c1|] eqn:Ec1;
    cbn [mbind res_mbind res_bind]; [|discriminate].
  destruct (String.eqb_spec ctf "No") as [->|Hne].
  - destruct (_sample_not_in_continent self c1 rng1) as [[x2 rng2]|] eqn:E2;
      cbn [mbind res_mbind res_bind fst snd]; [|discriminate].
    intros C. injection C as <- <- <- <-.
    apply sample_not_in_continent_Ok in E2 as (c2 & Hc2 & Hd).
    split; [reflexivity|]. exists c1, c2.
    repeat split; auto using continent_of_get; congruence.
  - destruct (random_choice _ rng1) as [[x2 rng2]|] eqn:E2;
      cbn [mbind res_mbind res_bind fst snd]; [|discriminate].
    intros C. injection C as <- <- <- <-.
    apply random_choice_Ok in E2 as [Hin _].
    apply (listed_country self self_consistent) in Hin.
    split; [reflexivity|]. exists c1, c1.
    repeat split; auto using continent_of_get; contradiction.
Qed.

Lemma output_rep_returns (b1 b2 ctf : string) (rng : Rng) :
  countries self <> [] ->
  two_continents self ->
  exists s1 s2 rng',
    output_rep_source_sampler self b1 b2 ctf rng = Ok (s1, s2, ctf, rng').
Proof.
  intros Hne Htwo. unfold output_rep_source_sampler.
  destruct (random_choice_nonempty (countries self) rng Hne)
    as (x1 & -> & Hin1).
  cbn [mbind res_mbind res_bind fst snd].
  destruct (known_country self self_consistent x1 Hin1)
    as (c1 & -> & Hc1 & Hl1).
  cbn [mbind res_mbind res_bind].
  destruct (String.eqb ctf "No").
  - destruct (sample_not_in_continent_returns c1 (tl rng) Htwo)
      as (x2 & ->).
    cbn [mbind res_mbind res_bind fst snd]. eauto.
  - destruct (random_choice_nonempty
                (defaultdict_get (continent_to_country self) c1) (tl rng))
      as (x2 & -> & _).
    { intros E. rewrite E in Hl1. destruct Hl1. }
    cbn [mbind res_mbind res_bind fst snd]. eauto.
Qed.

Lemma sample_alignment_example_labelled (rng : Rng) (ex : Example)
    (rng' : Rng) :
  sample_alignment_example self (output_rep_source_sampler self) rng
  = Ok (ex, rng') ->
  source_labelled self ex.
Proof.
  unfold sample_alignment_example.
  destruct (random_choice (countries self) rng) as [[b1 rng1]|] eqn:E1;
    cbn [mbind res_mbind res_bind fst snd]; [|discriminate].
  destruct (dict_get (country_to_continent self) b1) as [k1|];
    cbn [mbind res_mbind res_bind]; [|discriminate].
  destruct (random_choice (countries self) rng1) as [[b2 rng2]|] eqn:E2;
    cbn [mbind res_mbind res_bind fst snd]; [|discriminate].
  destruct (dict_get (country_to_continent self) b2) as [k2|];
    cbn [mbind res_mbind res_bind]; [|discriminate].
  destruct (random_choice ["Yes"; "No"] rng2) as [[ctf rng3]|] eqn:E3;
    cbn [mbind res_mbind res_bind fst snd]; [|discriminate].
  destruct (output_rep_source_sampler self b1 b2 ctf rng3)
    as [[[[s1 s2] lbl] rng4]|] eqn:E4;
    cbn [mbind res_mbind res_bind]; [|discriminate].
  intros C. injection C as <- <-.
  apply random_choice_Ok in E1 as [Hb1 _].
  apply random_choice_Ok in E2 as [Hb2 _].
  apply random_choice_Ok in E3 as [Hctf _].
  apply output_rep_label in E4 as (_ & c1 & c2 & Hc1 & Hc2 & Hno & Hyes).
  exists b1, b2, s1, s2, c1, c2. cbn [inputs targets source_inputs].
  repeat split; auto.
  - destruct Hctf as [<-|[<-|[]]]; auto.
  - intros ->. apply Hyes. discriminate.
  - intros Hq. destruct Hctf as [<-|[<-|[]]]; [reflexivity|].
    exfalso. apply Hno; auto.
Qed.

Lemma alignment_loop_labelled (n : nat) :
  forall rng examples rng',
    alignment_loop self (output_rep_source_sampler self) n rng
    = Ok (examples, rng') ->
    length examples = n /\ Forall (source_labelled self) examples.
Proof.
  induction n as [|n IH]; intros rng examples rng'; cbn [alignment_loop].
  - intros C. injection C as <- <-. split; [reflexivity|constructor].
  - destruct (sample_alignment_example self _ rng) as [[ex rng1]|] eqn:E1;
      cbn [mbind res_mbind res_bind fst snd]; [|discriminate].
    destruct (alignment_loop self _ n rng1) as [[rest rng2]|] eqn:E2;
      cbn [mbind res_mbind res_bind fst snd]; [|discriminate].
    intros C. injection C as <- <-.
    apply IH in E2 as [Hlen Hall].
    apply sample_alignment_example_labelled in E1.
    split; [cbn [length]; lia|constructor; assumption].
Qed.

Lemma sample_alignment_example_returns (rng : Rng) :
  countries self <> [] ->
  two_continents self ->
  exists ex rng',
    sample_alignment_example self (output_rep_source_sampler self) rng
    = Ok (ex, rng').
Proof.
  intros Hne Htwo. unfold sample_alignment_example.
  destruct (random_choice_nonempty (countries self) rng Hne)
    as (b1 & -> & Hin1).
  cbn [mbind res_mbind res_bind fst snd].
  destruct (known_country self self_consistent b1 Hin1) as (k1 & -> & _).
  cbn [mbind res_mbind res_bind].
  destruct (random_choice_nonempty (countries self) (tl rng) Hne)
    as (b2 & -> & Hin2).
  cbn [mbind res_mbind res_bind fst snd].
  destruct (known_country self self_consistent b2 Hin2) as (k2 & -> & _).
  cbn [mbind res_mbind res_bind].
  destruct (random_choice_nonempty ["Yes"; "No"] (tl (tl rng)))
    as (ctf & -> & _); [discriminate|].
  cbn [mbind res_mbind res_bind fst snd].
  destruct (output_rep_returns b1 b2 ctf (tl (tl (tl rng))) Hne Htwo)
    as (s1 & s2 & rng4 & ->).
  cbn [mbind res_mbind res_bind]. eauto.
Qed.

Lemma alignment_loop_returns (n : nat) :
  countries self <> [] ->
  two_continents self ->
  forall rng,
    exists examples rng',
      alignment_loop self (output_rep_source_sampler self) n rng
      = Ok (examples, rng').
Proof.
  intros Hne Htwo. induction n as [|n IH]; intros rng;
    cbn [alignment_loop]; [eauto|].
  destruct (sample_alignment_example_returns rng Hne Htwo)
    as (ex & rng1 & ->).
  cbn [mbind res_mbind res_bind fst snd].
  destruct (IH rng1) as (rest & rng2 & ->).
  cbn [mbind res_mbind res_bind fst snd]. eauto.
Qed.

Lemma alignment_loop_continent1 (n : nat) (rng : Rng) :
  countries self <> [] ->
  alignment_loop self (continent1_source_sampler self) (S n) rng
  = Raise (NameError "base_continent2").
Proof.
  intros Hne. cbn [alignment_loop]. unfold sample_alignment_example.
  destruct (random_choice_nonempty (countries self) rng Hne)
    as (b1 & -> & Hin1).
  cbn [mbind res_mbind res_bind fst snd].
  destruct (known_country self self_consistent b1 Hin1) as (k1 & -> & _).
  cbn [mbind res_mbind res_bind].
  destruct (random_choice_nonempty (countries self) (tl rng) Hne)
    as (b2 & -> & Hin2).
  cbn [mbind res_mbind res_bind fst snd].
  destruct (known_country self self_consistent b2 Hin2) as (k2 & -> & _).
  cbn [mbind res_mbind res_bind].
  destruct (random_choice_nonempty ["Yes"; "No"] (tl (tl rng)))
    as (ctf & -> & _); [discriminate|].
  cbn [mbind res_mbind res_bind fst snd].
  rewrite continent1_source_sampler_raises. reflexivity.
Qed.

End AlignmentFacts.

(** X19: for a task with consistent attributes, the source pair that
    [output_rep_source_sampler] returns fits the counterfactual label it was
    given, which it returns unchanged: two countries of different
    continents for "No", two countries of the same continent for any other
    label.  The base countries play no part. *)
Theorem output_rep_source_fits_label (self : ContinentMatchingTask)
    (b1 b2 ctf : string) (rng : Rng) (s1 s2 lbl : string) (rng' : Rng) :
  consistent self ->
  output_rep_source_sampler self b1 b2 ctf rng = Ok (s1, s2, lbl, rng') ->
  lbl = ctf
  /\ (exists c1 c2,
         continent_of self s1 = Some c1
         /\ continent_of self s2 = Some c2
         /\ (ctf = "No" -> c1 <> c2)
         /\ (ctf <> "No" -> c1 = c2))
  /\ forall b1' b2',
       output_rep_source_sampler self b1' b2' ctf rng
       = Ok (s1, s2, lbl, rng').
Proof.
  intros Hc E. destruct (output_rep_label self Hc _ _ _ _ _ _ _ _ E)
    as [Hl Hex].
  split; [exact Hl|]. split; [exact Hex|]. intros b1' b2'. exact E.
Qed.

Lemma output_rep_source_fits_label_witness :
  "No" = "No"
  /\ (exists c1 c2,
         continent_of small_task "Japan" = Some c1
         /\ continent_of small_task "France" = Some c2
         /\ ("No" = "No" -> c1 <> c2)
         /\ ("No" <> "No" -> c1 = c2))
  /\ forall b1' b2',
       output_rep_source_sampler small_task b1' b2' "No" [0; 1; 0]%nat
       = Ok ("Japan", "France", "No", []).
Proof.
  exact (output_rep_source_fits_label small_task "Spain" "Spain" "No"
           [0; 1; 0]%nat "Japan" "France" "No" [] (init_consistent _ _)
           eq_refl).
Defined.

(** X20: [alignment_example_sampler] with the output sampler, on a task with
    consistent attributes: when it returns, it returns as many examples as
    asked for (none for a negative number), and the target of each is the
    truthful label of its source prompt, "Yes" exactly when the two source
    countries are of the same continent; the base pair does not bear on the
    target.  It does return when the task has a country and two
    continents. *)
Theorem alignment_examples_are_labelled_by_source
    (self : ContinentMatchingTask) (n_examples : Z) (rng : Rng) :
  consistent self ->
  (forall examples rng',
      alignment_example_sampler self n_examples
        (output_rep_source_sampler self) rng = Ok (examples, rng') ->
      length examples = Z.to_nat n_examples
      /\ Forall (source_labelled self) examples)
  /\ (countries self <> [] -> two_continents self ->
      exists examples rng',
        alignment_example_sampler self n_examples
          (output_rep_source_sampler self) rng = Ok (examples, rng')).
Proof.
  intros Hc. unfold alignment_example_sampler. split.
  - intros examples rng'. apply alignment_loop_labelled. exact Hc.
  - intros Hne Htwo. apply alignment_loop_returns; assumption.
Qed.

Lemma small_task_two_continents : two_continents small_task.
Proof.
  exists "Asia", "Europe". vm_compute. repeat split; auto. discriminate.
Qed.

Lemma alignment_examples_are_labelled_by_source_witness :
  (forall examples rng',
      alignment_example_sampler small_task 3
        (output_rep_source_sampler small_task) [] = Ok (examples, rng') ->
      length examples = Z.to_nat 3
      /\ Forall (source_labelled small_task) examples)
  /\ (countries small_task <> [] -> two_continents small_task ->
      exists examples rng',
        alignment_example_sampler small_task 3
          (output_rep_source_sampler small_task) [] = Ok (examples, rng')).
Proof.
  exact (alignment_examples_are_labelled_by_source small_task 3 []
           (init_consistent _ _)).
Defined.

(** X21: [alignment_example_sampler] with [continent1_source_sampler] never
    yields an example: asked for none it returns the empty list, and asked
    for at least one, on a task with consistent attributes and a country, it
    raises [NameError] in the first round. *)
Theorem continent1_sampler_yields_no_example (self : ContinentMatchingTask)
    (n_examples : Z) (rng : Rng) :
  consistent self ->
  countries self <> [] ->
  alignment_example_sampler self n_examples
    (continent1_source_sampler self) rng
  = if n_examples <=? 0 then Ok ([], rng)
    else Raise (NameError "base_continent2").
Proof.
  intros Hc Hne. unfold alignment_example_sampler.
  destruct (n_examples <=? 0) eqn:E.
  - replace (Z.to_nat n_examples) with 0%nat by lia. reflexivity.
  - destruct (Z.to_nat n_examples) as [|n] eqn:En; [lia|].
    apply alignment_loop_continent1; assumption.
Qed.

Lemma continent1_sampler_yields_no_example_witness :
  alignment_example_sampler small_task 5
    (continent1_source_sampler small_task) [3; 1; 4]%nat
  = Raise (NameError "base_continent2").
Proof.
  exact (continent1_sampler_yields_no_example small_task 5 [3; 1; 4]%nat
           (init_consistent _ _) small_task_has_countries).
Defined.

(** ** Encoded sources *)

Section SourceFacts.
Context `{Tokenizer}.

Lemma encode_loop_sources (examples : list Example) :
  forall acc enc,
    encode_loop examples acc = Ok enc ->
    all_source_input_ids enc
    = all_source_input_ids acc ++ encoded_sources examples.
Proof.
  induction examples as [|e rest IH]; intros acc enc.
  - cbn [encode_loop]. intros C. injection C as <-.
    cbn. rewrite app_nil_r. reflexivity.
  - cbn [encode_loop]. rewrite py_set_last_repeat
      by (rewrite tokenizer_call_length; lia).
    cbn [mbind res_mbind res_bind]. intros E. apply IH in E. rewrite E.
    cbn [all_source_input_ids]. unfold encoded_sources.
    cbn [omap list_omap]. destruct (source_inputs e) as [s|].
    + rewrite <- app_assoc. reflexivity.
    + reflexivity.
Qed.

Lemma encode_examples_full (examples : list Example) :
  exists enc,
    _encode_examples examples = Ok enc
    /\ all_input_ids enc
       = map (fun e => tokenizer_call (inputs e) 40) examples
    /\ all_output_ids enc
       = map (fun e => labels_of (inputs e) (targets e)) examples
    /\ all_source_input_ids enc = encoded_sources examples.
Proof.
  unfold _encode_examples.
  destruct (encode_loop_spec examples
              {| all_input_ids := []; all_source_input_ids := [];
                 all_output_ids := [] |}) as (enc & E & Hi & Ho).
  exists enc. split; [exact E|]. split; [exact Hi|]. split; [exact Ho|].
  apply encode_loop_sources in E. exact E.
Qed.

Lemma encoded_sources_lengths (examples : list Example) :
  Forall (fun ids => (30 <= length ids)%nat) (encoded_sources examples).
Proof.
  unfold encoded_sources.
  induction examples as [|e rest IH]; cbn [omap list_omap]; [constructor|].
  destruct (source_inputs e) as [s|]; [|exact IH].
  constructor; [|exact IH].
  unfold _encode_string. rewrite tokenizer_call_length. lia.
Qed.

Lemma encoded_sources_all (examples : list Example) :
  Forall (fun e => source_inputs e <> None) examples ->
  length (encoded_sources examples) = length examples.
Proof.
  unfold encoded_sources. induction 1 as [|e rest He _ IH]; [reflexivity|].
  cbn [omap list_omap]. destruct (source_inputs e); [|congruence].
  cbn [length]. f_equal. exact IH.
Qed.

Lemma encoded_sources_none (examples : list Example) :
  Forall (fun e => source_inputs e = None) examples ->
  encoded_sources examples = [].
Proof.
  unfold encoded_sources. induction 1 as [|e rest He _ IH]; [reflexivity|].
  cbn [omap list_omap]. rewrite He. exact IH.
Qed.

End SourceFacts.

(** X22: [_encode_examples] always returns; its source rows are the
    encodings of the ['source_inputs'] of the examples that have one, in
    order, each padded to 30 tokens at least while the inputs are padded to
    40; the caller gets the source rows (three values to unpack) exactly
    when there is one, so a list without sources, the empty list among
    them, gives two values. *)
Theorem encode_examples_sources `{Tokenizer} (examples : list Example) :
  exists enc,
    _encode_examples examples = Ok enc
    /\ all_source_input_ids enc = encoded_sources examples
    /\ Forall (fun ids => (30 <= length ids)%nat) (all_source_input_ids enc)
    /\ Forall (fun ids => (40 <= length ids)%nat) (all_input_ids enc)
    /\ (Forall (fun e => source_inputs e = None) examples ->
        unpack2 enc = Ok (all_input_ids enc, all_output_ids enc)
        /\ exists msg, unpack3 enc = Raise (ValueError msg))
    /\ (forall e, In e examples -> source_inputs e <> None ->
        unpack3 enc
        = Ok (all_input_ids enc, all_source_input_ids enc,
              all_output_ids enc)
        /\ exists msg, unpack2 enc = Raise (ValueError msg)).
Proof.
  destruct (encode_examples_full examples) as (enc & E & Hi & Ho & Hs).
  exists enc. split; [exact E|]. split; [exact Hs|]. split; [|split].
  - rewrite Hs. apply encoded_sources_lengths.
  - rewrite Hi. apply Forall_forall. intros ids Hin.
    apply list_elem_of_In, in_map_iff in Hin as (e & <- & _).
    rewrite tokenizer_call_length. lia.
  - split.
    + intros Hnone. unfold unpack2, unpack3.
      rewrite Hs, encoded_sources_none by exact Hnone. eauto.
    + intros e Hin Hsrc. unfold unpack2, unpack3. rewrite Hs.
      assert (Hne : encoded_sources examples <> []).
      { unfold encoded_sources. clear -Hin Hsrc.
        induction examples as [|x rest IH]; [destruct Hin|].
        cbn [omap list_omap].
        destruct Hin as [->|Hin].
        - destruct (source_inputs e); [discriminate|congruence].
        - destruct (source_inputs x); [discriminate|auto]. }
      destruct (encoded_sources examples); [congruence|]. eauto.
Qed.

(** ** [prepare_dataloader] *)

Lemma py_slice_Forall {A : Type} (P : A -> Prop) (xs : list A)
    (lo hi : option Z) :
  Forall P xs -> Forall P (py_slice xs lo hi).
Proof.
  intros Hall. unfold py_slice. cbv zeta.
  apply Forall_take, Forall_drop. exact Hall.
Qed.

Lemma py_slice_lengths {A : Type} (xs : list A) (a b : Z) :
  0 <= a -> 0 <= b -> Z.of_nat (length xs) = a + b + b ->
  length (py_slice xs None (Some a)) = Z.to_nat a
  /\ length (py_slice xs (Some a) (Some (a + b))) = Z.to_nat b
  /\ length (py_slice xs (Some (a + b)) None) = Z.to_nat b.
Proof.
  intros Ha Hb Hlen. unfold py_slice, py_slice_index. cbv zeta.
  rewrite Hlen.
  destruct (a <? 0) eqn:E1; [lia|].
  destruct (a + b <? 0) eqn:E2; [lia|].
  rewrite !length_take, !length_drop.
  repeat split; lia.
Qed.

Lemma map_const_repeat {A : Type} (l : list A) :
  map (fun _ => 0) l = repeat 0 (length l).
Proof. induction l as [|x l IH]; cbn; congruence. Qed.

Lemma make_dataloader_ok {D : Type} (dataset : D) (batch_size : Z) :
  1 <= batch_size ->
  make_dataloader dataset batch_size
  = Ok {| dl_dataset := dataset; dl_batch_size := batch_size |}.
Proof.
  intros Hb. unfold make_dataloader.
  destruct (batch_size <=? 0) eqn:E; [lia|reflexivity].
Qed.

Section DataloaderFacts.
Context `{Tokenizer}.
Variable self : ContinentMatchingTask.
Hypothesis self_consistent : consistent self.
Hypothesis some_country : countries self <> [].
Hypothesis some_continents : two_continents self.

Lemma prealign_loop_balanced (n : nat) :
  forall rng,
    exists examples rng',
      prealign_loop self n rng = Ok (examples, rng')
      /\ Forall (fun e => source_inputs e = None) examples
      /\ length examples = (2 * n)%nat
      /\ map (fun e => [convert_tokens_to_ids (targets e)]) examples
         = balanced_labels n.
Proof.
  induction n as [|n IH]; intros rng; cbn [prealign_loop].
  - exists [], rng. repeat split; constructor.
  - destruct (sample_single_example_returns self self_consistent
                (Some true) None rng some_country)
      as (a & rng1 & Ea); [discriminate|].
    rewrite Ea. cbn [mbind res_mbind res_bind fst snd].
    destruct (sample_single_example_returns self self_consistent
                (Some false) None rng1 some_country)
      as (b & rng2 & Eb); [intros _; exact some_continents|].
    rewrite Eb. cbn [mbind res_mbind res_bind fst snd].
    destruct (IH rng2) as (rest & rng3 & -> & Hnone & Hlen & Hlab).
    cbn [mbind res_mbind res_bind fst snd].
    apply (sample_single_example_label self self_consistent) in Ea
      as (_ & _ & _ & _ & _ & Hsa & _ & _ & _ & Hya & _).
    apply (sample_single_example_label self self_consistent) in Eb
      as (_ & _ & _ & _ & _ & Hsb & _ & _ & _ & _ & Hnb).
    exists (a :: b :: rest), rng3. split; [reflexivity|]. split; [|split].
    + repeat constructor; assumption.
    + cbn [length]. lia.
    + cbn [map balanced_labels]. rewrite (Hya eq_refl), (Hnb eq_refl), Hlab.
      reflexivity.
Qed.

Lemma alignment_dataset_rows (examples : list Example) :
  examples <> [] ->
  Forall (fun e => source_inputs e <> None) examples ->
  exists ds,
    alignment_dataset examples = Ok ds
    /\ dataset_rows (length examples) ds.
Proof.
  intros Hne Hsrc. unfold alignment_dataset.
  destruct (encode_examples_full examples) as (enc & -> & Hi & Ho & Hs).
  cbn [mbind res_mbind res_bind]. unfold unpack3.
  pose proof (encoded_sources_all examples Hsrc) as Hlen.
  rewrite <- Hs in Hlen.
  destruct (all_source_input_ids enc) as [|s0 srcs] eqn:Es.
  { destruct examples; [congruence|discriminate]. }
  cbn [mbind res_mbind res_bind]. eexists. split; [reflexivity|].
  unfold dataset_rows.
  cbn [ad_input_ids ad_labels ad_output_only_labels ad_source_input_ids
       ad_intervention_ids].
  rewrite Hi, Ho, !length_map, map_const_repeat, Hlen. auto.
Qed.

Lemma alignment_dataset_empty :
  alignment_dataset []
  = Raise (ValueError "not enough values to unpack (expected 3, got 2)").
Proof. reflexivity. Qed.

Lemma source_labelled_has_source (examples : list Example) :
  Forall (source_labelled self) examples ->
  Forall (fun e => source_inputs e <> None) examples.
Proof.
  intros Hall. eapply Forall_impl; [exact Hall|].
  intros e (b1 & b2 & s1 & s2 & c1 & c2 & _ & _ & _ & Hs & _).
  rewrite Hs. discriminate.
Qed.

Lemma prealign_dataset_ok (n : nat) (rng : Rng) :
  exists examples rng' enc,
    prealign_loop self n rng = Ok (examples, rng')
    /\ _encode_examples examples = Ok enc
    /\ unpack2 enc = Ok (all_input_ids enc, all_output_ids enc)
    /\ length (all_input_ids enc) = (2 * n)%nat
    /\ length (all_output_ids enc) = (2 * n)%nat
    /\ map py_last_slice (all_output_ids enc) = balanced_labels n.
Proof.
  destruct (prealign_loop_balanced n rng)
    as (examples & rng' & E & Hnone & Hlen & Hlab).
  destruct (encode_examples_full examples) as (enc & Ee & Hi & Ho & Hs).
  exists examples, rng', enc. split; [exact E|]. split; [exact Ee|].
  split; [|split; [|split]].
  - unfold unpack2. rewrite Hs, encoded_sources_none by exact Hnone.
    reflexivity.
  - rewrite Hi, length_map. exact Hlen.
  - rewrite Ho, length_map. exact Hlen.
  - rewrite Ho, map_map, <- Hlab. apply map_ext. intros e.
    unfold labels_of. apply py_last_slice_snoc.
Qed.

Lemma prepare_dataloader_output_rep (eval_batch_size train_batch_size : Z)
    (task_name : string) (n_train n_eval : Z) (rng : Rng) :
  contains "continent_map" task_name = false ->
  contains "output_rep" task_name = true ->
  1 <= n_train -> 1 <= n_eval ->
  1 <= eval_batch_size -> 1 <= train_batch_size ->
  exists p rng',
    prepare_dataloader self eval_batch_size train_batch_size task_name
      n_train n_eval rng = Ok (p, rng')
    /\ length (ds_input_ids (dl_dataset (prep_prealign p)))
       = (2 * Z.to_nat (n_eval / 2))%nat
    /\ length (ds_labels (dl_dataset (prep_prealign p)))
       = (2 * Z.to_nat (n_eval / 2))%nat
    /\ ds_output_only_labels (dl_dataset (prep_prealign p))
       = balanced_labels (Z.to_nat (n_eval / 2))
    /\ dataset_rows (Z.to_nat n_train) (dl_dataset (prep_train p))
    /\ dataset_rows (Z.to_nat n_eval) (dl_dataset (prep_dev p))
    /\ dataset_rows (Z.to_nat n_eval) (dl_dataset (prep_test p))
    /\ dl_batch_size (prep_prealign p) = eval_batch_size
    /\ dl_batch_size (prep_train p) = train_batch_size
    /\ dl_batch_size (prep_dev p) = eval_batch_size
    /\ dl_batch_size (prep_test p) = eval_batch_size.
Proof.
  intros Hcm Hor Ht He Heb Htb. unfold prepare_dataloader.
  destruct (prealign_dataset_ok (Z.to_nat (n_eval / 2)) rng)
    as (pex & rng1 & enc & -> & Ee & Eu & Hli & Hlo & Hlab).
  cbn [mbind res_mbind res_bind fst snd]. rewrite Ee.
  cbn [mbind res_mbind res_bind]. rewrite Eu.
  cbn [mbind res_mbind res_bind fst snd].
  rewrite !make_dataloader_ok by assumption.
  cbn [mbind res_mbind res_bind]. rewrite Hcm, Hor.
  unfold alignment_example_sampler.
  destruct (alignment_loop_returns self self_consistent
              (Z.to_nat (n_train + n_eval + n_eval)) some_country
              some_continents rng1) as (examples & rng2 & Ea).
  rewrite Ea. cbn [mbind res_mbind res_bind fst snd]. cbv zeta.
  apply (alignment_loop_labelled self self_consistent) in Ea
    as [Hlen Hall].
  apply source_labelled_has_source in Hall.
  destruct (py_slice_lengths examples n_train n_eval) as (L1 & L2 & L3);
    [lia | lia | rewrite Hlen; lia |].
  destruct (alignment_dataset_rows (py_slice examples None (Some n_train)))
    as (d1 & -> & R1).
  { intros E. rewrite E in L1. cbn [length] in L1. lia. }
  { apply py_slice_Forall. exact Hall. }
  cbn [mbind res_mbind res_bind].
  destruct (alignment_dataset_rows
              (py_slice examples (Some n_train) (Some (n_train + n_eval))))
    as (d2 & -> & R2).
  { intros E. rewrite E in L2. cbn [length] in L2. lia. }
  { apply py_slice_Forall. exact Hall. }
  cbn [mbind res_mbind res_bind].
  destruct (alignment_dataset_rows
              (py_slice examples (Some (n_train + n_eval)) None))
    as (d3 & -> & R3).
  { intros E. rewrite E in L3. cbn [length] in L3. lia. }
  { apply py_slice_Forall. exact Hall. }
  cbn [mbind res_mbind res_bind].
  rewrite !make_dataloader_ok by assumption.
  cbn [mbind res_mbind res_bind]. eexists. eexists.
  split; [reflexivity|].
  cbn [prep_prealign prep_train prep_dev prep_test dl_dataset dl_batch_size
       ds_input_ids ds_labels ds_output_only_labels].
  rewrite L1 in R1. rewrite L2 in R2. rewrite L3 in R3.
  do 9 (split; [first [assumption|reflexivity]|]). reflexivity.
Qed.

Lemma prepare_dataloader_failures (eval_batch_size train_batch_size : Z)
    (task_name : string) (n_train n_eval : Z) (rng : Rng) :
  1 <= eval_batch_size ->
  (contains "continent_map" task_name = true ->
   1 <= n_train + n_eval + n_eval ->
   prepare_dataloader self eval_batch_size train_batch_size task_name
     n_train n_eval rng = Raise (NameError "base_continent2"))
  /\ (contains "continent_map" task_name = false ->
      contains "output_rep" task_name = false ->
      prepare_dataloader self eval_batch_size train_batch_size task_name
        n_train n_eval rng
      = Raise (ValueError "Invalid continent matching task name!"))
  /\ (contains "continent_map" task_name = false ->
      contains "output_rep" task_name = true ->
      0 <= n_train -> 0 <= n_eval -> n_train = 0 \/ n_eval = 0 ->
      prepare_dataloader self eval_batch_size train_batch_size task_name
        n_train n_eval rng
      = Raise
          (ValueError "not enough values to unpack (expected 3, got 2)")).
Proof.
  intros Heb. unfold prepare_dataloader.
  destruct (prealign_dataset_ok (Z.to_nat (n_eval / 2)) rng)
    as (pex & rng1 & enc & -> & Ee & Eu & _).
  cbn [mbind res_mbind res_bind fst snd]. rewrite Ee.
  cbn [mbind res_mbind res_bind]. rewrite Eu.
  cbn [mbind res_mbind res_bind fst snd].
  rewrite make_dataloader_ok by assumption.
  cbn [mbind res_mbind res_bind].
  split; [|split].
  - intros -> Hn. unfold alignment_example_sampler.
    destruct (Z.to_nat (n_train + n_eval + n_eval)) as [|n] eqn:En; [lia|].
    rewrite (alignment_loop_continent1 self self_consistent n rng1
               some_country).
    reflexivity.
  - intros -> ->. reflexivity.
  - intros -> -> Ht He Hz. unfold alignment_example_sampler.
    destruct (alignment_loop_returns self self_consistent
                (Z.to_nat (n_train + n_eval + n_eval)) some_country
                some_continents rng1) as (examples & rng2 & Ea).
    rewrite Ea. cbn [mbind res_mbind res_bind fst snd]. cbv zeta.
    apply (alignment_loop_labelled self self_consistent) in Ea
      as [Hlen Hall].
    apply source_labelled_has_source in Hall.
    destruct (py_slice_lengths examples n_train n_eval) as (L1 & L2 & L3);
      [lia | lia | rewrite Hlen; lia |].
    assert (Hz' : n_train = 0 \/ (1 <= n_train /\ n_eval = 0)) by lia.
    clear Hz. destruct Hz' as [-> | [Hpos ->]].
    + assert (E1 : py_slice examples None (Some 0) = [])
        by (apply length_zero_iff_nil; rewrite L1; reflexivity).
      rewrite E1, alignment_dataset_empty. reflexivity.
    + destruct (alignment_dataset_rows
                  (py_slice examples None (Some n_train)))
        as (d1 & -> & R1).
      { intros E. rewrite E in L1. cbn [length] in L1. lia. }
      { apply py_slice_Forall. exact Hall. }
      cbn [mbind res_mbind res_bind].
      assert (E2 : py_slice examples (Some n_train) (Some (n_train + 0))
                   = [])
        by (apply length_zero_iff_nil; rewrite L2; reflexivity).
      rewrite E2, alignment_dataset_empty. reflexivity.
Qed.

End DataloaderFacts.

(** X23: [prepare_dataloader] for the output-sampler variant of the task
    (a task name with "output_rep" and without "continent_map"), on a task
    with consistent attributes, a country and two continents, asked for at
    least one training and one evaluation example: it returns; the
    pre-alignment set has two examples for every full pair in [n_eval], with
    the labels "Yes" and "No" in turn (so it is balanced, and it is empty
    for [n_eval = 1]); the training set has [n_train] rows, the dev and test
    sets [n_eval] rows each, all columns of a set as long as the set, every
    intervention id 0; training batches have the training batch size, all
    others the evaluation batch size.  Both batch sizes have to be
    positive. *)
Theorem prepare_dataloader_sizes `{Tokenizer} (self : ContinentMatchingTask)
    (eval_batch_size train_batch_size : Z) (task_name : string)
    (n_train n_eval : Z) (rng : Rng) :
  consistent self ->
  countries self <> [] ->
  two_continents self ->
  contains "continent_map" task_name = false ->
  contains "output_rep" task_name = true ->
  1 <= n_train -> 1 <= n_eval ->
  1 <= eval_batch_size -> 1 <= train_batch_size ->
  exists p rng',
    prepare_dataloader self eval_batch_size train_batch_size task_name
      n_train n_eval rng = Ok (p, rng')
    /\ length (ds_input_ids (dl_dataset (prep_prealign p)))
       = (2 * Z.to_nat (n_eval / 2))%nat
    /\ length (ds_labels (dl_dataset (prep_prealign p)))
       = (2 * Z.to_nat (n_eval / 2))%nat
    /\ ds_output_only_labels (dl_dataset (prep_prealign p))
       = balanced_labels (Z.to_nat (n_eval / 2))
    /\ dataset_rows (Z.to_nat n_train) (dl_dataset (prep_train p))
    /\ dataset_rows (Z.to_nat n_eval) (dl_dataset (prep_dev p))
    /\ dataset_rows (Z.to_nat n_eval) (dl_dataset (prep_test p))
    /\ dl_batch_size (prep_prealign p) = eval_batch_size
    /\ dl_batch_size (prep_train p) = train_batch_size
    /\ dl_batch_size (prep_dev p) = eval_batch_size
    /\ dl_batch_size (prep_test p) = eval_batch_size.
Proof. intros. apply prepare_dataloader_output_rep; assumption. Qed.

Lemma prepare_dataloader_sizes_witness :
  exists p rng',
    @prepare_dataloader char_tokenizer small_task 128 16
      "continent_matching_output_rep" 3 1 [] = Ok (p, rng')
    /\ length (ds_input_ids (dl_dataset (prep_prealign p)))
       = (2 * Z.to_nat (1 / 2))%nat
    /\ length (ds_labels (dl_dataset (prep_prealign p)))
       = (2 * Z.to_nat (1 / 2))%nat
    /\ ds_output_only_labels (dl_dataset (prep_prealign p))
       = @balanced_labels char_tokenizer (Z.to_nat (1 / 2))
    /\ dataset_rows (Z.to_nat 3) (dl_dataset (prep_train p))
    /\ dataset_rows (Z.to_nat 1) (dl_dataset (prep_dev p))
    /\ dataset_rows (Z.to_nat 1) (dl_dataset (prep_test p))
    /\ dl_batch_size (prep_prealign p) = 128
    /\ dl_batch_size (prep_train p) = 16
    /\ dl_batch_size (prep_dev p) = 128
    /\ dl_batch_size (prep_test p) = 128.
Proof.
  apply (@prepare_dataloader_sizes char_tokenizer small_task 128 16
           "continent_matching_output_rep" 3 1 []).
  - apply init_consistent.
  - apply small_task_has_countries.
  - apply small_task_two_continents.
  - reflexivity.
  - reflexivity.
  - lia.
  - lia.
  - lia.
  - lia.
Defined.

(** X24: on a task with consistent attributes, a country and two
    continents, and with a positive evaluation batch size,
    [prepare_dataloader] fails, after it has sampled the pre-alignment
    examples, in these cases: for a task name with "continent_map" and at
    least one example to sample, with the [NameError] of
    [continent1_source_sampler]; for a task name with neither
    "continent_map" nor "output_rep", with [ValueError]; and for the output
    variant asked for no training example or for no evaluation example,
    with the [ValueError] of unpacking three values from the two that
    [_encode_examples] returns for an empty list. *)
Theorem prepare_dataloader_fails `{Tokenizer} (self : ContinentMatchingTask)
    (eval_batch_size train_batch_size : Z) (task_name : string)
    (n_train n_eval : Z) (rng : Rng) :
  consistent self ->
  countries self <> [] ->
  two_continents self ->
  1 <= eval_batch_size ->
  (contains "continent_map" task_name = true ->
   1 <= n_train + n_eval + n_eval ->
   prepare_dataloader self eval_batch_size train_batch_size task_name
     n_train n_eval rng = Raise (NameError "base_continent2"))
  /\ (contains "continent_map" task_name = false ->
      contains "output_rep" task_name = false ->
      prepare_dataloader self eval_batch_size train_batch_size task_name
        n_train n_eval rng
      = Raise (ValueError "Invalid continent matching task name!"))
  /\ (contains "continent_map" task_name = false ->
      contains "output_rep" task_name = true ->
      0 <= n_train -> 0 <= n_eval -> n_train = 0 \/ n_eval = 0 ->
      prepare_dataloader self eval_batch_size train_batch_size task_name
        n_train n_eval rng
      = Raise
          (ValueError "not enough values to unpack (expected 3, got 2)")).
Proof. intros. apply prepare_dataloader_failures; assumption. Qed.

Lemma prepare_dataloader_fails_witness :
  @prepare_dataloader char_tokenizer small_task 128 128
    "continent_matching_continent_map" 10 4 []
  = Raise (NameError "base_continent2").
Proof.
  destruct (@prepare_dataloader_fails char_tokenizer small_task 128 128
              "continent_matching_continent_map" 10 4 []
              (init_consistent _ _) small_task_has_countries
              small_task_two_continents ltac:(lia)) as [Hmap _].
  apply Hmap; [reflexivity|lia].
Defined.

(** * Further failure modes *)

(** ** An empty test set *)


Section EmptyTestSet.
Context `{FloatOps} `{ModelOracle}.
Variable self : Aligner.
Variable m : Model.
Variables train_dataloader dev_dataloader test_dataloader : list Batch.
Variables log_step valid_steps epochs gradient_accumulation_steps : Z.

Hypothesis on_master : is_master self = true.
Hypothesis log_step_nonzero : log_step <> 0.
Hypothesis valid_steps_nonzero : valid_steps <> 0.
Hypothesis accumulation_nonzero : gradient_accumulation_steps <> 0.
Hypothesis dev_nonempty :
  forall m', (eval_counts m' dev_dataloader).1 <> 0.
Hypothesis some_steps :
  (0 < length train_dataloader * Z.to_nat epochs)%nat.
Hypothesis test_empty :
  forall m', (eval_counts m' test_dataloader).1 = 0.





End EmptyTestSet.



(** ** Batches of different sizes in [compute_metrics] *)

Section Broadcast.
Context `{FloatOps}.
Variable argmax : list Q -> Z.

Lemma last_column_rows {A : Type} (rows : list (list A)) (d : A) :
  Forall (fun row => row <> []) rows ->
  last_column rows = Ok (map (fun row => default d (last row)) rows).
Proof.
  induction 1 as [|row rows Hrow _ IH]; [reflexivity|].
  cbn [last_column map]. unfold py_last.
  destruct (last row) as [x|] eqn:E.
  - cbn [mbind res_mbind res_bind]. rewrite IH. reflexivity.
  - apply last_None in E. contradiction.
Qed.

Lemma compute_metrics_one_label (eval_pred : list (list (list Q)))
    (label_row : list Z) (y : Z) :
  Forall (fun row => row <> []) eval_pred ->
  last label_row = Some y ->
  compute_metrics argmax [eval_pred] [[label_row]]
  = rounded_accuracy
      (tensor_sum
         (map (fun row => Z.eqb y (argmax (default [] (last row))))
            eval_pred))
      (Z.of_nat (length eval_pred)).
Proof.
  intros Hrows Hy. unfold compute_metrics. cbn [zip_with metrics_loop].
  unfold batch_counts. cbn [last_column]. unfold py_last at 1. rewrite Hy.
  cbn [mbind res_mbind res_bind].
  rewrite (last_column_rows eval_pred [] Hrows).
  cbn [mbind res_mbind res_bind]. unfold tensor_eq.
  rewrite !length_map. cbn [length].
  destruct eval_pred as [|p0 [|p1 ps]].
  - reflexivity.
  - reflexivity.
  - cbn [Nat.eqb length map mbind res_mbind res_bind fst snd].
    rewrite !length_map, !map_map. reflexivity.
Qed.

Lemma compute_metrics_mismatch (eval_pred : list (list (list Q)))
    (eval_label : list (list Z)) :
  Forall (fun row => row <> []) eval_pred ->
  Forall (fun row => row <> []) eval_label ->
  length eval_pred <> length eval_label ->
  (2 <= length eval_pred)%nat -> (2 <= length eval_label)%nat ->
  compute_metrics argmax [eval_pred] [eval_label] = Raise RuntimeError.
Proof.
  intros Hp Hl Hne H2p H2l. unfold compute_metrics.
  cbn [zip_with metrics_loop]. unfold batch_counts.
  rewrite (last_column_rows eval_label 0 Hl).
  cbn [mbind res_mbind res_bind].
  rewrite (last_column_rows eval_pred [] Hp).
  cbn [mbind res_mbind res_bind]. unfold tensor_eq.
  rewrite !length_map.
  destruct (Nat.eqb_spec (length eval_label) (length eval_pred)) as [E|_];
    [congruence|].
  destruct eval_label as [|l0 [|l1 ls]]; cbn [length] in H2l; try lia.
  destruct eval_pred as [|p0 [|p1 ps]]; cbn [length] in H2p; try lia.
  reflexivity.
Qed.

End Broadcast.

(** X26: [compute_metrics] does not check that a batch of predictions and
    its batch of labels have the same number of rows.  A batch with a
    single label row is compared, by broadcasting, with every prediction of
    the batch, and every prediction is counted; two batches of different
    sizes, each of two rows or more, raise [RuntimeError]. *)
Theorem compute_metrics_broadcasts_single_label `{FloatOps}
    (argmax : list Q -> Z) (eval_pred : list (list (list Q)))
    (eval_label : list (list Z)) :
  Forall (fun row => row <> []) eval_pred ->
  (forall label_row y,
      eval_label = [label_row] -> last label_row = Some y ->
      compute_metrics argmax [eval_pred] [eval_label]
      = rounded_accuracy
          (tensor_sum
             (map (fun row => Z.eqb y (argmax (default [] (last row))))
                eval_pred))
          (Z.of_nat (length eval_pred)))
  /\ (Forall (fun row => row <> []) eval_label ->
      length eval_pred <> length eval_label ->
      (2 <= length eval_pred)%nat -> (2 <= length eval_label)%nat ->
      compute_metrics argmax [eval_pred] [eval_label]
      = Raise RuntimeError).
Proof.
  intros Hp. split.
  - intros label_row y -> Hy. apply compute_metrics_one_label; assumption.
  - intros Hl Hne H2p H2l. apply compute_metrics_mismatch; assumption.
Qed.

Lemma compute_metrics_broadcasts_single_label_witness :
  @compute_metrics exact_ops first_argmax
    [[[[0%Q; 1%Q]]; [[1%Q; 0%Q]]; [[0%Q; 1%Q]]]] [[[7; 1]]]
  = Ok (2 # 3)%Q.
Proof.
  destruct (@compute_metrics_broadcasts_single_label exact_ops first_argmax
              [[[0%Q; 1%Q]]; [[1%Q; 0%Q]]; [[0%Q; 1%Q]]] [[7; 1]])
    as [Hone _].
  - repeat constructor; discriminate.
  - rewrite (Hone [7; 1] 1 eq_refl eq_refl). reflexivity.
Defined.

(** * [call_model] *)

Lemma batch_get_present (keys : list string) (k : string) :
  In k keys -> batch_get keys k = Ok tt.
Proof.
  intros Hin. unfold batch_get.
  assert (E : existsb (String.eqb k) keys = true).
  { apply existsb_exists. exists k. split; [exact Hin|].
    apply String.eqb_refl. }
  rewrite E. reflexivity.
Qed.

(** X28: [call_model] for the model type "llama" never generates: it makes
    a forward pass, with the labels when they are given, and its argument
    [is_train] has no effect.  For "t5" it reads ['attention_masks'] from
    the batch, a column that the datasets of [prepare_dataloader] do not
    have, so on their batches it raises [KeyError].  For any other model
    type it raises [ValueError]. *)
Theorem call_model_dispatch :
  (forall keys labels is_train,
      In "input_ids" keys ->
      call_model "llama" keys labels is_train
      = Ok (Forward false (if labels then GivenLabels else NoLabels)))
  /\ (forall keys labels is_train,
         keys = prealign_columns \/ keys = alignment_columns ->
         call_model "t5" keys labels is_train
         = Raise (KeyError "attention_masks"))
  /\ (forall model_type keys labels is_train,
         model_type <> "t5" -> model_type <> "llama" ->
         call_model model_type keys labels is_train
         = Raise (ValueError ("Invalid model type" +:+ model_type))).
Proof.
  split; [|split].
  - intros keys labels is_train Hin. unfold call_model.
    change (String.eqb "llama" "t5") with false.
    change (String.eqb "llama" "llama") with true. cbv iota.
    rewrite (batch_get_present keys "input_ids" Hin).
    destruct labels; reflexivity.
  - intros keys labels is_train [-> | ->]; destruct is_train; reflexivity.
  - intros model_type keys labels is_train Ht Hl. unfold call_model.
    apply String.eqb_neq in Ht, Hl. rewrite Ht, Hl. reflexivity.
Qed.
